(** * keymap_drawer.config: the configuration classes and their defaults

    A shallow embedding of [src/keymap_drawer/config.py].  The module declares
    three pydantic (1.x) [BaseSettings] classes, [DrawConfig], [ParseConfig]
    and [Config]; everything it does at run time is done by the class bodies
    (evaluated once, when the module is imported) and by the constructor the
    classes inherit.  The development therefore has four layers:

    - the fragment of Python values a configuration can hold or be given
      (None, bool, int, float, str, str-keyed dict, model instance);
    - the builtins and the [textwrap.dedent] call the class bodies use;
    - the inherited constructor, after pydantic 1.x: [BaseSettings.__init__],
      [_build_values], [validate_model], [ModelField.validate] and the
      validator functions of the five annotations the module uses;
    - the three class bodies, field by field, in declaration order.

    Python floats are IEEE binary64 numbers, modelled by Rocq's primitive
    floats; Python ints are unbounded, modelled by [Z].

    A [BaseSettings] constructor also reads the process environment, dotenv
    files and a secrets directory.  They are a parameter of the model
    ([runtime]), with the conversions between numbers and text that are not
    modelled; the properties are stated for an environment in which those
    sources find nothing ([clean_environment]).  Of an instance the model
    keeps the class and the [__dict__]; [__fields_set__] is left out (no
    property reads it, and equality of instances does not). *)

From Stdlib Require Import ZArith List String Ascii Bool Lia Floats DecimalString
  Permutation.
Import ListNotations.

Open Scope string_scope.
Open Scope list_scope.
Open Scope Z_scope.

Set Implicit Arguments.
Set Warnings "-register-all".

(** ** Python values *)

(** The three classes of the module. *)
Inductive class_id : Set := DrawConfig | ParseConfig | Config.

Definition class_eqb (a b : class_id) : bool :=
  match a, b with
  | DrawConfig, DrawConfig | ParseConfig, ParseConfig | Config, Config => true
  | _, _ => false
  end.

(** A [PyDict] lists its items in insertion order, as a Python dict keeps
    them; only str keys are modelled.  A [PyModel] is an instance of one of
    the classes with its [__dict__] (field name to value). *)
Inductive pyval : Type :=
| PyNone
| PyBool (b : bool)
| PyInt (n : Z)
| PyFloat (x : float)
| PyStr (s : string)
| PyDict (items : list (string * pyval))
| PyModel (cls : class_id) (dict : list (string * pyval)).

(** ** Dicts as insertion-ordered association lists *)

Section Dict.
Context {V : Type}.

(** [d.get(k)] *)
Fixpoint dict_get (d : list (string * V)) (k : string) : option V :=
  match d with
  | [] => None
  | (k', v) :: rest => if String.eqb k' k then Some v else dict_get rest k
  end.

(** [k in d] *)
Definition dict_has (d : list (string * V)) (k : string) : bool :=
  match dict_get d k with Some _ => true | None => false end.

(** [d[k] = v]: an existing key keeps its position and takes the new
    value, a new key goes to the end. *)
Fixpoint dict_set (d : list (string * V)) (k : string) (v : V) : list (string * V) :=
  match d with
  | [] => [(k, v)]
  | (k', v') :: rest =>
      if String.eqb k' k then (k', v) :: rest else (k', v') :: dict_set rest k v
  end.

(** A dict display [{k1: v1, k2: v2, ...}]: the items are evaluated and
    stored left to right, so a repeated key is overwritten. *)
Definition dict_display (entries : list (string * V)) : list (string * V) :=
  fold_left (fun d kv => dict_set d (fst kv) (snd kv)) entries [].

Definition keys (d : list (string * V)) : list string := map fst d.

(** The value of the last entry written for [k] in a display, if any. *)
Fixpoint last_assignment (entries : list (string * V)) (k : string) : option V :=
  match entries with
  | [] => None
  | (k', v) :: rest =>
      match last_assignment rest k with
      | Some w => Some w
      | None => if String.eqb k' k then Some v else None
      end
  end.
End Dict.

(** ** Builtins *)

(** [float(n)] for an int: the nearest binary64 number, ties to even;
    [None] stands for OverflowError (the result would not be finite). *)
Definition float_of_int (n : Z) : option float :=
  match binary_normalize prec emax n 0 false with
  | S754_infinity _ => None
  | sf => Some (SF2Prim sf)
  end.

(** [int(x)] for a float: truncation towards zero; [None] stands for the
    ValueError of a NaN and the OverflowError of an infinity. *)
Definition int_of_float (x : float) : option Z :=
  match Prim2SF x with
  | S754_zero _ => Some 0
  | S754_finite s m e =>
      let a := Z.shiftl (Zpos m) e in Some (if s then - a else a)
  | S754_infinity _ | S754_nan => None
  end.

(** [a / b] on two ints, for a divisor that is not 0 and operands that are
    exact as floats (below 2^53 in magnitude), as every operand of the class
    bodies is: the quotient of the two conversions. *)
Definition int_truediv (a b : Z) : float :=
  match float_of_int a, float_of_int b with
  | Some x, Some y => PrimFloat.div x y
  | _, _ => nan
  end.

(** [x - n] for a float and an int that is exact as a float: the int is
    converted first. *)
Definition float_sub_int (x : float) (n : Z) : float :=
  match float_of_int n with
  | Some y => PrimFloat.sub x y
  | None => nan
  end.

(** [str(n)] for an int: its decimal digits, with a minus sign if negative. *)
Definition str_of_int (n : Z) : string := NilZero.string_of_int (Z.to_int n).

(** [str(b)] for a bool. *)
Definition str_of_bool (b : bool) : string := if b then "True" else "False".

(** [s.lower()] on the ASCII letters.  (The only other character whose
    lower case is an ASCII letter is the Kelvin sign, lowered to k, and no
    string [bool_validator] looks for has a k.) *)
Definition lower_ascii (c : ascii) : ascii :=
  let n := nat_of_ascii c in
  if andb (Nat.leb 65 n) (Nat.leb n 90) then ascii_of_nat (n + 32) else c.

Fixpoint str_lower (s : string) : string :=
  match s with
  | EmptyString => EmptyString
  | String c rest => String (lower_ascii c) (str_lower rest)
  end.

(** ** [textwrap.dedent] *)

Definition newline : ascii := "010"%char.

Definition is_blank_char (c : ascii) : bool :=
  orb (Ascii.eqb c " "%char) (Ascii.eqb c "009"%char).

(** [text.split('\n')] *)
Fixpoint split_lines (text : string) : list string :=
  match text with
  | EmptyString => [EmptyString]
  | String c rest =>
      if Ascii.eqb c newline then EmptyString :: split_lines rest
      else match split_lines rest with
           | [] => [String c EmptyString]
           | l :: ls => String c l :: ls
           end
  end.

Definition join_lines (ls : list string) : string :=
  String.concat (String newline EmptyString) ls.

(** The leading run of spaces and tabs of a line. *)
Fixpoint leading_whitespace (line : string) : string :=
  match line with
  | String c rest =>
      if is_blank_char c then String c (leading_whitespace rest) else EmptyString
  | EmptyString => EmptyString
  end.

(** The line matches [^[ \t]+$] or is empty. *)
Definition whitespace_only (line : string) : bool :=
  String.eqb (leading_whitespace line) line.

Fixpoint common_prefix (a b : string) : string :=
  match a, b with
  | String x a', String y b' =>
      if Ascii.eqb x y then String x (common_prefix a' b') else EmptyString
  | _, _ => EmptyString
  end.

(** One round of dedent's loop over the indents. *)
Definition narrow_margin (margin : option string) (indent : string) : option string :=
  match margin with
  | None => Some indent
  | Some m =>
      if String.prefix m indent then Some m
      else if String.prefix indent m then Some indent
      else Some (common_prefix m indent)
  end.

Definition remove_prefix (p line : string) : string :=
  if String.prefix p line
  then String.substring (String.length p) (String.length line - String.length p) line
  else line.

(** [dedent(text)]: lines of blanks are emptied, the margin is the longest
    run of blanks every other line starts with, and it is removed from each. *)
Definition dedent (text : string) : string :=
  let lines :=
    map (fun l => if whitespace_only l then EmptyString else l) (split_lines text) in
  let indents :=
    map leading_whitespace (filter (fun l => negb (whitespace_only l)) lines) in
  match fold_left narrow_margin indents None with
  | None | Some EmptyString => join_lines lines
  | Some margin => join_lines (map (remove_prefix margin) lines)
  end.

(** [needle in text] *)
Definition str_contains (needle text : string) : bool :=
  match String.index 0 needle text with Some _ => true | None => false end.

(** ** Exceptions and validation errors *)

(** What an item of [ValidationError.errors()] says went wrong: one of
    pydantic's error classes, or an exception of another class caught while
    a validator ran. *)
Inductive error_type : Set :=
| NoneIsNotAllowedError
| IntegerError
| FloatError
| StrError
| BoolError
| DictError
| ExtraError
| CaughtValueError
| CaughtTypeError.

(** An item of [errors()]: the location tuple and the error. *)
Definition error : Set := (list string * error_type)%type.

(** The exceptions of other classes that matter here.  A ValidationError
    is a ValueError, which [_apply_validators] catches: what escapes a
    validator, or fails a settings source, is one of these. *)
Inductive exception : Set := TypeError | SettingsError | OverflowError | OSError.

Inductive exn : Set :=
| ValidationError (model : class_id) (errors : list error)
| Exception (e : exception).

Inductive result (A : Type) : Type :=
| Ok (a : A)
| Raise (e : exn).
Arguments Ok {A} a.
Arguments Raise {A} e.

(** A step that cannot raise a ValidationError. *)
Inductive attempt (A : Type) : Type :=
| Done (a : A)
| Failed (e : exception).
Arguments Done {A} a.
Arguments Failed {A} e.

(** What calling a validator function does: it returns the converted value,
    raises an error that [_apply_validators] catches (a ValueError,
    TypeError or AssertionError), or raises one it lets through. *)
Inductive validated : Type :=
| Return (v : pyval)
| Rejected (e : error_type)
| Escaped (e : exception).

(** What [ModelField.validate] gives back: the value, or the errors. *)
Inductive vresult : Type :=
| Valid (v : pyval)
| Invalid (errors : list error)
| Raised (e : exception).

Definition kwargs : Type := list (string * pyval).

(** ** The interpreter and its environment

    What lies outside the module and outside this model: the settings
    sources other than the constructor's arguments, and the builtins that
    read or print numbers in text.

    - [settings_sources c opts] is [deep_update(secrets, env)] for class [c]:
      the values [SecretsSettingsSource] and [EnvSettingsSource] find for
      its fields, given the constructor's own options, or the exception
      they raise;
    - [int_of_str s] is pydantic's length guard followed by [int(s)];
    - [float_of_str s] is [float(s)]; [None] is ValueError in both;
    - [repr_float x] is [str(x)] for a float;
    - [int_max_str_digits] is [sys.get_int_max_str_digits()], 0 for no limit
      (and for interpreters that have none). *)
Record runtime : Type := {
  settings_sources : class_id -> kwargs -> attempt kwargs;
  int_of_str : string -> option Z;
  float_of_str : string -> option float;
  repr_float : float -> string;
  int_max_str_digits : nat
}.

(** No environment variable, dotenv file or secret names a field: when the
    constructor's options name no file or directory, the sources find
    nothing. *)
Definition clean_environment (rt : runtime) : Prop :=
  forall c opts,
    Forall (fun kv => snd kv = PyNone) opts -> settings_sources rt c opts = Done [].

(** ** The class bodies

    A class body is run once, top to bottom, when the module is imported:
    each annotated assignment evaluates its right-hand side, with the names
    assigned above it in scope, and pydantic records the name, the
    annotation and the value as a field with a default. *)

(** The annotations the two settings classes use: [int], [float], [str],
    [bool] and [dict[str, str]]. *)
Inductive ftype : Set := TInt | TFloat | TStr | TBool | TDict_str_str.

(** A field as the metaclass records it. *)
Record field (T : Type) : Type := {
  name : string;
  type_ : T;
  default : pyval
}.

Definition dquote : string := String "034"%char EmptyString.
Definition backslash : string := String "092"%char EmptyString.

Module DrawConfig.
(* key dimensions, non-ortho layouts use key_h for width as well *)
Definition key_w : Z := 60.
Definition key_h : Z := 56.

(* gap between two halves for ortho layout generator *)
Definition split_gap : float := int_truediv key_w 2.

(* combo box dimensions *)
Definition combo_w : float := float_sub_int (int_truediv key_w 2) 2.
Definition combo_h : float := float_sub_int (int_truediv key_h 2) 2.

(* curvature of rounded key rectangles *)
Definition key_rx : Z := 6.
Definition key_ry : Z := 6.

(* padding between keys *)
Definition inner_pad_w : Z := 2.
Definition inner_pad_h : Z := 2.

(* padding between layers *)
Definition outer_pad_w : float := int_truediv key_w 2.
Definition outer_pad_h : Z := key_h.

(* spacing between multi-line text in key labels *)
Definition line_spacing : Z := 18.

(* curve radius for combo dendrons *)
Definition arc_radius : Z := 6.

(* length multiplier for dendrons *)
Definition arc_scale : float := 1%float.

(** The text between the triple quotes: the backslash after the opening
    quotes joins the first line to them, and the last line is the
    indentation before the closing quotes. *)
Definition svg_style_literal : string :=
"        /* font and background color specifications */
        svg {
            font-family: SFMono-Regular,Consolas,Liberation Mono,Menlo,monospace;
            font-size: 14px;
            font-kerning: normal;
            text-rendering: optimizeLegibility;
            fill: #24292e;
        }

        /* default key styling */
        rect {
            fill: #f6f8fa;
            stroke: #d6d8da;
            stroke-width: 1;
        }

        /* color accent for held keys */
        .held {
            fill: #fdd;
        }

        /* color accent for combo boxes */
        .combo {
            fill: #cdf;
        }

        /* color accent for ghost (optional) keys */
        .ghost {
            fill: #ddd;
        }

        text {
            text-anchor: middle;
            dominant-baseline: middle;
        }

        /* styling for layer labels */
        .label {
            font-weight: bold;
            text-anchor: start;
            stroke: white;
            stroke-width: 2;
            paint-order: stroke;
        }

        /* styling for combo box label text */
        .small {
            font-size: 80%;
        }

        /* styling for combo dendrons */
        path {
            stroke-width: 1;
            stroke: gray;
            fill: none;
        }
    ".

Definition svg_style : string := dedent svg_style_literal.

Definition __fields__ : list (field ftype) := [
  {| name := "key_w"; type_ := TInt; default := PyInt key_w |};
  {| name := "key_h"; type_ := TInt; default := PyInt key_h |};
  {| name := "split_gap"; type_ := TInt; default := PyFloat split_gap |};
  {| name := "combo_w"; type_ := TInt; default := PyFloat combo_w |};
  {| name := "combo_h"; type_ := TInt; default := PyFloat combo_h |};
  {| name := "key_rx"; type_ := TInt; default := PyInt key_rx |};
  {| name := "key_ry"; type_ := TInt; default := PyInt key_ry |};
  {| name := "inner_pad_w"; type_ := TInt; default := PyInt inner_pad_w |};
  {| name := "inner_pad_h"; type_ := TInt; default := PyInt inner_pad_h |};
  {| name := "outer_pad_w"; type_ := TInt; default := PyFloat outer_pad_w |};
  {| name := "outer_pad_h"; type_ := TInt; default := PyInt outer_pad_h |};
  {| name := "line_spacing"; type_ := TInt; default := PyInt line_spacing |};
  {| name := "arc_radius"; type_ := TInt; default := PyInt arc_radius |};
  {| name := "arc_scale"; type_ := TFloat; default := PyFloat arc_scale |};
  {| name := "svg_style"; type_ := TStr; default := PyStr svg_style |}
].
End DrawConfig.

Module ParseConfig.
Definition preprocess : bool := true.
Definition skip_binding_parsing : bool := false.

(** The entries of the dict display, in the order they are written. *)
Definition keycode_map_entries : list (string * string) := [
  (* QMK keycodes *)
  ("MINUS", "-");
  ("MINS", "-");
  ("EQUAL", "=");
  ("EQL", "=");
  ("LEFT_BRACKET", "[");
  ("RIGHT_BRACKET", "]");
  ("BACKSLASH", backslash);
  ("BSLS", backslash);
  ("NONUS_HASH", "#");
  ("NUHS", "#");
  ("SEMICOLON", ";");
  ("SCLN", ";");
  ("QUOTE", "'");
  ("QUOT", "'");
  ("GRAVE", "`");
  ("GRV", "`");
  ("COMMA", ",");
  ("COMM", ",");
  ("DOT", ".");
  ("SLASH", "/");
  ("SLSH", "/");
  ("TILDE", "~");
  ("TILD", "~");
  ("EXCLAIM", "!");
  ("EXLM", "!");
  ("AT", "@");
  ("HASH", "#");
  ("DOLLAR", "$");
  ("DLR", "$");
  ("PERCENT", "%");
  ("PERC", "%");
  ("CIRCUMFLEX", "^");
  ("CIRC", "^");
  ("AMPERSAND", "&");
  ("AMPR", "&");
  ("ASTERISK", "*");
  ("ASTR", "*");
  ("LEFT_PAREN", "(");
  ("LPRN", "(");
  ("RIGHT_PAREN", ")");
  ("RPRN", ")");
  ("UNDERSCORE", "_");
  ("UNDS", "_");
  ("PLUS", "+");
  ("LEFT_CURLY_BRACE", "{");
  ("LCBR", "{");
  ("RIGHT_CURLY_BRACE", "}");
  ("RCBR", "}");
  ("PIPE", "|");
  ("COLON", ":");
  ("COLN", ":");
  ("DOUBLE_QUOTE", dquote);
  ("DQUO", dquote);
  ("DQT", dquote);
  ("LEFT_ANGLE_BRACKET", "<");
  ("LABK", "<");
  ("LT", "<");
  ("RIGHT_ANGLE_BRACKET", ">");
  ("RABK", ">");
  ("GT", ">");
  ("QUESTION", "?");
  ("QUES", "?");
  (* ZMK keycodes *)
  ("EXCLAMATION", "!");
  ("EXCL", "!");
  ("AT_SIGN", "@");
  ("AT", "@");
  ("HASH", "#");
  ("POUND", "#");
  ("DOLLAR", "$");
  ("DLLR", "$");
  ("PERCENT", "%");
  ("PRCNT", "%");
  ("CARET", "^");
  ("AMPERSAND", "&");
  ("AMPS", "&");
  ("ASTERISK", "*");
  ("ASTRK", "*");
  ("STAR", "*");
  ("LEFT_PARENTHESIS", "(");
  ("LPAR", "(");
  ("RIGHT_PARENTHESIS", ")");
  ("RPAR", ")");
  ("EQUAL", "=");
  ("PLUS", "+");
  ("MINUS", "-");
  ("UNDERSCORE", "_");
  ("UNDER", "_");
  ("SLASH", "/");
  ("FSLH", "/");
  ("QUESTION", "?");
  ("QMARK", "?");
  ("BACKSLASH", backslash);
  ("BSLH", backslash);
  ("PIPE", "|");
  ("NON_US_BACKSLASH", backslash);
  ("PIPE2", "|");
  ("NON_US_BSLH", "|");
  ("SEMICOLON", ";");
  ("SEMI", ";");
  ("COLON", "'");
  ("SINGLE_QUOTE", "'");
  ("SQT", dquote);
  ("APOSTROPHE", "<");
  ("APOS", ".");
  ("DOUBLE_QUOTES", dquote);
  ("DQT", dquote);
  ("COMMA", ",");
  ("LESS_THAN", "<");
  ("LT", "<");
  ("PERIOD", ".");
  ("DOT", ".");
  ("GREATER_THAN", ">");
  ("GT", ">");
  ("LEFT_BRACKET", "[");
  ("LBKT", "]");
  ("LEFT_BRACE", "{");
  ("RIGHT_BRACKET", "]");
  ("RBKT", "]");
  ("RIGHT_BRACE", "}");
  ("GRAVE", "`");
  ("TILDE", "~");
  ("NON_US_HASH", "#");
  ("NUHS", "#");
  ("TILDE2", "~")
].

Definition keycode_map : list (string * string) := dict_display keycode_map_entries.

Definition __fields__ : list (field ftype) := [
  {| name := "preprocess"; type_ := TBool; default := PyBool preprocess |};
  {| name := "skip_binding_parsing"; type_ := TBool;
     default := PyBool skip_binding_parsing |};
  {| name := "keycode_map"; type_ := TDict_str_str;
     default := PyDict (map (fun kv => (fst kv, PyStr (snd kv))) keycode_map) |}
].
End ParseConfig.

(** ** The inherited constructor (pydantic 1.x) *)

Section Pydantic.
Variable rt : runtime.

(** *** Validator functions ([pydantic.validators]) *)

(** [str(n)] with the interpreter's limit on the digits of an int. *)
Definition str_int (n : Z) : option string :=
  let digits := String.length (str_of_int (Z.abs n)) in
  if andb (negb (Nat.eqb (int_max_str_digits rt) 0))
          (Nat.ltb (int_max_str_digits rt) digits)
  then None
  else Some (str_of_int n).

(** An int that is not a bool is returned as it is; anything else goes
    through [int(v)], and what [int] refuses is an IntegerError. *)
Definition int_validator (v : pyval) : validated :=
  match v with
  | PyInt n => Return (PyInt n)
  | PyBool b => Return (PyInt (if b then 1 else 0))
  | PyFloat x =>
      match int_of_float x with
      | Some n => Return (PyInt n)
      | None => Rejected IntegerError
      end
  | PyStr s =>
      match int_of_str rt s with
      | Some n => Return (PyInt n)
      | None => Rejected IntegerError
      end
  | PyNone | PyDict _ | PyModel _ _ => Rejected IntegerError
  end.

(** A float is returned as it is; anything else goes through [float(v)].
    The validator catches TypeError and ValueError only: the
    OverflowError of an int too large for a float escapes. *)
Definition float_validator (v : pyval) : validated :=
  match v with
  | PyFloat x => Return (PyFloat x)
  | PyInt n =>
      match float_of_int n with
      | Some x => Return (PyFloat x)
      | None => Escaped OverflowError
      end
  | PyBool b => Return (PyFloat (if b then 1 else 0)%float)
  | PyStr s =>
      match float_of_str rt s with
      | Some x => Return (PyFloat x)
      | None => Rejected FloatError
      end
  | PyNone | PyDict _ | PyModel _ _ => Rejected FloatError
  end.

(** A str is returned as it is; a float or an int (a bool is one) is
    printed with [str(v)]; anything else is a StrError. *)
Definition str_validator (v : pyval) : validated :=
  match v with
  | PyStr s => Return (PyStr s)
  | PyBool b => Return (PyStr (str_of_bool b))
  | PyInt n =>
      match str_int n with
      | Some s => Return (PyStr s)
      | None => Rejected CaughtValueError
      end
  | PyFloat x => Return (PyStr (repr_float rt x))
  | PyNone | PyDict _ | PyModel _ _ => Rejected StrError
  end.

(** The str members of [BOOL_TRUE] and [BOOL_FALSE]; their int members, 1
    and 0, are the number cases of [bool_validator]. *)
Definition BOOL_TRUE : list string := ["1"; "on"; "t"; "true"; "y"; "yes"].
Definition BOOL_FALSE : list string := ["0"; "off"; "f"; "false"; "n"; "no"].

Definition str_in (s : string) (l : list string) : bool := existsb (String.eqb s) l.

(** True and False are returned as they are; a str is lowered and looked
    up, a number is looked up by value (1, 1.0, 0, 0.0 and -0.0 are
    found); an unhashable value or one not found is a BoolError. *)
Definition bool_validator (v : pyval) : validated :=
  match v with
  | PyBool b => Return (PyBool b)
  | PyStr s =>
      let l := str_lower s in
      if str_in l BOOL_TRUE then Return (PyBool true)
      else if str_in l BOOL_FALSE then Return (PyBool false)
      else Rejected BoolError
  | PyInt n =>
      if n =? 1 then Return (PyBool true)
      else if n =? 0 then Return (PyBool false)
      else Rejected BoolError
  | PyFloat x =>
      if PrimFloat.eqb x 1 then Return (PyBool true)
      else if PrimFloat.eqb x 0 then Return (PyBool false)
      else Rejected BoolError
  | PyNone | PyDict _ | PyModel _ _ => Rejected BoolError
  end.

(** A dict is returned as it is; anything else goes through [dict(v)]:
    a model instance iterates over the items of its [__dict__], the empty
    str over nothing, and the rest is a DictError. *)
Definition dict_validator (v : pyval) : option kwargs :=
  match v with
  | PyDict items => Some items
  | PyModel _ d => Some d
  | PyStr EmptyString => Some []
  | PyStr _ | PyNone | PyBool _ | PyInt _ | PyFloat _ => None
  end.

(** *** [ModelField] ([pydantic.fields]) *)

(** The validator [find_validators] picks for a type. *)
Definition validator_of (t : ftype) : pyval -> validated :=
  match t with
  | TInt => int_validator
  | TFloat => float_validator
  | TStr | TDict_str_str => str_validator
  | TBool => bool_validator
  end.

(** [_apply_validators], for the one validator each field here has. *)
Definition _apply_validators (loc : list string) (r : validated) : vresult :=
  match r with
  | Return v => Valid v
  | Rejected e => Invalid [(loc, e)]
  | Escaped e => Raised e
  end.

(** [ModelField.validate] of the sub-field that [_validate_singleton]
    sends each value of a [dict[str, str]] field to: a field of type [str]
    that is not Optional, so None is refused first, and any other value
    goes through [str_validator]. *)
Definition validate_sub_field (loc : list string) (v : pyval) : vresult :=
  match v with
  | PyNone => Invalid [(loc, NoneIsNotAllowedError)]
  | _ => _apply_validators loc (str_validator v)
  end.

(** The loop of [_validate_mapping_like] over the items: a str key passes
    the key field unchanged; the value goes to the sub-field with the key
    added to the location; an item with an error is skipped, and the
    others are stored in the result one after the other. *)
Fixpoint validate_items (loc : list string) (items : kwargs)
                        (result_ : kwargs) (errors : list error)
  : attempt (kwargs * list error) :=
  match items with
  | [] => Done (result_, errors)
  | (k, v_) :: rest =>
      match validate_sub_field (loc ++ [k]) v_ with
      | Valid value_result =>
          validate_items loc rest (dict_set result_ k value_result) errors
      | Invalid value_errors =>
          validate_items loc rest result_ (errors ++ value_errors)
      | Raised e => Failed e
      end
  end.

Definition _validate_mapping_like (loc : list string) (v : pyval) : vresult :=
  match dict_validator v with
  | None => Invalid [(loc, DictError)]
  | Some v_iter =>
      match validate_items loc v_iter [] [] with
      | Failed e => Raised e
      | Done (result_, []) => Valid (PyDict result_)
      | Done (_, errors) => Invalid errors
      end
  end.

(** [ModelField.validate]: None is refused first (no field is Optional),
    then the value is validated by the field's shape. *)
Definition validate (t : ftype) (loc : list string) (v : pyval) : vresult :=
  match v with
  | PyNone => Invalid [(loc, NoneIsNotAllowedError)]
  | _ =>
      match t with
      | TDict_str_str => _validate_mapping_like loc v
      | _ => _apply_validators loc (validator_of t v)
      end
  end.

(** *** [validate_model] and [BaseModel.__init__] ([pydantic.main]) *)

(** The loop of [validate_model] over the fields, in declaration order: the
    value given for the field or, when none is, the field's default, which
    [BaseSettings.Config.validate_all] sends through the validators as
    well; the values that pass and the errors of those that do not are
    collected. *)
Fixpoint validate_fields (T : Type) (validate_field : T -> list string -> pyval -> vresult)
                         (fields : list (field T)) (input_data : kwargs)
  : attempt (kwargs * list error) :=
  match fields with
  | [] => Done ([], [])
  | f :: rest =>
      let value :=
        match dict_get input_data (name f) with
        | Some v => v
        | None => default f
        end in
      match validate_field (type_ f) [name f] value with
      | Raised e => Failed e
      | Valid v_ =>
          match validate_fields validate_field rest input_data with
          | Done (values, errors) => Done ((name f, v_) :: values, errors)
          | Failed e => Failed e
          end
      | Invalid errors_ =>
          match validate_fields validate_field rest input_data with
          | Done (values, errors) => Done (values, errors_ ++ errors)
          | Failed e => Failed e
          end
      end
  end.

Definition is_field (T : Type) (fields : list (field T)) (k : string) : bool :=
  existsb (fun f => String.eqb (name f) k) fields.

(** [sorted(names)] *)
Fixpoint insert_sorted (k : string) (l : list string) : list string :=
  match l with
  | [] => [k]
  | x :: rest => if String.leb k x then k :: l else x :: insert_sorted k rest
  end.

Definition sorted (l : list string) : list string := fold_right insert_sorted [] l.

(** [BaseSettings.Config.extra] is [Extra.forbid]: each key of the input
    that is no field is an ExtraError, in sorted order, after the errors of
    the fields. *)
Definition extra_errors (T : Type) (fields : list (field T)) (input_data : kwargs)
  : list error :=
  map (fun k => ([k], ExtraError))
      (sorted (filter (fun k => negb (is_field fields k)) (keys input_data))).

(** [BaseModel.__init__]: the instance holds the validated values, unless
    there is an error. *)
Definition BaseModel_init (T : Type) (validate_field : T -> list string -> pyval -> vresult)
                          (model : class_id) (fields : list (field T)) (data : kwargs)
  : result pyval :=
  match validate_fields validate_field fields data with
  | Failed e => Raise (Exception e)
  | Done (values, errors) =>
      match errors ++ extra_errors fields data with
      | [] => Ok (PyModel model values)
      | all_errors => Raise (ValidationError model all_errors)
      end
  end.

(** *** [BaseSettings] ([pydantic.env_settings]) *)

(** [deep_update(mapping, updating)]: a key of both whose two values are
    dicts takes their deep update, any other key of [updating] takes its
    value, and the keys [mapping] does not have are added after its own. *)
Fixpoint deep_update_value (old new : pyval) {struct old} : pyval :=
  match old, new with
  | PyDict mapping, PyDict updating =>
      PyDict
        ((fix merge (m : kwargs) : kwargs :=
            match m with
            | [] => []
            | (k, x) :: rest =>
                (k, match dict_get updating k with
                    | Some v => deep_update_value x v
                    | None => x
                    end) :: merge rest
            end) mapping
         ++ filter (fun kv => negb (dict_has mapping (fst kv))) updating)
  | _, _ => new
  end.

Definition deep_update (mapping updating : kwargs) : kwargs :=
  match deep_update_value (PyDict mapping) (PyDict updating) with
  | PyDict updated => updated
  | _ => updating
  end.

(** The keyword parameters of [BaseSettings.__init__] itself: a keyword
    argument with one of these names is bound to the parameter and is no
    part of [**values]. *)
Definition init_options : list string :=
  ["_env_file"; "_env_file_encoding"; "_env_nested_delimiter"; "_secrets_dir"].

Definition is_option (kv : string * pyval) : bool := str_in (fst kv) init_options.

(** [_build_values]: the constructor's values over those of the other
    sources. *)
Definition _build_values (c : class_id) (options init_kwargs : kwargs) : attempt kwargs :=
  match settings_sources rt c options with
  | Done found => Done (deep_update found init_kwargs)
  | Failed e => Failed e
  end.

(** [BaseSettings.__init__(__pydantic_self__, _env_file=..., ..., **values)]
    called as [cls( **kw)]: a keyword named like the first parameter collides
    with the instance (TypeError), the options are bound, and the values
    built from the rest go to [BaseModel.__init__]. *)
Definition BaseSettings_init (T : Type) (validate_field : T -> list string -> pyval -> vresult)
                             (c : class_id) (fields : list (field T)) (kw : kwargs)
  : result pyval :=
  if dict_has kw "__pydantic_self__" then Raise (Exception TypeError)
  else
    match _build_values c (filter is_option kw) (filter (fun kv => negb (is_option kv)) kw) with
    | Failed e => Raise (Exception e)
    | Done data => BaseModel_init validate_field c fields data
    end.

(** [DrawConfig( **kw)] and [ParseConfig( **kw)] *)
Definition DrawConfig_new (kw : kwargs) : result pyval :=
  BaseSettings_init validate DrawConfig DrawConfig.__fields__ kw.

Definition ParseConfig_new (kw : kwargs) : result pyval :=
  BaseSettings_init validate ParseConfig ParseConfig.__fields__ kw.

(** The annotations of the fields of [Config]: the two classes above. *)
Inductive mtype : Set := TDrawConfig | TParseConfig.

Definition class_of (t : mtype) : class_id :=
  match t with TDrawConfig => DrawConfig | TParseConfig => ParseConfig end.

Definition new_of (t : mtype) : kwargs -> result pyval :=
  match t with TDrawConfig => DrawConfig_new | TParseConfig => ParseConfig_new end.

(** [cls( **value)] inside a validator: [_apply_validators] catches a
    ValueError (ValidationError and SettingsError are ValueErrors) or a
    TypeError; the errors of a ValidationError are reported below the
    field's location. *)
Definition construct_in_validator (t : mtype) (loc : list string) (value : kwargs) : vresult :=
  match new_of t value with
  | Ok m => Valid m
  | Raise (ValidationError _ errors) =>
      Invalid (map (fun e => (loc ++ fst e, snd e)) errors)
  | Raise (Exception SettingsError) => Invalid [(loc, CaughtValueError)]
  | Raise (Exception TypeError) => Invalid [(loc, CaughtTypeError)]
  | Raise (Exception e) => Raised e
  end.

(** [ModelField.validate] for a field annotated with a class: None is
    refused; then [BaseModel.validate] copies an instance of the class
    ([copy_on_model_validation] is ['shallow']), constructs one from a
    dict, and from anything else tries [dict(value)] first. *)
Definition validate_model_field (t : mtype) (loc : list string) (v : pyval) : vresult :=
  match v with
  | PyNone => Invalid [(loc, NoneIsNotAllowedError)]
  | PyModel c d =>
      if class_eqb c (class_of t) then Valid (PyModel c d)
      else construct_in_validator t loc d
  | PyDict items => construct_in_validator t loc items
  | PyStr EmptyString => construct_in_validator t loc []
  | PyStr _ | PyBool _ | PyInt _ | PyFloat _ => Invalid [(loc, DictError)]
  end.

(** The body of [Config]: the two defaults are instances constructed, with
    no argument, when the class is defined. *)
Definition Config_fields : result (list (field mtype)) :=
  match DrawConfig_new [] with
  | Raise e => Raise e
  | Ok draw_config =>
      match ParseConfig_new [] with
      | Raise e => Raise e
      | Ok parse_config =>
          Ok [ {| name := "draw_config"; type_ := TDrawConfig; default := draw_config |};
               {| name := "parse_config"; type_ := TParseConfig; default := parse_config |} ]
      end
  end.

(** [Config( **kw)]; an exception of the class body is one of the import,
    reported here as the outcome of any later call. *)
Definition Config_new (kw : kwargs) : result pyval :=
  match Config_fields with
  | Raise e => Raise e
  | Ok fields => BaseSettings_init validate_model_field Config fields kw
  end.

(** The constructor of each class. *)
Definition new (c : class_id) : kwargs -> result pyval :=
  match c with
  | DrawConfig => DrawConfig_new
  | ParseConfig => ParseConfig_new
  | Config => Config_new
  end.

End Pydantic.

(** *** Reading an instance *)

(** [m.f] *)
Definition getattr (m : pyval) (f : string) : option pyval :=
  match m with
  | PyModel _ d => dict_get d f
  | _ => None
  end.

(** [d[k]] *)
Definition getitem (d : pyval) (k : string) : option pyval :=
  match d with
  | PyDict items => dict_get items k
  | _ => None
  end.

(** [_get_value(v, to_dict=True)]: an instance becomes the dict of its
    fields, and the values of a dict are converted in turn. *)
Fixpoint _get_value (v : pyval) : pyval :=
  match v with
  | PyModel _ d =>
      PyDict ((fix go (l : kwargs) : kwargs :=
                 match l with
                 | [] => []
                 | (k, x) :: rest => (k, _get_value x) :: go rest
                 end) d)
  | PyDict items =>
      PyDict ((fix go (l : kwargs) : kwargs :=
                 match l with
                 | [] => []
                 | (k, x) :: rest => (k, _get_value x) :: go rest
                 end) items)
  | _ => v
  end.

(** [m.dict()]: the keyword arguments that spell the instance out. *)
Definition to_dict (m : pyval) : kwargs :=
  match _get_value m with
  | PyDict items => items
  | _ => []
  end.

(** ** What the claims are stated with *)

(** The names [BaseSettings.__init__] takes for itself: its first parameter
    and its options. *)
Definition is_parameter (k : string) : bool :=
  orb (String.eqb k "__pydantic_self__") (str_in k init_options).

(** Keyword arguments that are all values: none is named like a parameter
    of the constructor. *)
Definition plain (kw : kwargs) : bool :=
  forallb (fun kv => negb (is_parameter (fst kv))) kw.

(** The fields of a class, by name. *)
Definition field_names (T : Type) (fields : list (field T)) : list string :=
  map (@name T) fields.

Definition field_type (T : Type) (fields : list (field T)) (f : string) : option T :=
  option_map (@type_ T) (find (fun g => String.eqb (name g) f) fields).

(** The fields of the two settings classes. *)
Definition fields_of (c : class_id) : list (field ftype) :=
  match c with
  | DrawConfig => DrawConfig.__fields__
  | ParseConfig => ParseConfig.__fields__
  | Config => []
  end.

Fixpoint distinct (l : list string) : bool :=
  match l with
  | [] => true
  | k :: rest => andb (negb (str_in k rest)) (distinct rest)
  end.

Definition is_str (v : pyval) : bool :=
  match v with PyStr _ => true | _ => false end.

(** The value has the type the annotation names: an int that is no bool
    for [int], a float for [float], a str for [str], a bool for [bool], and
    for [dict[str, str]] a dict (its keys are distinct) of str values. *)
Definition well_typed (t : ftype) (v : pyval) : bool :=
  match t, v with
  | TInt, PyInt _ => true
  | TFloat, PyFloat _ => true
  | TStr, PyStr _ => true
  | TBool, PyBool _ => true
  | TDict_str_str, PyDict items =>
      andb (distinct (keys items))
           (forallb (fun kv => is_str (snd kv)) items)
  | _, _ => false
  end.

(** An interpreter in a clean environment, for the closed examples: [int]
    reads plain decimal numerals, the limit on digits is CPython's default,
    and the two conversions between floats and text, which no example
    reaches, are stand-ins. *)
Definition example_runtime : runtime := {|
  settings_sources := fun _ _ => Done [];
  int_of_str := fun s => option_map Z.of_int (NilZero.int_of_string s);
  float_of_str := fun _ => None;
  repr_float := fun _ => EmptyString;
  int_max_str_digits := 4300
|}.

(** The selectors of the default stylesheet. *)
Definition class_selectors : list string := [".held"; ".combo"; ".ghost"; ".label"; ".small"].
Definition element_selectors : list string := ["svg"; "rect"; "text"; "path"].

(** The keys written more than once in a display. *)
Definition repeated (entries : list (string * string)) (k : string) : bool :=
  Nat.ltb 1 (count_occ string_dec (keys entries) k).

(** The value [validate_model] validates for a field: the one given, or
    the default. *)
Definition value_for (T : Type) (g : field T) (input_data : kwargs) : pyval :=
  match dict_get input_data (name g) with
  | Some v => v
  | None => default g
  end.

(** The default of a field of the settings classes as an instance holds
    it: after validation. *)
Definition validated_default (rt : runtime) (g : field ftype) : pyval :=
  match validate rt (type_ g) [name g] (default g) with
  | Valid v => v
  | _ => default g
  end.

(** An instance of a settings class whose [__dict__] has the fields of the
    class, in order, each with a value of its type. *)
Definition holds_fields (c : class_id) (d : kwargs) : Prop :=
  Forall2 (fun g kv => fst kv = name g /\ well_typed (type_ g) (snd kv) = true)
          (fields_of c) d.

(** The default instance of a settings class. *)
Definition default_instance (rt : runtime) (c : class_id) : pyval :=
  PyModel c (map (fun g => (name g, validated_default rt g)) (fields_of c)).

(** The fields of [Config] when the class body ran in a clean environment. *)
Definition Config_fields_clean (rt : runtime) : list (field mtype) :=
  [ {| name := "draw_config"; type_ := TDrawConfig; default := default_instance rt DrawConfig |};
    {| name := "parse_config"; type_ := TParseConfig; default := default_instance rt ParseConfig |} ].

(** A well-formed instance: one of a settings class holding its fields, or
    a [Config] holding one such instance of each. *)
Definition valid_instance (m : pyval) : Prop :=
  (exists c d, c <> Config /\ m = PyModel c d /\ holds_fields c d) \/
  (exists d p,
      m = PyModel Config [("draw_config", PyModel DrawConfig d);
                          ("parse_config", PyModel ParseConfig p)] /\
      holds_fields DrawConfig d /\ holds_fields ParseConfig p).

(** The instances the constructors make: a [DrawConfig] or [ParseConfig]
    from any keyword arguments, a [Config] from overrides whose instances
    were constructed in turn. *)
Inductive constructed (rt : runtime) : pyval -> Prop :=
| constructed_settings (c : class_id) (kw : kwargs) (m : pyval) :
    c <> Config -> new rt c kw = Ok m -> constructed rt m
| constructed_Config (kw : kwargs) (m : pyval) :
    plain kw = true ->
    (forall k c d, In (k, PyModel c d) kw -> constructed rt (PyModel c d)) ->
    new rt Config kw = Ok m -> constructed rt m.

(** The names of the fields each class declares. *)
Definition declared (c : class_id) : list string :=
  match c with
  | Config => ["draw_config"; "parse_config"]
  | _ => field_names (fields_of c)
  end.

(** The value has the type the class declares for the name: for a field
    of [Config], it is an instance of the field's class. *)
Definition has_declared_type (c : class_id) (k : string) (v : pyval) : bool :=
  match c with
  | Config =>
      match v with
      | PyModel c' _ =>
          orb (andb (String.eqb k "draw_config") (class_eqb c' DrawConfig))
              (andb (String.eqb k "parse_config") (class_eqb c' ParseConfig))
      | _ => false
      end
  | _ =>
      match field_type (fields_of c) k with
      | Some t => well_typed t v
      | None => false
      end
  end.

(** The errors a field of a type can be reported with: None was given, or
    the type's validator refused the value (for a dict, the sub-field of
    its values may have refused one of them, None included). *)
Definition type_errors (t : ftype) : list error_type :=
  match t with
  | TInt => [NoneIsNotAllowedError; IntegerError]
  | TFloat => [NoneIsNotAllowedError; FloatError]
  | TStr => [NoneIsNotAllowedError; StrError; CaughtValueError]
  | TBool => [NoneIsNotAllowedError; BoolError]
  | TDict_str_str => [NoneIsNotAllowedError; DictError; StrError; CaughtValueError]
  end.

(** An error of a field is located at or below the field and is one of
    the errors of the field's type. *)
Definition error_of (t : ftype) (loc : list string) (e : error) : Prop :=
  (exists rest, fst e = loc ++ rest) /\ In (snd e) (type_errors t).

(** The field of [Config] annotated with a class. *)
Definition Config_field (t : mtype) : string :=
  match t with TDrawConfig => "draw_config" | TParseConfig => "parse_config" end.

(** An interpreter whose environment has values for two fields of
    [DrawConfig], as text, and for no other field. *)
Definition example_environment : runtime := {|
  settings_sources := fun c _ =>
    match c with
    | DrawConfig => Done [("key_w", PyStr "80"); ("key_h", PyStr "70")]
    | _ => Done []
    end;
  int_of_str := int_of_str example_runtime;
  float_of_str := float_of_str example_runtime;
  repr_float := repr_float example_runtime;
  int_max_str_digits := int_max_str_digits example_runtime
|}.

(** Closes a case of a validator: it refused, or what it returned is in
    the goal. *)
Ltac passes := simpl; try discriminate; try (intros [= <-]; reflexivity).

(** * Properties *)

(** ** Dicts *)

Lemma dict_get_set (V : Type) (d : list (string * V)) (k k' : string) (v : V) :
  dict_get (dict_set d k v) k' = if String.eqb k k' then Some v else dict_get d k'.
Proof.
  induction d as [|[k0 v0] d IH]; simpl.
  - reflexivity.
  - destruct (String.eqb_spec k0 k) as [->|Hne]; simpl.
    + destruct (String.eqb k k'); reflexivity.
    + rewrite IH. destruct (String.eqb_spec k0 k') as [->|Hne'].
      * destruct (String.eqb_spec k k') as [->|_]; [contradiction Hne; reflexivity|reflexivity].
      * reflexivity.
Qed.

Lemma dict_get_fold_set (V : Type) (entries : list (string * V)) (d : list (string * V)) (k : string) :
  dict_get (fold_left (fun d kv => dict_set d (fst kv) (snd kv)) entries d) k =
  match last_assignment entries k with
  | Some v => Some v
  | None => dict_get d k
  end.
Proof.
  revert d. induction entries as [|[k0 v0] entries IH]; intros d; simpl.
  - reflexivity.
  - rewrite IH. destruct (last_assignment entries k) as [w|]; [reflexivity|].
    rewrite dict_get_set. simpl. destruct (String.eqb k0 k); reflexivity.
Qed.

(** A dict display holds, for each key, the last value written for it. *)
Lemma dict_display_last (V : Type) (entries : list (string * V)) (k : string) :
  dict_get (dict_display entries) k = last_assignment entries k.
Proof.
  unfold dict_display. rewrite dict_get_fold_set.
  destruct (last_assignment entries k); reflexivity.
Qed.

Lemma dict_get_map (V W : Type) (g : V -> W) (d : list (string * V)) (k : string) :
  dict_get (map (fun kv => (fst kv, g (snd kv))) d) k = option_map g (dict_get d k).
Proof.
  induction d as [|[k0 v0] d IH]; simpl; [reflexivity|].
  destruct (String.eqb k0 k); [reflexivity|exact IH].
Qed.

Lemma dict_get_In (V : Type) (d : list (string * V)) (k : string) (v : V) :
  dict_get d k = Some v -> In (k, v) d.
Proof.
  induction d as [|[k0 v0] d IH]; simpl; [discriminate|].
  destruct (String.eqb_spec k0 k) as [->|_].
  - intros [= ->]. left; reflexivity.
  - intros H. right. exact (IH H).
Qed.

Lemma filter_all (A : Type) (p : A -> bool) (l : list A) :
  forallb p l = true -> filter p l = l.
Proof.
  induction l as [|a l IH]; simpl; [reflexivity|].
  destruct (p a); simpl; [|discriminate]. intros H. f_equal. exact (IH H).
Qed.

Lemma filter_none (A : Type) (p : A -> bool) (l : list A) :
  forallb (fun a => negb (p a)) l = true -> filter p l = [].
Proof.
  induction l as [|a l IH]; simpl; [reflexivity|].
  destruct (p a); simpl; [discriminate|exact IH].
Qed.

(** ** Field lists *)

Lemma str_in_In (k : string) (l : list string) : str_in k l = true <-> In k l.
Proof.
  unfold str_in. rewrite existsb_exists. split.
  - intros [x [Hx He]]. apply String.eqb_eq in He. subst x. exact Hx.
  - intros H. exists k. split; [exact H|apply String.eqb_refl].
Qed.

Lemma distinct_NoDup (l : list string) : distinct l = true <-> NoDup l.
Proof.
  induction l as [|k l IH]; simpl.
  - split; [constructor|reflexivity].
  - rewrite andb_true_iff, negb_true_iff, IH. split.
    + intros [Hk Hl]. constructor; [|exact Hl].
      intros Hin. apply str_in_In in Hin. congruence.
    + intros H. inversion H as [|? ? Hk Hl]; subst. split; [|exact Hl].
      destruct (str_in k l) eqn:E; [|reflexivity].
      apply str_in_In in E. contradiction.
Qed.

Section Fields.
Variable T : Type.
Variable vf : T -> list string -> pyval -> vresult.

(** When every field's value passes, the instance holds the results in the
    order of the fields. *)
Lemma validate_fields_valid (fields : list (field T)) (input : kwargs) (out : field T -> pyval) :
  (forall g, In g fields -> vf (type_ g) [name g] (value_for g input) = Valid (out g)) ->
  validate_fields vf fields input = Done (map (fun g => (name g, out g)) fields, []).
Proof.
  induction fields as [|g rest IH]; intros H; simpl.
  - reflexivity.
  - pose proof (H g (or_introl eq_refl)) as Hg. unfold value_for in Hg. rewrite Hg.
    rewrite IH; [reflexivity|]. intros g' Hg'. apply H. right. exact Hg'.
Qed.

(** A field whose value passes is stored under its name. *)
Lemma validate_fields_lookup (fields : list (field T)) (input values : kwargs) (errs : list error) :
  NoDup (field_names fields) ->
  validate_fields vf fields input = Done (values, errs) ->
  forall g v', In g fields ->
    vf (type_ g) [name g] (value_for g input) = Valid v' ->
    dict_get values (name g) = Some v'.
Proof.
  revert values errs. induction fields as [|g0 rest IH]; intros values errs Hnd Hv g v' Hin Hg.
  - destruct Hin.
  - simpl in Hnd. inversion Hnd as [|? ? Hnotin Hnd']; subst.
    simpl in Hv. fold (value_for g0 input) in Hv.
    destruct Hin as [->|Hin].
    + rewrite Hg in Hv.
      destruct (validate_fields vf rest input) as [[vs es]|e]; [|discriminate].
      injection Hv as <- <-. simpl. rewrite String.eqb_refl. reflexivity.
    + assert (Hne : name g0 <> name g).
      { intros E. apply Hnotin. rewrite E. unfold field_names. apply in_map. exact Hin. }
      destruct (vf (type_ g0) [name g0] (value_for g0 input)) as [v0|es0|e0]; [| |discriminate];
        destruct (validate_fields vf rest input) as [[vs es]|e] eqn:Hrest; try discriminate;
        injection Hv as <- <-.
      * simpl. destruct (String.eqb_spec (name g0) (name g)) as [E|_]; [contradiction|].
        exact (IH vs es Hnd' eq_refl g v' Hin Hg).
      * exact (IH vs es Hnd' eq_refl g v' Hin Hg).
Qed.

(** With no error, every field's value passed. *)
Lemma validate_fields_sound (fields : list (field T)) (input values : kwargs) :
  (forall t loc x, vf t loc x <> Invalid []) ->
  validate_fields vf fields input = Done (values, []) ->
  Forall2 (fun g kv => fst kv = name g /\ vf (type_ g) [name g] (value_for g input) = Valid (snd kv))
          fields values.
Proof.
  intros Hne. revert values. induction fields as [|g0 rest IH]; intros values Hv; simpl in Hv.
  - injection Hv as <-. constructor.
  - fold (value_for g0 input) in Hv.
    destruct (vf (type_ g0) [name g0] (value_for g0 input)) as [v0|es0|e0] eqn:E0; [| |discriminate];
      destruct (validate_fields vf rest input) as [[vs es]|e] eqn:Hrest; try discriminate.
    + injection Hv as <- ->. constructor; [split; [reflexivity|exact E0]|]. apply IH. reflexivity.
    + injection Hv as <- Hes. apply app_eq_nil in Hes. destruct Hes as [-> _].
      exfalso. exact (Hne _ _ _ E0).
Qed.

Lemma validate_fields_defaults (fields : list (field T)) (dv : field T -> pyval) (f : string) (v : pyval) :
  (forall g, In g fields -> vf (type_ g) [name g] (default g) = Valid (dv g)) ->
  ~ In f (field_names fields) ->
  validate_fields vf fields [(f, v)] = Done (map (fun g => (name g, dv g)) fields, []).
Proof.
  intros Hd Hf. apply validate_fields_valid. intros g Hg.
  unfold value_for. simpl. destruct (String.eqb_spec f (name g)) as [->|_].
  - exfalso. apply Hf. unfold field_names. apply in_map. exact Hg.
  - apply Hd. exact Hg.
Qed.

(** One override: the field named takes what its validator makes of the
    value, the others their validated defaults. *)
Lemma validate_fields_single (fields : list (field T)) (dv : field T -> pyval)
      (f : string) (t : T) (v : pyval) :
  (forall g, In g fields -> vf (type_ g) [name g] (default g) = Valid (dv g)) ->
  NoDup (field_names fields) ->
  field_type fields f = Some t ->
  validate_fields vf fields [(f, v)] =
  match vf t [f] v with
  | Valid v' =>
      Done (map (fun g => (name g, if String.eqb (name g) f then v' else dv g)) fields, [])
  | Invalid es =>
      Done (map (fun g => (name g, dv g))
              (filter (fun g => negb (String.eqb (name g) f)) fields), es)
  | Raised e => Failed e
  end.
Proof.
  intros Hd Hnd Ht. induction fields as [|g0 rest IH]; [discriminate|].
  simpl in Hnd. inversion Hnd as [|? ? Hnotin Hnd']; subst.
  unfold field_type in Ht. simpl in Ht. simpl.
  destruct (String.eqb_spec (name g0) f) as [E|Hne].
  - simpl in Ht. injection Ht as <-. subst f. rewrite String.eqb_refl.
    assert (Hrest : validate_fields vf rest [(name g0, v)] =
                    Done (map (fun g => (name g, dv g)) rest, [])).
    { apply validate_fields_defaults; [|exact Hnotin]. intros g Hg. apply Hd. right. exact Hg. }
    rewrite Hrest.
    assert (Hmap : forall v', map (fun g => (name g, if String.eqb (name g) (name g0) then v' else dv g)) rest
                   = map (fun g => (name g, dv g)) rest).
    { intros v'. apply map_ext_in. intros g Hg.
      destruct (String.eqb_spec (name g) (name g0)) as [E|_]; [|reflexivity].
      exfalso. apply Hnotin. rewrite <- E. unfold field_names. apply in_map. exact Hg. }
    assert (Hfil : filter (fun g => negb (String.eqb (name g) (name g0))) rest = rest).
    { apply filter_all. apply forallb_forall. intros g Hg.
      destruct (String.eqb_spec (name g) (name g0)) as [E|_]; [|reflexivity].
      exfalso. apply Hnotin. rewrite <- E. unfold field_names. apply in_map. exact Hg. }
    destruct (vf (type_ g0) [name g0] v) as [v'|es|e].
    + rewrite Hmap. reflexivity.
    + simpl. rewrite Hfil, app_nil_r. reflexivity.
    + reflexivity.
  - destruct (String.eqb_spec f (name g0)) as [E|_]; [symmetry in E; contradiction|].
    rewrite (Hd g0 (or_introl eq_refl)).
    assert (IH' := IH (fun g Hg => Hd g (or_intror Hg)) Hnd' Ht). rewrite IH'.
    destruct (vf t [f] v) as [v'|es|e]; reflexivity.
Qed.

Lemma is_field_names (fields : list (field T)) (k : string) :
  is_field fields k = str_in k (field_names fields).
Proof.
  unfold is_field, str_in, field_names. induction fields as [|g rest IH]; simpl; [reflexivity|].
  rewrite IH. rewrite (String.eqb_sym (name g) k). reflexivity.
Qed.

Lemma extra_errors_none (fields : list (field T)) (input : kwargs) :
  forallb (fun k => is_field fields k) (keys input) = true ->
  extra_errors fields input = [].
Proof.
  intros H. unfold extra_errors. rewrite filter_none; [reflexivity|].
  rewrite forallb_forall in *. intros k Hk. rewrite (H k Hk). reflexivity.
Qed.

Lemma dict_get_fields (fields : list (field T)) (out : field T -> pyval) (g : field T) :
  NoDup (field_names fields) -> In g fields ->
  dict_get (map (fun g => (name g, out g)) fields) (name g) = Some (out g).
Proof.
  induction fields as [|g0 rest IH]; intros Hnd Hin; [destruct Hin|].
  simpl in Hnd. inversion Hnd as [|? ? Hnotin Hnd']; subst. simpl.
  destruct Hin as [->|Hin]; [rewrite String.eqb_refl; reflexivity|].
  destruct (String.eqb_spec (name g0) (name g)) as [E|_].
  - exfalso. apply Hnotin. rewrite E. unfold field_names. apply in_map. exact Hin.
  - exact (IH Hnd' Hin).
Qed.
End Fields.

(** ** The validators *)

Lemma dict_set_fresh (V : Type) (d : list (string * V)) (k : string) (v : V) :
  ~ In k (keys d) -> dict_set d k v = d ++ [(k, v)].
Proof.
  induction d as [|[k0 v0] d IH]; simpl; intros H; [reflexivity|].
  destruct (String.eqb_spec k0 k) as [E|_].
  - exfalso. apply H. left. exact E.
  - rewrite IH; [reflexivity|]. intros Hin. apply H. right. exact Hin.
Qed.

Lemma dict_set_keys (V : Type) (d : list (string * V)) (k : string) (v : V) :
  keys (dict_set d k v) = if str_in k (keys d) then keys d else keys d ++ [k].
Proof.
  induction d as [|[k0 v0] d IH]; simpl; [reflexivity|].
  rewrite (String.eqb_sym k k0).
  destruct (String.eqb_spec k0 k) as [E|_]; simpl; [reflexivity|].
  fold (keys (dict_set d k v)). fold (keys d). rewrite IH.
  unfold str_in. destruct (existsb (String.eqb k) (keys d)); reflexivity.
Qed.

Lemma dict_set_NoDup (V : Type) (d : list (string * V)) (k : string) (v : V) :
  NoDup (keys d) -> NoDup (keys (dict_set d k v)).
Proof.
  intros H. rewrite dict_set_keys. destruct (str_in k (keys d)) eqn:E; [exact H|].
  apply NoDup_app; [exact H|constructor; [intros []|constructor]|].
  intros x Hx [<-|[]]. apply str_in_In in Hx. congruence.
Qed.

Lemma dict_set_forall (d : kwargs) (k : string) (v : pyval) (p : pyval -> bool) :
  forallb (fun kv => p (snd kv)) d = true -> p v = true ->
  forallb (fun kv => p (snd kv)) (dict_set d k v) = true.
Proof.
  intros Hd Hv. induction d as [|[k0 v0] d IH]; simpl in *.
  - rewrite Hv. reflexivity.
  - apply andb_prop in Hd. destruct Hd as [H0 Hd].
    destruct (String.eqb k0 k); simpl.
    + rewrite Hv, Hd. reflexivity.
    + rewrite H0, (IH Hd). reflexivity.
Qed.

Section Validators.
Variable rt : runtime.

Lemma str_validator_str (v v' : pyval) :
  str_validator rt v = Return v' -> is_str v' = true.
Proof.
  destruct v; simpl; try discriminate; try (intros [= <-]; reflexivity).
  destruct (str_int rt n); [intros [= <-]; reflexivity|discriminate].
Qed.

(** What the sub-field of a dict's values lets pass is a str. *)
Lemma validate_sub_field_str (loc : list string) (v v' : pyval) :
  validate_sub_field rt loc v = Valid v' -> is_str v' = true.
Proof.
  unfold validate_sub_field. destruct v; try discriminate;
    match goal with |- context [str_validator rt ?x] =>
      destruct (str_validator rt x) as [w|e|e] eqn:E end;
    simpl; try discriminate; intros [= <-]; exact (str_validator_str _ E).
Qed.

(** The sub-field lets no exception through, and its one error is at the
    location, and one of those a str value can have. *)
Lemma validate_sub_field_outcome (loc : list string) (v : pyval) :
  match validate_sub_field rt loc v with
  | Valid _ => True
  | Invalid es => exists e, es = [(loc, e)] /\ In e [NoneIsNotAllowedError; StrError; CaughtValueError]
  | Raised _ => False
  end.
Proof.
  unfold validate_sub_field. destruct v; simpl; try exact I;
    try (eexists; split; [reflexivity|simpl; auto]).
  destruct (str_int rt n); simpl; [exact I|]. eexists. split; [reflexivity|simpl; auto].
Qed.

(** The items of a dict of strs pass as they are. *)
Lemma validate_items_id (loc : list string) (items acc : kwargs) (errs : list error) :
  forallb (fun kv => is_str (snd kv)) items = true ->
  NoDup (keys acc ++ keys items) ->
  validate_items rt loc items acc errs = Done (acc ++ items, errs).
Proof.
  revert acc. induction items as [|[k v] items IH]; intros acc Hs Hnd; simpl.
  - rewrite app_nil_r. reflexivity.
  - simpl in Hs. apply andb_prop in Hs. destruct Hs as [Hv Hs].
    destruct v; try discriminate. simpl.
    assert (Hk : ~ In k (keys acc)).
    { intros Hin. simpl in Hnd. apply NoDup_remove_2 in Hnd. apply Hnd.
      apply in_or_app. left. exact Hin. }
    rewrite dict_set_fresh by exact Hk.
    rewrite IH; [rewrite <- app_assoc; reflexivity|exact Hs|].
    unfold keys in *. rewrite map_app. simpl. rewrite <- app_assoc. exact Hnd.
Qed.

(** What the loop stores is a dict of strs. *)
Lemma validate_items_typed (loc : list string) (items acc res : kwargs) (errs errs' : list error) :
  validate_items rt loc items acc errs = Done (res, errs') ->
  NoDup (keys acc) -> forallb (fun kv => is_str (snd kv)) acc = true ->
  NoDup (keys res) /\ forallb (fun kv => is_str (snd kv)) res = true.
Proof.
  revert acc errs. induction items as [|[k v] items IH]; intros acc errs H Hnd Hs; simpl in H.
  - injection H as <- <-. split; assumption.
  - destruct (validate_sub_field rt (loc ++ [k]) v) as [v'|es|e] eqn:E; [| |discriminate].
    + apply (IH _ _ H).
      * apply dict_set_NoDup. exact Hnd.
      * apply dict_set_forall; [exact Hs|]. exact (validate_sub_field_str _ _ E).
    + exact (IH _ _ H Hnd Hs).
Qed.

(** A value of the declared type passes as it is. *)
Lemma well_typed_valid (t : ftype) (loc : list string) (v : pyval) :
  well_typed t v = true -> validate rt t loc v = Valid v.
Proof.
  destruct t, v; simpl; try discriminate; try reflexivity.
  intros H. apply andb_prop in H. destruct H as [Hd Hs].
  unfold _validate_mapping_like. simpl.
  rewrite validate_items_id; [reflexivity|exact Hs|].
  simpl. apply distinct_NoDup. exact Hd.
Qed.

(** What passes has the declared type. *)
Lemma validate_well_typed (t : ftype) (loc : list string) (v v' : pyval) :
  validate rt t loc v = Valid v' -> well_typed t v' = true.
Proof.
  unfold validate. destruct t.
  - destruct v; passes.
    + destruct (int_of_float x); passes.
    + destruct (int_of_str rt s); passes.
  - destruct v; passes.
    + destruct (float_of_int n); passes.
    + destruct (float_of_str rt s); passes.
  - destruct v; passes.
    destruct (str_int rt n); passes.
  - destruct v; passes;
      repeat (match goal with |- context [if ?c then _ else _] => destruct c end; passes).
  - assert (H : forall w, _validate_mapping_like rt loc w = Valid v' ->
                          well_typed TDict_str_str v' = true).
    { intros w. unfold _validate_mapping_like.
      destruct (dict_validator w) as [items|]; [|discriminate].
      destruct (validate_items rt loc items [] []) as [[res [|e es]]|e] eqn:E; try discriminate.
      intros [= <-]. destruct (validate_items_typed _ _ _ _ E) as [Hnd Hs];
        [constructor|reflexivity|].
      simpl. apply distinct_NoDup in Hnd. rewrite Hnd, Hs. reflexivity. }
    destruct v; try discriminate; apply H.
Qed.

(** A validator never reports an empty list of errors. *)
Lemma validate_nonempty (t : ftype) (loc : list string) (v : pyval) :
  validate rt t loc v <> Invalid [].
Proof.
  assert (Ha : forall r, _apply_validators loc r <> Invalid []).
  { intros [w|e|e]; simpl; discriminate. }
  assert (Hm : forall w, _validate_mapping_like rt loc w <> Invalid []).
  { intros w. unfold _validate_mapping_like.
    destruct (dict_validator w) as [items|]; [|discriminate].
    destruct (validate_items rt loc items [] []) as [[res [|e es]]|e]; discriminate. }
  unfold validate. destruct v; try discriminate; destruct t; try apply Ha; apply Hm.
Qed.

End Validators.

(** ** The constructor in a clean environment *)

Lemma deep_update_empty (kw : kwargs) : deep_update [] kw = kw.
Proof.
  unfold deep_update. simpl. apply filter_all.
  induction kw as [|kv kw IH]; [reflexivity|exact IH].
Qed.

Lemma plain_no_self (kw : kwargs) :
  plain kw = true -> dict_has kw "__pydantic_self__" = false.
Proof.
  unfold dict_has. induction kw as [|[k v] kw IH]; simpl; [reflexivity|].
  unfold is_parameter at 1. simpl fst.
  destruct (String.eqb_spec k "__pydantic_self__") as [->|Hne]; simpl; [discriminate|].
  intros H. apply andb_prop in H. destruct H as [_ H].
  destruct (String.eqb_spec k "__pydantic_self__") as [->|_]; [contradiction Hne; reflexivity|].
  exact (IH H).
Qed.

Lemma plain_no_option (kw : kwargs) :
  plain kw = true -> forallb (fun kv => negb (is_option kv)) kw = true.
Proof.
  induction kw as [|[k v] kw IH]; simpl; [reflexivity|].
  intros H. apply andb_prop in H. destruct H as [Hk H].
  rewrite (IH H), andb_true_r.
  unfold is_parameter in Hk. unfold is_option. simpl fst in *.
  apply negb_true_iff in Hk. apply orb_false_elim in Hk. destruct Hk as [_ Hk].
  rewrite Hk. reflexivity.
Qed.

Section Clean.
Variable rt : runtime.
Hypothesis clean : clean_environment rt.

(** With no parameter of its own among the keywords, the constructor is
    [BaseModel.__init__] on the keywords. *)
Lemma BaseSettings_init_plain (T : Type) (vf : T -> list string -> pyval -> vresult)
      (c : class_id) (fields : list (field T)) (kw : kwargs) :
  plain kw = true ->
  BaseSettings_init rt vf c fields kw = BaseModel_init vf c fields kw.
Proof.
  intros Hp. unfold BaseSettings_init, _build_values.
  rewrite (plain_no_self kw Hp).
  rewrite (filter_none is_option kw (plain_no_option kw Hp)).
  rewrite (filter_all _ kw (plain_no_option kw Hp)).
  rewrite (clean c (Forall_nil _)).
  rewrite deep_update_empty. reflexivity.
Qed.

(** The instance [DrawConfig()] holds. *)
Lemma DrawConfig_default :
  DrawConfig_new rt [] =
  Ok (PyModel DrawConfig
        [("key_w", PyInt 60); ("key_h", PyInt 56); ("split_gap", PyInt 30);
         ("combo_w", PyInt 28); ("combo_h", PyInt 26); ("key_rx", PyInt 6);
         ("key_ry", PyInt 6); ("inner_pad_w", PyInt 2); ("inner_pad_h", PyInt 2);
         ("outer_pad_w", PyInt 30); ("outer_pad_h", PyInt 56);
         ("line_spacing", PyInt 18); ("arc_radius", PyInt 6);
         ("arc_scale", PyFloat 1); ("svg_style", PyStr DrawConfig.svg_style)]).
Proof.
  unfold DrawConfig_new. rewrite BaseSettings_init_plain by reflexivity.
  vm_compute. reflexivity.
Qed.

(** The instance [ParseConfig()] holds. *)
Lemma ParseConfig_default :
  ParseConfig_new rt [] =
  Ok (PyModel ParseConfig
        [("preprocess", PyBool true); ("skip_binding_parsing", PyBool false);
         ("keycode_map",
          PyDict (map (fun kv => (fst kv, PyStr (snd kv))) ParseConfig.keycode_map))]).
Proof.
  unfold ParseConfig_new. rewrite BaseSettings_init_plain by reflexivity.
  vm_compute. reflexivity.
Qed.

End Clean.

(** ** The two settings classes *)

Lemma names_distinct (c : class_id) : NoDup (field_names (fields_of c)).
Proof. apply distinct_NoDup. destruct c; reflexivity. Qed.

Lemma fields_not_parameters (c : class_id) (k : string) :
  In k (field_names (fields_of c)) -> is_parameter k = false.
Proof.
  assert (H : forallb (fun k => negb (is_parameter k)) (field_names (fields_of c)) = true)
    by (destruct c; reflexivity).
  rewrite forallb_forall in H. intros Hk. apply negb_true_iff. exact (H k Hk).
Qed.

Lemma field_type_In (T : Type) (fields : list (field T)) (f : string) (t : T) :
  field_type fields f = Some t ->
  exists g, In g fields /\ name g = f /\ type_ g = t.
Proof.
  unfold field_type. destruct (find _ fields) as [g|] eqn:E; [|discriminate].
  intros [= <-]. apply find_some in E. destruct E as [Hin He].
  apply String.eqb_eq in He. exists g. auto.
Qed.

Lemma In_field_type (T : Type) (fields : list (field T)) (g : field T) :
  NoDup (field_names fields) -> In g fields ->
  field_type fields (name g) = Some (type_ g).
Proof.
  unfold field_type. induction fields as [|g0 rest IH]; intros Hnd Hin; [destruct Hin|].
  simpl in Hnd. inversion Hnd as [|? ? Hnotin Hnd']; subst. simpl.
  destruct Hin as [->|Hin]; [rewrite String.eqb_refl; reflexivity|].
  destruct (String.eqb_spec (name g0) (name g)) as [E|_].
  - exfalso. apply Hnotin. rewrite E. unfold field_names. apply in_map. exact Hin.
  - exact (IH Hnd' Hin).
Qed.

(** Reading a field of an instance made with one override. *)
Lemma dict_get_override (T : Type) (fields : list (field T)) (out : field T -> pyval)
      (f k : string) (v' : pyval) :
  dict_get (map (fun g => (name g, if String.eqb (name g) f then v' else out g)) fields) k =
  if String.eqb k f
  then (if is_field fields k then Some v' else None)
  else dict_get (map (fun g => (name g, out g)) fields) k.
Proof.
  induction fields as [|g rest IH]; simpl.
  - destruct (String.eqb k f); reflexivity.
  - destruct (String.eqb_spec (name g) k) as [E|Hne]; simpl.
    + subst k. destruct (String.eqb (name g) f); reflexivity.
    + rewrite IH. reflexivity.
Qed.

Section Settings.
Variable rt : runtime.
Hypothesis clean : clean_environment rt.

(** Every default passes its field's validator. *)
Lemma defaults_valid (c : class_id) (g : field ftype) :
  In g (fields_of c) ->
  validate rt (type_ g) [name g] (default g) = Valid (validated_default rt g).
Proof.
  destruct c; simpl; intros H;
    repeat (destruct H as [<-|H]; [vm_compute; reflexivity|]); destruct H.
Qed.

Lemma new_settings (c : class_id) :
  c <> Config -> new rt c = BaseSettings_init rt (validate rt) c (fields_of c).
Proof. destruct c; intros H; [reflexivity|reflexivity|contradiction H; reflexivity]. Qed.

(** A class constructed with no argument holds its validated defaults. *)
Lemma new_default (c : class_id) :
  c <> Config ->
  new rt c [] = Ok (PyModel c (map (fun g => (name g, validated_default rt g)) (fields_of c))).
Proof.
  intros Hc. rewrite (new_settings Hc), (BaseSettings_init_plain clean) by reflexivity.
  unfold BaseModel_init.
  rewrite (validate_fields_valid (validate rt) (fields_of c) [] (validated_default rt)).
  - reflexivity.
  - intros g Hg. unfold value_for. simpl. exact (defaults_valid c g Hg).
Qed.

(** A class constructed with one override of a field: the value goes
    through the field's validator, and the outcome is the constructor's. *)
Lemma new_single (c : class_id) (f : string) (t : ftype) (v : pyval) :
  field_type (fields_of c) f = Some t ->
  new rt c [(f, v)] =
  match validate rt t [f] v with
  | Valid v' =>
      Ok (PyModel c (map (fun g => (name g,
                                    if String.eqb (name g) f then v' else validated_default rt g))
                         (fields_of c)))
  | Invalid errs => Raise (ValidationError c errs)
  | Raised e => Raise (Exception e)
  end.
Proof.
  intros Ht.
  assert (Hc : c <> Config) by (intros ->; discriminate Ht).
  destruct (field_type_In _ _ Ht) as (g & Hg & Hn & _).
  assert (Hf : In f (field_names (fields_of c))).
  { rewrite <- Hn. unfold field_names. apply in_map. exact Hg. }
  rewrite (new_settings Hc), (BaseSettings_init_plain clean).
  2:{ simpl. rewrite (fields_not_parameters c f Hf). reflexivity. }
  unfold BaseModel_init.
  rewrite (@validate_fields_single ftype (validate rt) (fields_of c) (validated_default rt)
             f t v (defaults_valid c) (names_distinct c) Ht).
  rewrite extra_errors_none.
  2:{ simpl. rewrite is_field_names. apply str_in_In in Hf. rewrite Hf. reflexivity. }
  destruct (validate rt t [f] v) as [v'|errs|e] eqn:E; [reflexivity| |reflexivity].
  destruct errs as [|e0 errs]; [exfalso; exact (validate_nonempty _ _ _ _ E)|].
  simpl. rewrite app_nil_r. reflexivity.
Qed.

(** Whatever the keyword arguments, an instance of a settings class holds
    the fields of the class, each with a value of its type. *)
Lemma new_holds_fields (c : class_id) (kw : kwargs) (m : pyval) :
  c <> Config -> new rt c kw = Ok m ->
  exists d, m = PyModel c d /\ holds_fields c d.
Proof.
  intros Hc. rewrite (new_settings Hc). unfold BaseSettings_init.
  destruct (dict_has kw "__pydantic_self__"); [discriminate|].
  destruct (_build_values rt c _ _) as [data|e]; [|discriminate].
  unfold BaseModel_init.
  destruct (validate_fields (validate rt) (fields_of c) data) as [[values errors]|e] eqn:E;
    [|discriminate].
  destruct (errors ++ extra_errors (fields_of c) data) as [|e0 es] eqn:Eall; [|discriminate].
  intros [= <-]. exists values. split; [reflexivity|].
  apply app_eq_nil in Eall. destruct Eall as [-> _].
  apply (validate_fields_sound (validate rt) _ _ (validate_nonempty rt)) in E.
  unfold holds_fields. eapply Forall2_impl; [|exact E].
  intros g kv [Hk Hv]. split; [exact Hk|]. exact (validate_well_typed _ _ _ _ Hv).
Qed.

Lemma holds_fields_keys (c : class_id) (d : kwargs) :
  holds_fields c d -> keys d = field_names (fields_of c).
Proof.
  unfold holds_fields. generalize (fields_of c). intros fields H.
  induction H as [|g kv fields d [Hk _] _ IH]; [reflexivity|].
  simpl. rewrite Hk. f_equal. exact IH.
Qed.

Lemma holds_fields_map (c : class_id) (d : kwargs) :
  holds_fields c d ->
  exists out, d = map (fun g => (name g, out g)) (fields_of c) /\
              forall g, In g (fields_of c) -> well_typed (type_ g) (out g) = true.
Proof.
  unfold holds_fields. pose proof (names_distinct c) as Hnd. revert Hnd.
  generalize (fields_of c). intros fields Hnd H.
  induction H as [|g [k v] fields d [Hk Hv] _ IH].
  - exists (fun _ => PyNone). split; [reflexivity|intros g []].
  - simpl in Hnd. inversion Hnd as [|? ? Hnotin Hnd']; subst.
    destruct (IH Hnd') as (out & -> & Hout). simpl in Hk, Hv. subst k.
    exists (fun g' => if String.eqb (name g') (name g) then v else out g'). split.
    + simpl. rewrite String.eqb_refl. f_equal. apply map_ext_in. intros g' Hg'.
      destruct (String.eqb_spec (name g') (name g)) as [E|_]; [|reflexivity].
      exfalso. apply Hnotin. rewrite <- E. unfold field_names. apply in_map. exact Hg'.
    + intros g' [<-|Hg'].
      * rewrite String.eqb_refl. exact Hv.
      * destruct (String.eqb_spec (name g') (name g)) as [E|_]; [|exact (Hout g' Hg')].
        exfalso. apply Hnotin. rewrite <- E. unfold field_names. apply in_map. exact Hg'.
Qed.

End Settings.

(** ** Serialising and constructing again *)

Lemma get_value_strs (items : kwargs) :
  forallb (fun kv => is_str (snd kv)) items = true ->
  (fix go (l : kwargs) : kwargs :=
     match l with
     | [] => []
     | (k, x) :: rest => (k, _get_value x) :: go rest
     end) items = items.
Proof.
  induction items as [|[k v] items IH]; simpl; [reflexivity|].
  intros H. apply andb_prop in H. destruct H as [Hv Hs].
  rewrite (IH Hs). destruct v; try discriminate. reflexivity.
Qed.

(** A value of a field's type is its own serialisation. *)
Lemma well_typed_get_value (t : ftype) (v : pyval) :
  well_typed t v = true -> _get_value v = v.
Proof.
  destruct t, v; simpl; try discriminate; try reflexivity.
  intros H. apply andb_prop in H. destruct H as [_ Hs].
  rewrite (get_value_strs items Hs). reflexivity.
Qed.

Lemma get_value_fields (c : class_id) (d : kwargs) :
  holds_fields c d ->
  (fix go (l : kwargs) : kwargs :=
     match l with
     | [] => []
     | (k, x) :: rest => (k, _get_value x) :: go rest
     end) d = d.
Proof.
  unfold holds_fields. generalize (fields_of c). intros fields H.
  induction H as [|g [k v] fields d [_ Hv] _ IH]; [reflexivity|].
  simpl in *. rewrite IH, (well_typed_get_value _ _ Hv). reflexivity.
Qed.

(** [m.dict()] of an instance of a settings class is its [__dict__]. *)
Lemma to_dict_settings (c : class_id) (d : kwargs) :
  holds_fields c d -> to_dict (PyModel c d) = d.
Proof. intros H. unfold to_dict. simpl. exact (get_value_fields H). Qed.

Lemma plain_keys (kw : kwargs) :
  (forall k, In k (keys kw) -> is_parameter k = false) -> plain kw = true.
Proof.
  intros H. unfold plain. apply forallb_forall. intros [k v] Hin.
  simpl. rewrite (H k); [reflexivity|]. unfold keys. apply (in_map fst) in Hin. exact Hin.
Qed.

Lemma In_sorted (k : string) (l : list string) : In k (sorted l) <-> In k l.
Proof.
  assert (Hins : forall x l0, In k (insert_sorted x l0) <-> k = x \/ In k l0).
  { intros x l0. induction l0 as [|y l0 IH]; simpl.
    - intuition.
    - destruct (String.leb x y); simpl; [intuition|]. rewrite IH. intuition. }
  unfold sorted. induction l as [|x l IH]; simpl; [reflexivity|].
  rewrite Hins, IH. intuition.
Qed.

Section Fields2.
Variable T : Type.
Variable vf : T -> list string -> pyval -> vresult.

(** An exception out of the loop over the fields escaped a field's
    validator. *)
Lemma validate_fields_failed (fields : list (field T)) (input : kwargs) (e : exception) :
  validate_fields vf fields input = Failed e ->
  exists g, In g fields /\ vf (type_ g) [name g] (value_for g input) = Raised e.
Proof.
  induction fields as [|g rest IH]; simpl; [discriminate|].
  fold (value_for g input).
  destruct (vf (type_ g) [name g] (value_for g input)) as [v|es|e0] eqn:E.
  - destruct (validate_fields vf rest input) as [[vs es]|e1]; [discriminate|].
    intros [= <-]. destruct (IH eq_refl) as (g' & Hg' & H'). exists g'. auto.
  - destruct (validate_fields vf rest input) as [[vs es']|e1]; [discriminate|].
    intros [= <-]. destruct (IH eq_refl) as (g' & Hg' & H'). exists g'. auto.
  - intros [= <-]. exists g. auto.
Qed.

(** [Extra.forbid]: with a key that is no field, there is no instance. *)
Lemma BaseModel_init_extra (c : class_id) (fields : list (field T)) (data : kwargs) (k : string) :
  In k (keys data) -> is_field fields k = false ->
  match BaseModel_init vf c fields data with
  | Ok _ => False
  | Raise (ValidationError c' errs) => c' = c /\ In ([k], ExtraError) errs
  | Raise (Exception e) =>
      exists g, In g fields /\ vf (type_ g) [name g] (value_for g data) = Raised e
  end.
Proof.
  intros Hk Hf. unfold BaseModel_init.
  destruct (validate_fields vf fields data) as [[values errors]|e] eqn:E.
  - assert (Hin : In ([k], ExtraError) (errors ++ extra_errors fields data)).
    { apply in_or_app. right. unfold extra_errors.
      apply (in_map (fun k0 => ([k0], ExtraError))). apply In_sorted.
      apply filter_In. split; [exact Hk|]. rewrite Hf. reflexivity. }
    destruct (errors ++ extra_errors fields data) as [|e0 es]; [destruct Hin|].
    split; [reflexivity|exact Hin].
  - exact (validate_fields_failed _ _ E).
Qed.

(** A ValidationError lists at least one error. *)
Lemma BaseModel_init_errors (c c' : class_id) (fields : list (field T)) (data : kwargs)
      (errs : list error) :
  BaseModel_init vf c fields data = Raise (ValidationError c' errs) -> errs <> [].
Proof.
  unfold BaseModel_init.
  destruct (validate_fields vf fields data) as [[values errors]|e]; [|discriminate].
  destruct (errors ++ extra_errors fields data) as [|e0 es]; [discriminate|].
  intros [= _ <-]. discriminate.
Qed.
End Fields2.

Section Validators2.
Variable rt : runtime.

(** Only the float validator lets an exception escape: OverflowError. *)
Lemma validate_raised (t : ftype) (loc : list string) (v : pyval) (e : exception) :
  validate rt t loc v = Raised e -> e = OverflowError /\ t = TFloat.
Proof.
  assert (Hitems : forall items acc errs, validate_items rt loc items acc errs <> Failed e).
  { induction items as [|[k x] items IH]; intros acc errs; simpl; [discriminate|].
    pose proof (validate_sub_field_outcome rt (loc ++ [k]) x) as Hx.
    destruct (validate_sub_field rt (loc ++ [k]) x) as [w|es|e0]; [apply IH|apply IH|].
    destruct Hx. }
  unfold validate. destruct t.
  - destruct v; passes.
    + destruct (int_of_float x); passes.
    + destruct (int_of_str rt s); passes.
  - destruct v; passes.
    + destruct (float_of_int n); passes. intros [= <-]. auto.
    + destruct (float_of_str rt s); passes.
  - destruct v; passes. destruct (str_int rt n); passes.
  - destruct v; passes;
      repeat (match goal with |- context [if ?c then _ else _] => destruct c end; passes).
  - assert (H : forall w, _validate_mapping_like rt loc w <> Raised e).
    { intros w. unfold _validate_mapping_like.
      destruct (dict_validator w) as [items|]; [|discriminate].
      destruct (validate_items rt loc items [] []) as [[res [|e0 es]]|e0] eqn:E; try discriminate.
      intros [= ->]. exact (Hitems _ _ _ E). }
    destruct v; try discriminate; intros H'; exfalso; exact (H _ H').
Qed.

Lemma validate_items_errors (loc : list string) (items acc res : kwargs) (errs errs' : list error) :
  validate_items rt loc items acc errs = Done (res, errs') ->
  Forall (error_of TDict_str_str loc) errs -> Forall (error_of TDict_str_str loc) errs'.
Proof.
  revert acc errs. induction items as [|[k v] items IH]; intros acc errs H Hf; simpl in H.
  - injection H as _ <-. exact Hf.
  - pose proof (validate_sub_field_outcome rt (loc ++ [k]) v) as Hv.
    destruct (validate_sub_field rt (loc ++ [k]) v) as [v'|es|e]; [| |discriminate].
    + exact (IH _ _ H Hf).
    + apply (IH _ _ H). apply Forall_app. split; [exact Hf|].
      destruct Hv as (e & -> & He).
      constructor; [|constructor]. split; [exists [k]; reflexivity|]. simpl.
      destruct He as [<-|[<-|[<-|[]]]]; auto.
Qed.

Lemma validate_errors (t : ftype) (loc : list string) (v : pyval) (errs : list error) :
  validate rt t loc v = Invalid errs -> Forall (error_of t loc) errs.
Proof.
  assert (Hloc : exists rest : list string, loc = loc ++ rest)
    by (exists []; rewrite app_nil_r; reflexivity).
  assert (Hone : forall e, In e (type_errors t) -> Forall (error_of t loc) [(loc, e)]).
  { intros e He. constructor; [|constructor]. split; [exact Hloc|exact He]. }
  unfold validate. destruct t.
  - destruct v; simpl; try discriminate; try (intros [= <-]; apply Hone; simpl; auto).
    + destruct (int_of_float x); simpl; [discriminate|]. intros [= <-]; apply Hone; simpl; auto.
    + destruct (int_of_str rt s); simpl; [discriminate|]. intros [= <-]; apply Hone; simpl; auto.
  - destruct v; simpl; try discriminate; try (intros [= <-]; apply Hone; simpl; auto).
    + destruct (float_of_int n); simpl; discriminate.
    + destruct (float_of_str rt s); simpl; [discriminate|]. intros [= <-]; apply Hone; simpl; auto.
  - destruct v; simpl; try discriminate; try (intros [= <-]; apply Hone; simpl; auto).
    destruct (str_int rt n); simpl; [discriminate|]. intros [= <-]; apply Hone; simpl; auto.
  - destruct v; simpl; try discriminate; try (intros [= <-]; apply Hone; simpl; auto);
      repeat (match goal with |- context [if ?c then _ else _] => destruct c end;
              simpl; try discriminate; try (intros [= <-]; apply Hone; simpl; auto)).
  - assert (H : forall w, _validate_mapping_like rt loc w = Invalid errs ->
                          Forall (error_of TDict_str_str loc) errs).
    { intros w. unfold _validate_mapping_like.
      destruct (dict_validator w) as [items|]; [|intros [= <-]; apply Hone; simpl; auto].
      destruct (validate_items rt loc items [] []) as [[res [|e0 es]]|e0] eqn:E; try discriminate.
      intros [= <-]. eapply validate_items_errors; [exact E|constructor]. }
    destruct v; try (intros [= <-]; apply Hone; simpl; auto); apply H.
Qed.
End Validators2.

(** ** Instances, and [Config] *)

Lemma class_of_settings (t : mtype) : class_of t <> Config.
Proof. destruct t; discriminate. Qed.

Lemma class_eqb_eq (a b : class_id) : class_eqb a b = true <-> a = b.
Proof. destruct a, b; simpl; split; intros H; try reflexivity; discriminate. Qed.

Lemma keys_fields (T : Type) (fields : list (field T)) (out : field T -> pyval) :
  keys (map (fun g => (name g, out g)) fields) = field_names fields.
Proof. unfold keys, field_names. rewrite map_map. reflexivity. Qed.

Section Aggregate.
Variable rt : runtime.
Hypothesis clean : clean_environment rt.

Lemma holds_fields_plain (c : class_id) (d : kwargs) : holds_fields c d -> plain d = true.
Proof.
  intros H. apply plain_keys. intros k Hk. rewrite (holds_fields_keys H) in Hk.
  exact (fields_not_parameters c k Hk).
Qed.

(** Constructed from its own [__dict__], an instance of a settings class
    is made again. *)
Lemma reconstruct_settings (c : class_id) (d : kwargs) :
  c <> Config -> holds_fields c d -> new rt c d = Ok (PyModel c d).
Proof.
  intros Hc H.
  rewrite (new_settings rt Hc), (BaseSettings_init_plain clean) by exact (holds_fields_plain H).
  destruct (holds_fields_map H) as (out & -> & Hout).
  unfold BaseModel_init.
  rewrite (validate_fields_valid (validate rt) (fields_of c) _ out).
  - rewrite extra_errors_none; [reflexivity|].
    rewrite keys_fields. apply forallb_forall. intros k Hk.
    rewrite is_field_names. apply str_in_In. exact Hk.
  - intros g Hg. unfold value_for.
    rewrite (dict_get_fields (fields_of c) out g (names_distinct c) Hg).
    apply well_typed_valid. exact (Hout g Hg).
Qed.

Lemma default_instance_holds (c : class_id) :
  c <> Config ->
  holds_fields c (map (fun g => (name g, validated_default rt g)) (fields_of c)).
Proof.
  intros Hc. destruct (new_holds_fields rt [] Hc (new_default clean Hc)) as (d & [= <-] & H).
  exact H.
Qed.

(** The class body of [Config] makes its two defaults. *)
Lemma Config_fields_eq : Config_fields rt = Ok (Config_fields_clean rt).
Proof.
  unfold Config_fields.
  change (DrawConfig_new rt []) with (new rt DrawConfig []).
  change (ParseConfig_new rt []) with (new rt ParseConfig []).
  rewrite !(new_default clean) by discriminate. reflexivity.
Qed.

Lemma new_of_class (t : mtype) : new_of rt t = new rt (class_of t).
Proof. destruct t; reflexivity. Qed.

(** No ValidationError of a settings class comes without errors. *)
Lemma new_errors (c c' : class_id) (kw : kwargs) (errs : list error) :
  c <> Config -> new rt c kw = Raise (ValidationError c' errs) -> errs <> [].
Proof.
  intros Hc. rewrite (new_settings rt Hc). unfold BaseSettings_init.
  destruct (dict_has kw "__pydantic_self__"); [discriminate|].
  destruct (_build_values rt c _ _) as [data|e]; [|discriminate].
  apply BaseModel_init_errors.
Qed.

Lemma construct_valid (t : mtype) (loc : list string) (value : kwargs) (m : pyval) :
  construct_in_validator rt t loc value = Valid m -> new rt (class_of t) value = Ok m.
Proof.
  unfold construct_in_validator. rewrite new_of_class.
  destruct (new rt (class_of t) value) as [m'|[c' errs|[]]]; try discriminate.
  intros [= <-]. reflexivity.
Qed.

Lemma construct_nonempty (t : mtype) (loc : list string) (value : kwargs) :
  construct_in_validator rt t loc value <> Invalid [].
Proof.
  unfold construct_in_validator. rewrite new_of_class.
  destruct (new rt (class_of t) value) as [m'|[c' errs|[]]] eqn:E; try discriminate.
  destruct errs as [|e errs]; [|discriminate].
  exfalso. exact (new_errors _ (class_of_settings t) E eq_refl).
Qed.

Lemma validate_model_field_nonempty (t : mtype) (loc : list string) (v : pyval) :
  validate_model_field rt t loc v <> Invalid [].
Proof.
  destruct v as [| | | |s|items|c d]; simpl; try discriminate.
  - destruct s; [apply construct_nonempty|discriminate].
  - apply construct_nonempty.
  - destruct (class_eqb c (class_of t)); [discriminate|apply construct_nonempty].
Qed.

(** What the validator of a [Config] field returns is an instance of the
    field's class holding its fields, provided an instance given is one. *)
Lemma validate_model_field_holds (t : mtype) (loc : list string) (v m : pyval) :
  validate_model_field rt t loc v = Valid m ->
  (forall d, v = PyModel (class_of t) d -> holds_fields (class_of t) d) ->
  exists d, m = PyModel (class_of t) d /\ holds_fields (class_of t) d.
Proof.
  assert (Hnew : forall value, construct_in_validator rt t loc value = Valid m ->
                 exists d, m = PyModel (class_of t) d /\ holds_fields (class_of t) d).
  { intros value H. apply construct_valid in H.
    exact (new_holds_fields rt value (class_of_settings t) H). }
  destruct v as [| | | |s|items|c d]; simpl; try discriminate.
  - destruct s; [|discriminate]. intros H _. exact (Hnew _ H).
  - intros H _. exact (Hnew _ H).
  - destruct (class_eqb c (class_of t)) eqn:E.
    + apply class_eqb_eq in E. subst c. intros [= <-] H. exists d. split; [reflexivity|].
      apply H. reflexivity.
    + intros H _. exact (Hnew _ H).
Qed.

Lemma Config_new_plain (kw : kwargs) :
  plain kw = true ->
  Config_new rt kw = BaseModel_init (validate_model_field rt) Config (Config_fields_clean rt) kw.
Proof.
  intros Hp. unfold Config_new. rewrite Config_fields_eq.
  exact (BaseSettings_init_plain clean _ _ _ kw Hp).
Qed.

(** A [Config] made from overrides whose instances are well formed is
    well formed. *)
Lemma Config_new_valid (kw : kwargs) (m : pyval) :
  plain kw = true ->
  (forall k c d, In (k, PyModel c d) kw -> valid_instance (PyModel c d)) ->
  Config_new rt kw = Ok m ->
  exists d p,
    m = PyModel Config [("draw_config", PyModel DrawConfig d);
                        ("parse_config", PyModel ParseConfig p)] /\
    holds_fields DrawConfig d /\ holds_fields ParseConfig p.
Proof.
  intros Hp Hkw. rewrite (Config_new_plain kw Hp). unfold BaseModel_init.
  destruct (validate_fields (validate_model_field rt) (Config_fields_clean rt) kw)
    as [[values errors]|e] eqn:E; [|discriminate].
  destruct (errors ++ extra_errors (Config_fields_clean rt) kw) as [|e0 es] eqn:Eall;
    [|discriminate].
  intros [= <-]. apply app_eq_nil in Eall. destruct Eall as [-> _].
  apply (validate_fields_sound (validate_model_field rt) _ _ validate_model_field_nonempty) in E.
  assert (Hgiven : forall (t : mtype) (g : field mtype) d,
             In g (Config_fields_clean rt) -> type_ g = t ->
             value_for g kw = PyModel (class_of t) d -> holds_fields (class_of t) d).
  { intros t g d Hg Ht Hv. unfold value_for in Hv.
    destruct (dict_get kw (name g)) as [v|] eqn:Eg.
    - subst v. apply dict_get_In in Eg. destruct (Hkw _ _ _ Eg) as [(c' & d' & Hc' & [= <- <-] & H)|(d' & p' & He & _)].
      + exact H.
      + exfalso. injection He as Hc _. exact (class_of_settings t Hc).
    - destruct Hg as [<-|[<-|[]]]; simpl in Ht; subst t; simpl in Hv;
        unfold default_instance in Hv; injection Hv as <-;
        apply default_instance_holds; discriminate. }
  unfold Config_fields_clean in E.
  inversion E as [|g1 [k1 v1] l1 l1' [Hk1 Hv1] E1]; subst.
  inversion E1 as [|g2 [k2 v2] l2 l2' [Hk2 Hv2] E2]; subst.
  inversion E2; subst. simpl in Hk1, Hk2, Hv1, Hv2. subst k1 k2.
  destruct (@validate_model_field_holds TDrawConfig _ _ _ Hv1) as (d & -> & Hd).
  { intros d Hd. eapply (Hgiven TDrawConfig); [left; reflexivity|reflexivity|exact Hd]. }
  destruct (@validate_model_field_holds TParseConfig _ _ _ Hv2) as (p & -> & Hp2).
  { intros d' Hd'. eapply (Hgiven TParseConfig); [right; left; reflexivity|reflexivity|exact Hd']. }
  exists d, p. auto.
Qed.

(** Constructed from its serialisation, a well-formed [Config] is made
    again. *)
Lemma reconstruct_Config (d p : kwargs) :
  holds_fields DrawConfig d -> holds_fields ParseConfig p ->
  let m := PyModel Config [("draw_config", PyModel DrawConfig d);
                           ("parse_config", PyModel ParseConfig p)] in
  Config_new rt (to_dict m) = Ok m.
Proof.
  intros Hd Hp m.
  assert (Hdict : to_dict m = [("draw_config", PyDict d); ("parse_config", PyDict p)]).
  { unfold to_dict, m. simpl. rewrite (get_value_fields Hd), (get_value_fields Hp). reflexivity. }
  rewrite Hdict, Config_new_plain by reflexivity.
  unfold BaseModel_init, Config_fields_clean.
  generalize (default_instance rt DrawConfig) (default_instance rt ParseConfig). intros dd dp.
  simpl. unfold construct_in_validator. simpl.
  change (DrawConfig_new rt d) with (new rt DrawConfig d).
  change (ParseConfig_new rt p) with (new rt ParseConfig p).
  rewrite (reconstruct_settings (c:=DrawConfig)) by (discriminate || exact Hd).
  rewrite (reconstruct_settings (c:=ParseConfig)) by (discriminate || exact Hp).
  reflexivity.
Qed.

(** Every constructed instance is well formed. *)
Lemma constructed_valid (m : pyval) : constructed rt m -> valid_instance m.
Proof.
  induction 1 as [c kw m Hc Hnew|kw m Hp _ IH Hnew].
  - left. destruct (new_holds_fields rt kw Hc Hnew) as (d & -> & H). exists c, d. auto.
  - right. exact (Config_new_valid kw Hp IH Hnew).
Qed.

(** Keyword arguments that name declared fields only, each with a value
    of the declared type, make an instance. *)
Lemma well_typed_succeeds (c : class_id) (kw : kwargs) :
  (forall k v, In (k, v) kw -> has_declared_type c k v = true) ->
  exists m, new rt c kw = Ok m.
Proof.
  intros H.
  assert (Hdecl : forall k, In k (keys kw) -> In k (declared c)).
  { intros k Hk. unfold keys in Hk. apply in_map_iff in Hk. destruct Hk as ([k' v] & <- & Hin).
    specialize (H _ _ Hin). cbn [fst]. unfold has_declared_type in H. unfold declared.
    destruct c.
    - destruct (field_type (fields_of DrawConfig) k') as [t|] eqn:Et; [|discriminate].
      destruct (field_type_In _ _ Et) as (g & Hg & <- & _). unfold field_names.
      apply in_map. exact Hg.
    - destruct (field_type (fields_of ParseConfig) k') as [t|] eqn:Et; [|discriminate].
      destruct (field_type_In _ _ Et) as (g & Hg & <- & _). unfold field_names.
      apply in_map. exact Hg.
    - destruct v; try discriminate. apply orb_prop in H.
      destruct H as [H|H]; apply andb_prop in H; destruct H as [H _];
        apply String.eqb_eq in H; subst k'; simpl; auto. }
  assert (Hplain : plain kw = true).
  { apply plain_keys. intros k Hk. specialize (Hdecl k Hk).
    destruct c; try exact (fields_not_parameters _ k Hdecl).
    destruct Hdecl as [<-|[<-|[]]]; reflexivity. }
  destruct c.
  - exists (PyModel DrawConfig
              (map (fun g => (name g, match dict_get kw (name g) with
                                      | Some v => v
                                      | None => validated_default rt g
                                      end)) (fields_of DrawConfig))).
    rewrite (@new_settings rt DrawConfig) by discriminate.
    rewrite (BaseSettings_init_plain clean) by exact Hplain. unfold BaseModel_init.
    rewrite (validate_fields_valid (validate rt) (fields_of DrawConfig) kw
               (fun g => match dict_get kw (name g) with
                         | Some v => v
                         | None => validated_default rt g
                         end)).
    + rewrite extra_errors_none; [reflexivity|]. apply forallb_forall. intros k Hk.
      rewrite is_field_names. apply str_in_In. exact (Hdecl k Hk).
    + intros g Hg. unfold value_for. destruct (dict_get kw (name g)) as [v|] eqn:Eg.
      * apply well_typed_valid. apply dict_get_In in Eg. specialize (H _ _ Eg).
        unfold has_declared_type in H.
        rewrite (In_field_type _ g (names_distinct DrawConfig) Hg) in H. exact H.
      * exact (defaults_valid rt DrawConfig g Hg).
  - exists (PyModel ParseConfig
              (map (fun g => (name g, match dict_get kw (name g) with
                                      | Some v => v
                                      | None => validated_default rt g
                                      end)) (fields_of ParseConfig))).
    rewrite (@new_settings rt ParseConfig) by discriminate.
    rewrite (BaseSettings_init_plain clean) by exact Hplain. unfold BaseModel_init.
    rewrite (validate_fields_valid (validate rt) (fields_of ParseConfig) kw
               (fun g => match dict_get kw (name g) with
                         | Some v => v
                         | None => validated_default rt g
                         end)).
    + rewrite extra_errors_none; [reflexivity|]. apply forallb_forall. intros k Hk.
      rewrite is_field_names. apply str_in_In. exact (Hdecl k Hk).
    + intros g Hg. unfold value_for. destruct (dict_get kw (name g)) as [v|] eqn:Eg.
      * apply well_typed_valid. apply dict_get_In in Eg. specialize (H _ _ Eg).
        unfold has_declared_type in H.
        rewrite (In_field_type _ g (names_distinct ParseConfig) Hg) in H. exact H.
      * exact (defaults_valid rt ParseConfig g Hg).
  - exists (PyModel Config
              (map (fun g => (name g, value_for g kw)) (Config_fields_clean rt))).
    simpl. rewrite (Config_new_plain kw Hplain). unfold BaseModel_init.
    rewrite (validate_fields_valid (validate_model_field rt) (Config_fields_clean rt) kw
               (fun g => value_for g kw)).
    + rewrite extra_errors_none; [reflexivity|]. apply forallb_forall. intros k Hk.
      destruct (Hdecl k Hk) as [<-|[<-|[]]]; reflexivity.
    + intros g Hg. unfold value_for. destruct (dict_get kw (name g)) as [v|] eqn:Eg.
      * apply dict_get_In in Eg. specialize (H _ _ Eg). simpl in H.
        destruct v as [| | | | | |c' d']; try discriminate.
        destruct Hg as [<-|[<-|[]]]; simpl in H |- *;
          rewrite ?andb_false_l, ?orb_false_l, ?orb_false_r in H;
          apply class_eqb_eq in H; subst c'; reflexivity.
      * destruct Hg as [<-|[<-|[]]]; reflexivity.
Qed.

End Aggregate.

(** * The claims *)

Lemma Config_names_distinct (rt : runtime) : NoDup (field_names (Config_fields_clean rt)).
Proof. apply distinct_NoDup. reflexivity. Qed.

Section Claims.
Variable rt : runtime.
Hypothesis clean : clean_environment rt.

(** C1.  In the keycode map of a [ParseConfig] constructed with no
    override, a key written more than once in the dict display has the
    value of the last entry written for it; and COLON maps to the
    apostrophe, SQT to the double quote, APOS to the full stop and LBKT to
    the closing bracket. *)
Theorem keycode_map_last_write_wins :
  exists m km,
    new rt ParseConfig [] = Ok m /\
    getattr m "keycode_map" = Some km /\
    (forall k, repeated ParseConfig.keycode_map_entries k = true ->
       getitem km k =
       option_map PyStr (last_assignment ParseConfig.keycode_map_entries k)) /\
    getitem km "COLON" = Some (PyStr "'") /\
    getitem km "SQT" = Some (PyStr dquote) /\
    getitem km "APOS" = Some (PyStr ".") /\
    getitem km "LBKT" = Some (PyStr "]").
Proof.
  exists (PyModel ParseConfig
            [("preprocess", PyBool true); ("skip_binding_parsing", PyBool false);
             ("keycode_map",
              PyDict (map (fun kv => (fst kv, PyStr (snd kv))) ParseConfig.keycode_map))]).
  exists (PyDict (map (fun kv => (fst kv, PyStr (snd kv))) ParseConfig.keycode_map)).
  split; [exact (ParseConfig_default clean)|].
  split; [reflexivity|].
  split.
  - intros k _. unfold getitem. rewrite dict_get_map.
    unfold ParseConfig.keycode_map. rewrite dict_display_last. reflexivity.
  - repeat split; vm_compute; reflexivity.
Qed.

(** C2.  A [DrawConfig] constructed with [key_w] overridden by any int,
    and [split_gap], [combo_w] and [combo_h] not overridden, has
    [split_gap] 30, [combo_w] 28 and [combo_h] 26, the values computed in
    the class body from the defaults 60 and 56; with that override alone
    there is such an instance, whatever the int. *)
Theorem derived_defaults_not_recomputed :
  (DrawConfig.split_gap = 30%float /\ DrawConfig.combo_w = 28%float /\
   DrawConfig.combo_h = 26%float) /\
  (forall n, exists m, new rt DrawConfig [("key_w", PyInt n)] = Ok m) /\
  (forall kw n m,
     plain kw = true ->
     dict_get kw "key_w" = Some (PyInt n) ->
     dict_has kw "split_gap" = false ->
     dict_has kw "combo_w" = false ->
     dict_has kw "combo_h" = false ->
     new rt DrawConfig kw = Ok m ->
     getattr m "key_w" = Some (PyInt n) /\
     getattr m "split_gap" = Some (PyInt 30) /\
     getattr m "combo_w" = Some (PyInt 28) /\
     getattr m "combo_h" = Some (PyInt 26)).
Proof.
  split; [repeat split; vm_compute; reflexivity|]. split.
  - intros n. rewrite (@new_single rt clean DrawConfig "key_w" TInt (PyInt n) eq_refl).
    simpl. eexists. reflexivity.
  - intros kw n m Hp Hw Hs Hcw Hch.
    rewrite (@new_settings rt DrawConfig) by discriminate.
    rewrite (BaseSettings_init_plain clean) by exact Hp. unfold BaseModel_init.
    destruct (validate_fields (validate rt) (fields_of DrawConfig) kw)
      as [[values errors]|e] eqn:E; [|discriminate].
    destruct (errors ++ extra_errors (fields_of DrawConfig) kw); [|discriminate].
    intros [= <-].
    pose proof (validate_fields_lookup (validate rt) (fields_of DrawConfig) kw
                  (names_distinct DrawConfig) E) as L.
    unfold dict_has in Hs, Hcw, Hch.
    destruct (dict_get kw "split_gap") eqn:Es; [discriminate|].
    destruct (dict_get kw "combo_w") eqn:Ecw; [discriminate|].
    destruct (dict_get kw "combo_h") eqn:Ech; [discriminate|].
    repeat split.
    + apply (L {| name := "key_w"; type_ := TInt; default := PyInt DrawConfig.key_w |});
        [simpl; auto 20|]. unfold value_for. simpl name. rewrite Hw. reflexivity.
    + apply (L {| name := "split_gap"; type_ := TInt; default := PyFloat DrawConfig.split_gap |});
        [simpl; auto 20|]. unfold value_for. simpl name. rewrite Es. vm_compute. reflexivity.
    + apply (L {| name := "combo_w"; type_ := TInt; default := PyFloat DrawConfig.combo_w |});
        [simpl; auto 20|]. unfold value_for. simpl name. rewrite Ecw. vm_compute. reflexivity.
    + apply (L {| name := "combo_h"; type_ := TInt; default := PyFloat DrawConfig.combo_h |});
        [simpl; auto 20|]. unfold value_for. simpl name. rewrite Ech. vm_compute. reflexivity.
Qed.

(** C3.  [DrawConfig()] has key_w 60, key_h 56, split_gap 30, combo_w 28,
    combo_h 26, key_rx 6, key_ry 6, inner_pad_w 2, inner_pad_h 2,
    outer_pad_w 30, outer_pad_h 56, line_spacing 18, arc_radius 6 and
    arc_scale 1.0; [ParseConfig()] has preprocess True and
    skip_binding_parsing False. *)
Theorem default_values :
  exists d p,
    new rt DrawConfig [] = Ok d /\ new rt ParseConfig [] = Ok p /\
    getattr d "key_w" = Some (PyInt 60) /\
    getattr d "key_h" = Some (PyInt 56) /\
    getattr d "split_gap" = Some (PyInt 30) /\
    getattr d "combo_w" = Some (PyInt 28) /\
    getattr d "combo_h" = Some (PyInt 26) /\
    getattr d "key_rx" = Some (PyInt 6) /\
    getattr d "key_ry" = Some (PyInt 6) /\
    getattr d "inner_pad_w" = Some (PyInt 2) /\
    getattr d "inner_pad_h" = Some (PyInt 2) /\
    getattr d "outer_pad_w" = Some (PyInt 30) /\
    getattr d "outer_pad_h" = Some (PyInt 56) /\
    getattr d "line_spacing" = Some (PyInt 18) /\
    getattr d "arc_radius" = Some (PyInt 6) /\
    getattr d "arc_scale" = Some (PyFloat 1) /\
    getattr p "preprocess" = Some (PyBool true) /\
    getattr p "skip_binding_parsing" = Some (PyBool false).
Proof.
  eexists. eexists.
  split; [exact (DrawConfig_default clean)|].
  split; [exact (ParseConfig_default clean)|].
  repeat split; reflexivity.
Qed.

(** C6.  For a field of [DrawConfig] or [ParseConfig] and a value of the
    field's type, the class constructed with that one override has the
    value for the field, and for every other field what the class
    constructed with no override has. *)
Theorem single_override_frame (c : class_id) (f : string) (t : ftype) (v : pyval) :
  field_type (fields_of c) f = Some t ->
  well_typed t v = true ->
  exists m m0,
    new rt c [(f, v)] = Ok m /\ new rt c [] = Ok m0 /\
    getattr m f = Some v /\
    forall g, g <> f -> getattr m g = getattr m0 g.
Proof.
  intros Ht Hv.
  assert (Hc : c <> Config) by (intros ->; discriminate Ht).
  destruct (field_type_In _ _ Ht) as (g0 & Hg0 & Hn & _).
  eexists. eexists.
  split; [rewrite (@new_single rt clean c f t v Ht), (well_typed_valid rt t [f] v Hv); reflexivity|].
  split; [exact (new_default clean Hc)|].
  unfold getattr. split.
  - rewrite dict_get_override, String.eqb_refl, is_field_names.
    assert (Hin : str_in f (field_names (fields_of c)) = true).
    { apply str_in_In. rewrite <- Hn. unfold field_names. apply in_map. exact Hg0. }
    rewrite Hin. reflexivity.
  - intros g Hg. rewrite dict_get_override.
    destruct (String.eqb_spec g f) as [E|_]; [contradiction|reflexivity].
Qed.

(** C4, amended.  For a field of [DrawConfig] or [ParseConfig] and any
    value, the class constructed with that one override does what the
    field's validator does with the value: when the validator converts it,
    there is an instance and it holds the converted value, which has the
    field's type; when the validator refuses it, a ValidationError is
    raised with at least one error, each located at the field or, for a
    dict, at a key below it, and each one of the errors of the field's
    type: that None is not allowed (given for the field, or for a value
    inside a dict), the type error of the validator (not a valid integer,
    float, boolean or dict; str type expected), or the ValueError of
    [str()] for an int of too many digits where a str is expected; and the
    one exception a validator lets through, the OverflowError of an int
    too large for a float field, is raised as it is.  A value of the
    field's type is converted to itself. *)
Theorem single_override_validated (c : class_id) (f : string) (t : ftype) (v : pyval) :
  field_type (fields_of c) f = Some t ->
  (well_typed t v = true -> validate rt t [f] v = Valid v) /\
  match validate rt t [f] v with
  | Valid v' =>
      exists m, new rt c [(f, v)] = Ok m /\ getattr m f = Some v' /\ well_typed t v' = true
  | Invalid errs =>
      new rt c [(f, v)] = Raise (ValidationError c errs) /\
      errs <> [] /\ Forall (error_of t [f]) errs
  | Raised e =>
      new rt c [(f, v)] = Raise (Exception e) /\ e = OverflowError /\ t = TFloat
  end.
Proof.
  intros Ht. split; [apply well_typed_valid|].
  rewrite (@new_single rt clean c f t v Ht).
  destruct (field_type_In _ _ Ht) as (g0 & Hg0 & Hn & _).
  destruct (validate rt t [f] v) as [v'|errs|e] eqn:E.
  - eexists. split; [reflexivity|]. split; [|exact (validate_well_typed _ _ _ _ E)].
    unfold getattr. rewrite dict_get_override, String.eqb_refl, is_field_names.
    assert (Hin : str_in f (field_names (fields_of c)) = true).
    { apply str_in_In. rewrite <- Hn. unfold field_names. apply in_map. exact Hg0. }
    rewrite Hin. reflexivity.
  - split; [reflexivity|]. split; [|exact (validate_errors _ _ _ _ E)].
    intros ->. exact (validate_nonempty _ _ _ _ E).
  - split; [reflexivity|]. exact (validate_raised _ _ _ _ E).
Qed.

(** C5, amended.  For keyword arguments that name no parameter of the
    constructor itself: when a key is no declared field of the class,
    there is no instance, and the ValidationError raised lists the key as
    an extra field (unless an exception escapes a validator first); and
    when every key is a declared field given a value of its declared type,
    there is an instance. *)
Theorem unknown_key_forbidden (c : class_id) (kw : kwargs) :
  plain kw = true ->
  (forall k, In k (keys kw) -> ~ In k (declared c) ->
     match new rt c kw with
     | Ok _ => False
     | Raise (ValidationError c' errs) => c' = c /\ In ([k], ExtraError) errs
     | Raise (Exception e) => e = OverflowError \/ e = OSError
     end) /\
  ((forall k v, In (k, v) kw -> has_declared_type c k v = true) ->
   exists m, new rt c kw = Ok m).
Proof.
  intros Hp. split; [|apply (well_typed_succeeds clean)].
  intros k Hk Hd.
  assert (Hleaf : c <> Config ->
            match new rt c kw with
            | Ok _ => False
            | Raise (ValidationError c' errs) => c' = c /\ In ([k], ExtraError) errs
            | Raise (Exception e) => e = OverflowError \/ e = OSError
            end).
  { intros Hc. rewrite (new_settings rt Hc), (BaseSettings_init_plain clean) by exact Hp.
    assert (Hf : is_field (fields_of c) k = false).
    { rewrite is_field_names. destruct (str_in k (field_names (fields_of c))) eqn:E;
        [|reflexivity].
      exfalso. apply Hd. apply str_in_In in E. destruct c; try exact E.
      contradiction Hc; reflexivity. }
    pose proof (BaseModel_init_extra (validate rt) c (fields_of c) kw k Hk Hf) as H.
    destruct (BaseModel_init (validate rt) c (fields_of c) kw) as [m|[c' errs|e]];
      [exact H|exact H|].
    destruct H as (g & _ & H). left. exact (proj1 (validate_raised _ _ _ _ H)). }
  destruct c; [apply Hleaf; discriminate|apply Hleaf; discriminate|].
  simpl new. rewrite (Config_new_plain clean kw Hp).
  assert (Hf : is_field (Config_fields_clean rt) k = false).
  { rewrite is_field_names. destruct (str_in k (field_names (Config_fields_clean rt))) eqn:E;
      [|reflexivity].
    exfalso. apply Hd. apply str_in_In in E. exact E. }
  pose proof (BaseModel_init_extra (validate_model_field rt) Config
                (Config_fields_clean rt) kw k Hk Hf) as H.
  destruct (BaseModel_init (validate_model_field rt) Config (Config_fields_clean rt) kw)
    as [m|[c' errs|e]]; [exact H|exact H|].
  destruct H as (g & _ & H).
  assert (Hcons : forall t loc value, construct_in_validator rt t loc value = Raised e ->
                                      e = OverflowError \/ e = OSError).
  { intros t loc value. unfold construct_in_validator.
    destruct (new_of rt t value) as [m'|[c' errs|[]]]; try discriminate;
      intros [= <-]; auto. }
  revert H. generalize (type_ g) [name g] (value_for g kw). intros t loc v.
  destruct v as [| | | |s|items|c' d']; simpl; try discriminate.
  - destruct s; [apply Hcons|discriminate].
  - apply Hcons.
  - destruct (class_eqb c' (class_of t)); [discriminate|apply Hcons].
Qed.

(** C7.  Every constructed instance of one of the three classes, when
    serialised with [dict()] and constructed again from that dict, gives an
    instance with the same value in every field. *)
Theorem serialise_reconstruct (m : pyval) :
  constructed rt m ->
  exists c d, m = PyModel c d /\ new rt c (to_dict m) = Ok m.
Proof.
  intros H. destruct (constructed_valid clean H) as [(c & d & Hc & -> & Hd)|(d & p & -> & Hd & Hp)].
  - exists c, d. split; [reflexivity|].
    rewrite (to_dict_settings Hd). exact (reconstruct_settings clean Hc Hd).
  - eexists. eexists. split; [reflexivity|]. exact (reconstruct_Config clean Hd Hp).
Qed.

(** C8.  A [Config] constructed with a [draw_config] override only has for
    [parse_config] the instance [ParseConfig()], and one constructed with
    a [parse_config] override only has for [draw_config] the instance
    [DrawConfig()]; and an instance of the field's class is an override
    that is accepted, and held as given. *)
Theorem aggregate_frame :
  (forall v m, new rt Config [("draw_config", v)] = Ok m ->
     exists p, new rt ParseConfig [] = Ok p /\ getattr m "parse_config" = Some p) /\
  (forall v m, new rt Config [("parse_config", v)] = Ok m ->
     exists d, new rt DrawConfig [] = Ok d /\ getattr m "draw_config" = Some d) /\
  (forall d, exists m p,
     new rt Config [("draw_config", PyModel DrawConfig d)] = Ok m /\
     new rt ParseConfig [] = Ok p /\
     getattr m "draw_config" = Some (PyModel DrawConfig d) /\
     getattr m "parse_config" = Some p) /\
  (forall p, exists m d,
     new rt Config [("parse_config", PyModel ParseConfig p)] = Ok m /\
     new rt DrawConfig [] = Ok d /\
     getattr m "parse_config" = Some (PyModel ParseConfig p) /\
     getattr m "draw_config" = Some d).
Proof.
  assert (Hother : forall f v m (g : field mtype),
            new rt Config [(f, v)] = Ok m -> is_parameter f = false ->
            In g (Config_fields_clean rt) -> name g <> f ->
            getattr m (name g) = Some (default g)).
  { intros f v m g Hnew Hf Hg Hne. simpl new in Hnew.
    rewrite (Config_new_plain clean [(f, v)]) in Hnew by (simpl; rewrite Hf; reflexivity).
    unfold BaseModel_init in Hnew.
    destruct (validate_fields (validate_model_field rt) (Config_fields_clean rt) [(f, v)])
      as [[values errors]|e] eqn:E; [|discriminate].
    destruct (errors ++ extra_errors (Config_fields_clean rt) [(f, v)]); [|discriminate].
    injection Hnew as <-. unfold getattr.
    apply (validate_fields_lookup (validate_model_field rt) (Config_fields_clean rt) [(f, v)]
             (Config_names_distinct rt) E g Hg).
    unfold value_for. simpl dict_get.
    destruct (String.eqb_spec f (name g)) as [Ef|_]; [symmetry in Ef; contradiction|].
    destruct Hg as [<-|[<-|[]]]; reflexivity. }
  split; [|split; [|split]].
  - intros v m Hnew. exists (default_instance rt ParseConfig).
    split; [apply (new_default clean); discriminate|].
    apply (Hother "draw_config" v m
             {| name := "parse_config"; type_ := TParseConfig;
                default := default_instance rt ParseConfig |} Hnew eq_refl);
      [right; left; reflexivity|discriminate].
  - intros v m Hnew. exists (default_instance rt DrawConfig).
    split; [apply (new_default clean); discriminate|].
    apply (Hother "parse_config" v m
             {| name := "draw_config"; type_ := TDrawConfig;
                default := default_instance rt DrawConfig |} Hnew eq_refl);
      [left; reflexivity|discriminate].
  - intros d. eexists. exists (default_instance rt ParseConfig).
    split; [simpl new; rewrite (Config_new_plain clean) by reflexivity; reflexivity|].
    split; [apply (new_default clean); discriminate|]. split; reflexivity.
  - intros p. eexists. exists (default_instance rt DrawConfig).
    split; [simpl new; rewrite (Config_new_plain clean) by reflexivity; reflexivity|].
    split; [apply (new_default clean); discriminate|]. split; reflexivity.
Qed.

(** C9.  The [svg_style] of [DrawConfig()] is the text written in the class
    body, dedented: each line of it is the line of the literal less its
    margin of eight blanks (the last, the blanks before the closing
    quotes, is emptied), and every selector, with its opening brace, is
    one of its lines. *)
Theorem default_stylesheet :
  exists d,
    new rt DrawConfig [] = Ok d /\
    getattr d "svg_style" = Some (PyStr (dedent DrawConfig.svg_style_literal)) /\
    split_lines (dedent DrawConfig.svg_style_literal) =
    map (fun l => if whitespace_only l then EmptyString else remove_prefix "        " l)
        (split_lines DrawConfig.svg_style_literal) /\
    forall sel, In sel (class_selectors ++ element_selectors) ->
      In (String.append sel " {") (split_lines (dedent DrawConfig.svg_style_literal)) /\
      str_contains sel (dedent DrawConfig.svg_style_literal) = true.
Proof.
  eexists. split; [exact (DrawConfig_default clean)|].
  split; [reflexivity|]. split; [vm_compute; reflexivity|].
  intros sel Hsel.
  assert (H : forallb (fun s =>
                andb (str_in (String.append s " {")
                        (split_lines (dedent DrawConfig.svg_style_literal)))
                     (str_contains s (dedent DrawConfig.svg_style_literal)))
                (class_selectors ++ element_selectors) = true)
    by (vm_compute; reflexivity).
  rewrite forallb_forall in H. specialize (H sel Hsel).
  apply andb_prop in H. destruct H as [H1 H2]. split; [|exact H2].
  apply str_in_In. exact H1.
Qed.

(** C10.  Every value of the keycode map of [ParseConfig()] is a str of
    length 1. *)
Theorem keycode_map_single_glyphs :
  exists m km,
    new rt ParseConfig [] = Ok m /\
    getattr m "keycode_map" = Some km /\
    forall k v, getitem km k = Some v ->
      exists s, v = PyStr s /\ String.length s = 1%nat.
Proof.
  eexists. eexists. split; [exact (ParseConfig_default clean)|].
  split; [reflexivity|]. intros k v Hv. unfold getitem in Hv.
  rewrite dict_get_map in Hv.
  destruct (dict_get ParseConfig.keycode_map k) as [s|] eqn:E; [|discriminate].
  injection Hv as <-. exists s. split; [reflexivity|].
  assert (H : forallb (fun kv => Nat.eqb (String.length (snd kv)) 1) ParseConfig.keycode_map
              = true) by (vm_compute; reflexivity).
  rewrite forallb_forall in H. apply dict_get_In in E. specialize (H _ E).
  apply Nat.eqb_eq in H. exact H.
Qed.

End Claims.

(** * Further properties of the constructors *)

(** ** What [validate_model] collects *)

Lemma dict_get_keys (V : Type) (d : list (string * V)) (k : string) :
  In k (keys d) <-> exists v, dict_get d k = Some v.
Proof.
  induction d as [|[k' v'] d IH]; simpl.
  - split; [intros []|intros [v H]; discriminate H].
  - destruct (String.eqb_spec k' k) as [->|Hne].
    + split; [intros _; exists v'; reflexivity|intros _; left; reflexivity].
    + rewrite <- IH. split; [intros [H|H]; [contradiction|exact H]|intros H; right; exact H].
Qed.

Lemma dict_get_absent (V : Type) (d : list (string * V)) (k : string) :
  ~ In k (keys d) -> dict_get d k = None.
Proof.
  intros H. destruct (dict_get d k) as [v|] eqn:E; [|reflexivity].
  exfalso. apply H. apply dict_get_keys. exists v. exact E.
Qed.

Lemma field_type_is_field (T : Type) (fields : list (field T)) (k : string) :
  field_type fields k = None <-> is_field fields k = false.
Proof.
  unfold field_type, is_field. induction fields as [|g fields IH]; simpl.
  - split; reflexivity.
  - destruct (String.eqb (name g) k); simpl; [split; discriminate|exact IH].
Qed.

Section Collected.
Variable T : Type.
Variable vf : T -> list string -> pyval -> vresult.

(** The errors collected are those of the fields refused, and no other. *)
Lemma validate_fields_errors (fields : list (field T)) (input values : kwargs)
      (errs : list error) :
  validate_fields vf fields input = Done (values, errs) ->
  forall e, In e errs <->
    exists g es, In g fields /\
      vf (type_ g) [name g] (value_for g input) = Invalid es /\ In e es.
Proof.
  revert values errs. induction fields as [|f fields IH]; intros values errs; simpl.
  - intros [= <- <-] e. split; [intros []|intros (g & es & [] & _)].
  - fold (value_for f input).
    destruct (vf (type_ f) [name f] (value_for f input)) as [v|es|x] eqn:E; [| |discriminate];
      destruct (validate_fields vf fields input) as [[values' errs']|x]; try discriminate;
      intros [= <- <-] e; specialize (IH _ _ eq_refl e).
    + rewrite IH. split; intros (g & es & Hg & Hv & He).
      * exists g, es. auto.
      * destruct Hg as [<-|Hg]; [rewrite E in Hv; discriminate Hv|]. exists g, es. auto.
    + rewrite in_app_iff, IH. split.
      * intros [He|(g & es' & Hg & Hv & He)]; [exists f, es; auto|exists g, es'; auto].
      * intros (g & es' & [<-|Hg] & Hv & He).
        -- rewrite E in Hv. injection Hv as <-. left. exact He.
        -- right. exists g, es'. auto.
Qed.

(** A field whose validator lets an exception through ends the loop. *)
Lemma validate_fields_raises (fields : list (field T)) (input : kwargs) (g : field T)
      (e : exception) :
  In g fields -> vf (type_ g) [name g] (value_for g input) = Raised e ->
  exists e', validate_fields vf fields input = Failed e'.
Proof.
  induction fields as [|f fields IH]; [intros []|]. intros [<-|Hg] Hv; simpl.
  - fold (value_for f input). rewrite Hv. exists e. reflexivity.
  - destruct (IH Hg Hv) as [e' ->].
    destruct (vf (type_ f) [name f] _) as [v|es|x]; eexists; reflexivity.
Qed.

(** The values collected when no field is refused, by name. *)
Lemma validate_fields_get (fields : list (field T)) (input values : kwargs) (g : field T) :
  (forall t loc x, vf t loc x <> Invalid []) ->
  NoDup (field_names fields) ->
  validate_fields vf fields input = Done (values, []) ->
  In g fields ->
  exists v', vf (type_ g) [name g] (value_for g input) = Valid v' /\
             dict_get values (name g) = Some v'.
Proof.
  intros Hne Hnd E Hg.
  destruct (vf (type_ g) [name g] (value_for g input)) as [v'|es|x] eqn:Ev.
  - exists v'. split; [reflexivity|].
    exact (validate_fields_lookup vf fields input Hnd E g Hg Ev).
  - exfalso. destruct es as [|e0 es]; [exact (Hne _ _ _ Ev)|].
    apply (proj2 (validate_fields_errors _ _ E e0)). exists g, (e0 :: es).
    split; [exact Hg|]. split; [exact Ev|left; reflexivity].
  - exfalso. destruct (validate_fields_raises fields input g Hg Ev) as [e' He'].
    rewrite He' in E. discriminate E.
Qed.

(** An instance holds, for each field, what the validator makes of the
    value given for it or of its default. *)
Lemma BaseModel_init_holds (c : class_id) (fields : list (field T)) (kw : kwargs) (m : pyval)
      (g : field T) :
  (forall t loc x, vf t loc x <> Invalid []) ->
  NoDup (field_names fields) ->
  BaseModel_init vf c fields kw = Ok m ->
  In g fields ->
  exists v', vf (type_ g) [name g] (value_for g kw) = Valid v' /\
             getattr m (name g) = Some v'.
Proof.
  intros Hne Hnd. unfold BaseModel_init.
  destruct (validate_fields vf fields kw) as [[values errors]|e] eqn:E; [|discriminate].
  destruct (errors ++ extra_errors fields kw) as [|e0 es] eqn:Eall; [|discriminate].
  intros [= <-] Hg. apply app_eq_nil in Eall. destruct Eall as [-> _].
  exact (@validate_fields_get fields kw values g Hne Hnd E Hg).
Qed.

End Collected.

Section Overrides.
Variable rt : runtime.
Hypothesis clean : clean_environment rt.


(** X1.  Whatever the keyword arguments and the environment, an instance
    of [DrawConfig] or [ParseConfig] that is constructed holds exactly the
    fields the class declares, in the order declared, each with a value
    of its annotation's type (an int for the fields whose default is
    written as a quotient); and [dict()] gives these fields back. *)
Theorem instance_fields_typed (c : class_id) (kw : kwargs) (m : pyval) :
  c <> Config -> new rt c kw = Ok m ->
  exists d,
    m = PyModel c d /\ keys d = declared c /\ to_dict m = d /\
    forall f t, field_type (fields_of c) f = Some t ->
      exists v, getattr m f = Some v /\ well_typed t v = true.
Proof.
  intros Hc Hnew. destruct (new_holds_fields rt kw Hc Hnew) as (d & -> & Hd).
  exists d. split; [reflexivity|]. split.
  { rewrite (holds_fields_keys Hd). destruct c; try reflexivity. contradiction Hc; reflexivity. }
  split; [exact (to_dict_settings Hd)|].
  intros f t Ht. destruct (field_type_In _ _ Ht) as (g & Hg & <- & <-).
  destruct (holds_fields_map Hd) as (out & -> & Hout).
  exists (out g). split; [|exact (Hout g Hg)].
  exact (dict_get_fields (fields_of c) out g (names_distinct c) Hg).
Qed.

(** X2.  With any number of overrides, a field that is given holds what
    its validator makes of the value given, and a field that is not given
    holds what it holds in the instance constructed with no argument: no
    default is computed again from the fields overridden. *)
Theorem overrides_frame (c : class_id) (kw : kwargs) (m : pyval) :
  c <> Config -> plain kw = true -> new rt c kw = Ok m ->
  exists m0,
    new rt c [] = Ok m0 /\
    forall f t, field_type (fields_of c) f = Some t ->
      match dict_get kw f with
      | Some v => exists v', validate rt t [f] v = Valid v' /\ getattr m f = Some v'
      | None => getattr m f = getattr m0 f
      end.
Proof.
  intros Hc Hp Hnew.
  exists (PyModel c (map (fun g => (name g, validated_default rt g)) (fields_of c))).
  split; [exact (new_default clean Hc)|].
  rewrite (new_settings rt Hc), (BaseSettings_init_plain clean) in Hnew by exact Hp.
  intros f t Ht. destruct (field_type_In _ _ Ht) as (g & Hg & <- & <-).
  destruct (@BaseModel_init_holds _ (validate rt) c (fields_of c) kw m g
              (validate_nonempty rt) (names_distinct c) Hnew Hg) as (v' & Hv & Hget).
  unfold value_for in Hv. destruct (dict_get kw (name g)) as [v|].
  - exists v'. split; [exact Hv|exact Hget].
  - rewrite Hget. simpl getattr.
    rewrite (dict_get_fields (fields_of c) (validated_default rt) g (names_distinct c) Hg).
    rewrite (defaults_valid rt c g Hg) in Hv. injection Hv as <-. reflexivity.
Qed.

(** X3.  In a clean environment, for keyword arguments none of which is
    named like a parameter of the constructor itself: when the constructor
    of [DrawConfig] or [ParseConfig] raises a ValidationError, it reports
    every failure of the call at once: each key given that is no field of
    the class as an extra, each field given whose validator refuses the
    value with that validator's errors (a None inside a dict given for
    [keycode_map], say, as not allowed at its key); and it reports nothing
    else (no default is refused). *)
Theorem all_failures_reported (c c' : class_id) (kw : kwargs) (errs : list error) :
  c <> Config -> plain kw = true ->
  new rt c kw = Raise (ValidationError c' errs) ->
  c' = c /\
  (forall k v, dict_get kw k = Some v ->
     match field_type (fields_of c) k with
     | None => In ([k], ExtraError) errs
     | Some t => forall es, validate rt t [k] v = Invalid es -> incl es errs
     end) /\
  (forall e, In e errs ->
     exists k v, dict_get kw k = Some v /\
       match field_type (fields_of c) k with
       | None => e = ([k], ExtraError)
       | Some t => exists es, validate rt t [k] v = Invalid es /\ In e es
       end).
Proof.
  intros Hc Hp. rewrite (new_settings rt Hc), (BaseSettings_init_plain clean) by exact Hp.
  unfold BaseModel_init.
  destruct (validate_fields (validate rt) (fields_of c) kw) as [[values errors]|e] eqn:E;
    [|discriminate].
  destruct (errors ++ extra_errors (fields_of c) kw) as [|e0 es] eqn:Eall; [discriminate|].
  intros [= <- <-]. rewrite <- Eall. clear Eall e0 es.
  pose proof (validate_fields_errors _ _ _ E) as Herr.
  split; [reflexivity|]. split.
  - intros k v Hk. destruct (field_type (fields_of c) k) as [t|] eqn:Ht.
    + intros es Hes e He. apply in_or_app. left. apply Herr.
      destruct (field_type_In _ _ Ht) as (g & Hg & <- & <-).
      exists g, es. split; [exact Hg|]. split; [|exact He].
      unfold value_for. rewrite Hk. exact Hes.
    + apply in_or_app. right. unfold extra_errors.
      apply (in_map (fun k => ([k], ExtraError))). apply In_sorted. apply filter_In. split.
      * apply dict_get_keys. exists v. exact Hk.
      * apply field_type_is_field in Ht. rewrite Ht. reflexivity.
  - intros e He. apply in_app_or in He. destruct He as [He|He].
    + apply Herr in He. destruct He as (g & es & Hg & Hv & He).
      unfold value_for in Hv. destruct (dict_get kw (name g)) as [v|] eqn:Hk.
      * exists (name g), v. split; [exact Hk|].
        rewrite (In_field_type _ _ (names_distinct c) Hg). exists es. auto.
      * rewrite (defaults_valid rt c g Hg) in Hv. discriminate Hv.
    + unfold extra_errors in He. apply in_map_iff in He. destruct He as (k & <- & Hk).
      apply (proj1 (In_sorted _ _)) in Hk. apply filter_In in Hk. destruct Hk as [Hk Hf].
      apply dict_get_keys in Hk. destruct Hk as [v Hk]. exists k, v. split; [exact Hk|].
      apply negb_true_iff in Hf. apply field_type_is_field in Hf. rewrite Hf. reflexivity.
Qed.

(** X4.  The only exception other than a ValidationError that a
    constructor of [DrawConfig] or [ParseConfig] raises for keyword
    arguments that are all values is the OverflowError of [arc_scale]
    given an int too large for a float; it is raised whenever
    [arc_scale] is given such an int, and [ParseConfig], which has no
    float field, raises none. *)
Theorem only_overflow_escapes (c : class_id) (kw : kwargs) (e : exception) :
  c <> Config -> plain kw = true ->
  (new rt c kw = Raise (Exception e) <->
   c = DrawConfig /\ e = OverflowError /\
   exists n, dict_get kw "arc_scale" = Some (PyInt n) /\ float_of_int n = None).
Proof.
  intros Hc Hp. rewrite (new_settings rt Hc), (BaseSettings_init_plain clean) by exact Hp.
  unfold BaseModel_init. split.
  - destruct (validate_fields (validate rt) (fields_of c) kw) as [[values errors]|e'] eqn:E.
    { destruct (errors ++ extra_errors (fields_of c) kw); discriminate. }
    intros [= ->]. destruct (validate_fields_failed _ _ _ E) as (g & Hg & Hv).
    destruct (validate_raised _ _ _ _ Hv) as [-> Ht].
    assert (Hgc : c = DrawConfig /\ name g = "arc_scale").
    { destruct c; [|exfalso|contradiction Hc; reflexivity]; simpl in Hg;
        repeat (destruct Hg as [<-|Hg]; [try discriminate Ht; try (split; reflexivity)|]);
        destruct Hg. }
    destruct Hgc as [-> Hn]. split; [reflexivity|]. split; [reflexivity|].
    unfold value_for in Hv. destruct (dict_get kw (name g)) as [v|] eqn:Hk.
    2:{ rewrite (defaults_valid rt DrawConfig g Hg) in Hv. discriminate Hv. }
    rewrite Hn in Hk. rewrite Ht in Hv.
    destruct v as [| |n| |s| |]; simpl in Hv; try discriminate Hv.
    + destruct (float_of_int n) eqn:En; [discriminate Hv|]. exists n. auto.
    + destruct (float_of_str rt s); discriminate Hv.
  - intros (-> & -> & n & Hk & Hn).
    pose (g := {| name := "arc_scale"; type_ := TFloat;
                  default := PyFloat DrawConfig.arc_scale |}).
    assert (Hg : In g (fields_of DrawConfig)) by (simpl; auto 20).
    assert (Hv : validate rt (type_ g) [name g] (value_for g kw) = Raised OverflowError).
    { unfold value_for. simpl name. rewrite Hk. simpl. rewrite Hn. reflexivity. }
    destruct (validate_fields_raises (validate rt) _ _ g Hg Hv) as [e' He'].
    rewrite He'. destruct (validate_fields_failed _ _ _ He') as (g' & _ & Hv').
    destruct (validate_raised _ _ _ _ Hv') as [-> _]. reflexivity.
Qed.

End Overrides.

(** ** [Config] and its two fields *)

Lemma sorted_nil (l : list string) : sorted l = [] -> l = [].
Proof.
  destruct l as [|k l]; [reflexivity|]. simpl.
  destruct (sorted l) as [|x s]; simpl; [discriminate|].
  destruct (String.leb k x); discriminate.
Qed.

Section Nested.
Variable rt : runtime.
Hypothesis clean : clean_environment rt.

Lemma Config_field_type (t : mtype) :
  field_type (Config_fields_clean rt) (Config_field t) = Some t.
Proof. destruct t; reflexivity. Qed.

Lemma Config_defaults_valid (g : field mtype) :
  In g (Config_fields_clean rt) ->
  validate_model_field rt (type_ g) [name g] (default g) = Valid (default g).
Proof. intros [<-|[<-|[]]]; reflexivity. Qed.

(** [Config] constructed with one override of a field. *)
Lemma Config_new_single (t : mtype) (v : pyval) :
  new rt Config [(Config_field t, v)] =
  match validate_model_field rt t [Config_field t] v with
  | Valid v' =>
      Ok (PyModel Config
            (map (fun g => (name g, if String.eqb (name g) (Config_field t) then v' else default g))
                 (Config_fields_clean rt)))
  | Invalid errs => Raise (ValidationError Config errs)
  | Raised e => Raise (Exception e)
  end.
Proof.
  simpl new. rewrite (Config_new_plain clean) by (destruct t; reflexivity).
  unfold BaseModel_init.
  rewrite (@validate_fields_single mtype (validate_model_field rt) (Config_fields_clean rt)
             (@default mtype) (Config_field t) t v Config_defaults_valid
             (Config_names_distinct rt) (Config_field_type t)).
  rewrite extra_errors_none by (destruct t; reflexivity).
  destruct (validate_model_field rt t [Config_field t] v) as [v'|errs|e] eqn:E;
    [reflexivity| |reflexivity].
  destruct errs as [|e0 errs]; [exfalso; exact (validate_model_field_nonempty rt _ _ _ E)|].
  simpl. rewrite app_nil_r. reflexivity.
Qed.

Lemma Config_new_default :
  new rt Config [] =
  Ok (PyModel Config [("draw_config", default_instance rt DrawConfig);
                      ("parse_config", default_instance rt ParseConfig)]).
Proof. simpl new. rewrite (Config_new_plain clean) by reflexivity. reflexivity. Qed.

(** An instance of a settings class given to the constructor of the
    other: every field of the instance is an extra. *)
Lemma new_other_class (c u : class_id) (d : kwargs) :
  c <> Config -> u <> Config -> u <> c -> holds_fields u d ->
  new rt c d =
  Raise (ValidationError c (map (fun k => ([k], ExtraError)) (sorted (declared u)))).
Proof.
  intros Hc Hu Hne Hd.
  assert (Hdisj : forall k, In k (field_names (fields_of c)) ->
                            In k (field_names (fields_of u)) -> False).
  { assert (H : forallb (fun k => negb (str_in k (field_names (fields_of u))))
                        (field_names (fields_of c)) = true).
    { destruct c, u; try reflexivity; try (contradiction Hc; reflexivity);
        try (contradiction Hu; reflexivity); contradiction Hne; reflexivity. }
    rewrite forallb_forall in H. intros k Hk Hk'. specialize (H k Hk).
    apply str_in_In in Hk'. rewrite Hk' in H. discriminate H. }
  rewrite (new_settings rt Hc), (BaseSettings_init_plain clean)
    by exact (holds_fields_plain Hd).
  unfold BaseModel_init.
  rewrite (validate_fields_valid (validate rt) (fields_of c) d (validated_default rt)).
  2:{ intros g Hg. unfold value_for. rewrite dict_get_absent.
      - exact (defaults_valid rt c g Hg).
      - rewrite (holds_fields_keys Hd). intros Hk. apply (Hdisj (name g)); [|exact Hk].
        unfold field_names. apply in_map. exact Hg. }
  unfold extra_errors. rewrite (holds_fields_keys Hd), filter_all.
  2:{ apply forallb_forall. intros k Hk. rewrite is_field_names.
      destruct (str_in k (field_names (fields_of c))) eqn:E; [|reflexivity].
      exfalso. apply str_in_In in E. exact (Hdisj k E Hk). }
  replace (field_names (fields_of u)) with (declared u)
    by (destruct u; try reflexivity; contradiction Hu; reflexivity).
  simpl app. destruct (sorted (declared u)) as [|k ks] eqn:Es; [|reflexivity].
  apply sorted_nil in Es. destruct u; discriminate Es.
Qed.

(** X5.  No field of the three classes takes None: constructed with None
    for a declared field, and nothing else, each class raises a
    ValidationError whose one error is that None is not allowed, located
    at the field. *)
Theorem None_refused (c : class_id) (f : string) :
  In f (declared c) ->
  new rt c [(f, PyNone)] = Raise (ValidationError c [([f], NoneIsNotAllowedError)]).
Proof.
  intros Hf.
  assert (Hleaf : c <> Config ->
            new rt c [(f, PyNone)] = Raise (ValidationError c [([f], NoneIsNotAllowedError)])).
  { intros Hc.
    assert (Hin : In f (field_names (fields_of c)))
      by (destruct c; try exact Hf; contradiction Hc; reflexivity).
    unfold field_names in Hin. apply in_map_iff in Hin. destruct Hin as (g & <- & Hg).
    rewrite (@new_single rt clean c (name g) (type_ g) PyNone
               (In_field_type _ _ (names_distinct c) Hg)).
    reflexivity. }
  destruct c; [apply Hleaf; discriminate|apply Hleaf; discriminate|].
  destruct Hf as [<-|[<-|[]]].
  - exact (Config_new_single TDrawConfig PyNone).
  - exact (Config_new_single TParseConfig PyNone).
Qed.

(** X6.  A [Config] constructed from overrides that name no parameter of
    the constructor, and whose instances were constructed in turn, holds
    under [draw_config] an instance of [DrawConfig] and under
    [parse_config] an instance of [ParseConfig], each holding the fields
    of its class with values of their types; [dict()] lists the two
    fields. *)
Theorem Config_holds_instances (kw : kwargs) (m : pyval) :
  plain kw = true ->
  (forall k c d, In (k, PyModel c d) kw -> constructed rt (PyModel c d)) ->
  new rt Config kw = Ok m ->
  exists d p,
    getattr m "draw_config" = Some (PyModel DrawConfig d) /\
    getattr m "parse_config" = Some (PyModel ParseConfig p) /\
    holds_fields DrawConfig d /\ holds_fields ParseConfig p /\
    keys (to_dict m) = declared Config.
Proof.
  intros Hp Hkw Hnew.
  assert (Hv : forall k c d, In (k, PyModel c d) kw -> valid_instance (PyModel c d)).
  { intros k c d H. exact (constructed_valid clean (Hkw k c d H)). }
  destruct (@Config_new_valid rt clean kw m Hp Hv Hnew) as (d & p & -> & Hd & Hpf).
  exists d, p. repeat split; assumption.
Qed.

(** X7.  In a clean environment, a dict given for a field of [Config] is
    given to the constructor of the field's class: the instance it makes
    is held in the field, the other field being as in [Config()]; the
    errors of its ValidationError are those of [Config]'s, each located
    below the field; its TypeError and its SettingsError, which the
    validator catches, are each reported as one error of the field (a type
    error, a value error); the exceptions left, OverflowError and OSError,
    are raised as they are. *)
Theorem nested_dict_constructs (t : mtype) (items : kwargs) :
  match new rt (class_of t) items with
  | Ok inner =>
      exists m m0,
        new rt Config [(Config_field t, PyDict items)] = Ok m /\
        new rt Config [] = Ok m0 /\
        getattr m (Config_field t) = Some inner /\
        forall g, g <> Config_field t -> getattr m g = getattr m0 g
  | Raise (ValidationError _ errs) =>
      new rt Config [(Config_field t, PyDict items)] =
      Raise (ValidationError Config (map (fun e => (Config_field t :: fst e, snd e)) errs))
  | Raise (Exception TypeError) =>
      new rt Config [(Config_field t, PyDict items)] =
      Raise (ValidationError Config [([Config_field t], CaughtTypeError)])
  | Raise (Exception SettingsError) =>
      new rt Config [(Config_field t, PyDict items)] =
      Raise (ValidationError Config [([Config_field t], CaughtValueError)])
  | Raise (Exception e) =>
      new rt Config [(Config_field t, PyDict items)] = Raise (Exception e)
  end.
Proof.
  rewrite (Config_new_single t (PyDict items)). simpl validate_model_field.
  unfold construct_in_validator. rewrite new_of_class.
  destruct (new rt (class_of t) items) as [inner|[c' errs|e]] eqn:E.
  - eexists. eexists. split; [reflexivity|]. split; [exact Config_new_default|].
    unfold getattr. split.
    + rewrite dict_get_override, String.eqb_refl. destruct t; reflexivity.
    + intros g Hg. rewrite dict_get_override.
      destruct (String.eqb_spec g (Config_field t)) as [Eg|_]; [contradiction|reflexivity].
  - destruct errs as [|e0 errs];
      [exfalso; exact (new_errors rt items (class_of_settings t) E eq_refl)|].
    reflexivity.
  - destruct e; reflexivity.
Qed.

(** X8.  The two fields of [Config] cannot be given one another's
    instances: an instance of the other class, given for a field, is
    refused with an extra-field error for each field of that instance,
    in sorted order, located below the field. *)
Theorem other_class_refused (t u : mtype) (d : kwargs) :
  u <> t -> holds_fields (class_of u) d ->
  new rt Config [(Config_field t, PyModel (class_of u) d)] =
  Raise (ValidationError Config
           (map (fun k => ([Config_field t; k], ExtraError)) (sorted (declared (class_of u))))).
Proof.
  intros Hne Hd. rewrite (Config_new_single t (PyModel (class_of u) d)).
  simpl validate_model_field.
  assert (Hcls : class_eqb (class_of u) (class_of t) = false).
  { destruct t, u; try reflexivity; contradiction Hne; reflexivity. }
  rewrite Hcls. unfold construct_in_validator. rewrite new_of_class.
  rewrite (@new_other_class (class_of t) (class_of u) d (class_of_settings t)
             (class_of_settings u)); [|destruct t, u; try discriminate; contradiction Hne; reflexivity|exact Hd].
  rewrite map_map. simpl.
  destruct (sorted (declared (class_of u))) as [|k ks] eqn:Es; [|reflexivity].
  apply sorted_nil in Es. destruct u; discriminate Es.
Qed.

Lemma has_declared_type_declared (c : class_id) (k : string) (v : pyval) :
  has_declared_type c k v = true -> In k (declared c).
Proof.
  destruct c; simpl.
  - destruct (field_type DrawConfig.__fields__ k) as [t|] eqn:Ht; [|discriminate].
    intros _. destruct (field_type_In _ _ Ht) as (g & Hg & <- & _).
    exact (in_map (@name ftype) _ _ Hg).
  - destruct (field_type ParseConfig.__fields__ k) as [t|] eqn:Ht; [|discriminate].
    intros _. destruct (field_type_In _ _ Ht) as (g & Hg & <- & _).
    exact (in_map (@name ftype) _ _ Hg).
  - destruct v; try discriminate. intros H. apply orb_prop in H.
    destruct H as [H|H]; apply andb_prop in H; destruct H as [H _];
      apply String.eqb_eq in H; subst k; auto.
Qed.

(** X9.  Overrides that are of the types their fields declare are held
    as they are given, whatever their number, and the fields that are not
    given are as in the instance constructed with no argument. *)
Theorem typed_overrides_kept (c : class_id) (kw : kwargs) :
  (forall k v, In (k, v) kw -> has_declared_type c k v = true) ->
  exists m m0,
    new rt c kw = Ok m /\ new rt c [] = Ok m0 /\
    forall f, In f (declared c) ->
      getattr m f = match dict_get kw f with
                    | Some v => Some v
                    | None => getattr m0 f
                    end.
Proof.
  intros H. destruct (well_typed_succeeds clean c kw H) as [m Hm].
  assert (Hp : plain kw = true).
  { apply plain_keys. intros k Hk. apply dict_get_keys in Hk. destruct Hk as [v Hk].
    apply dict_get_In in Hk. pose proof (has_declared_type_declared _ _ _ (H k v Hk)) as Hd.
    destruct c; [exact (fields_not_parameters DrawConfig k Hd)
                |exact (fields_not_parameters ParseConfig k Hd)|].
    destruct Hd as [<-|[<-|[]]]; reflexivity. }
  assert (Hleaf : c <> Config ->
            forall f, In f (declared c) ->
              getattr m f =
              match dict_get kw f with
              | Some v => Some v
              | None => getattr (PyModel c (map (fun g => (name g, validated_default rt g))
                                                (fields_of c))) f
              end).
  { intros Hc f Hf.
    assert (Hin : In f (field_names (fields_of c)))
      by (destruct c; try exact Hf; contradiction Hc; reflexivity).
    unfold field_names in Hin. apply in_map_iff in Hin. destruct Hin as (g & <- & Hg).
    rewrite (new_settings rt Hc), (BaseSettings_init_plain clean) in Hm by exact Hp.
    destruct (@BaseModel_init_holds _ (validate rt) c (fields_of c) kw m g
                (validate_nonempty rt) (names_distinct c) Hm Hg) as (v' & Hv & Hget).
    rewrite Hget. unfold value_for in Hv. destruct (dict_get kw (name g)) as [v|] eqn:Hk.
    - apply dict_get_In in Hk. specialize (H _ _ Hk).
      assert (Hw : well_typed (type_ g) v = true).
      { pose proof (In_field_type _ _ (names_distinct c) Hg) as Hft.
        destruct c; [| |contradiction Hc; reflexivity];
          unfold has_declared_type in H; rewrite Hft in H; exact H. }
      rewrite (well_typed_valid rt _ _ _ Hw) in Hv. congruence.
    - simpl getattr.
      rewrite (dict_get_fields (fields_of c) (validated_default rt) g (names_distinct c) Hg).
      rewrite (defaults_valid rt c g Hg) in Hv. congruence. }
  exists m. destruct c.
  - eexists. split; [exact Hm|]. split; [apply (new_default clean); discriminate|].
    apply Hleaf. discriminate.
  - eexists. split; [exact Hm|]. split; [apply (new_default clean); discriminate|].
    apply Hleaf. discriminate.
  - eexists. split; [exact Hm|]. split; [exact Config_new_default|].
    intros f Hf. simpl new in Hm. rewrite (Config_new_plain clean) in Hm by exact Hp.
    assert (Hg : exists g, In g (Config_fields_clean rt) /\ name g = f).
    { destruct Hf as [<-|[<-|[]]];
        [exists {| name := "draw_config"; type_ := TDrawConfig;
                   default := default_instance rt DrawConfig |}
        |exists {| name := "parse_config"; type_ := TParseConfig;
                   default := default_instance rt ParseConfig |}];
        (split; [simpl; auto|reflexivity]). }
    destruct Hg as (g & Hg & <-).
    destruct (@BaseModel_init_holds _ (validate_model_field rt) Config (Config_fields_clean rt)
                kw m g (validate_model_field_nonempty rt) (Config_names_distinct rt) Hm Hg)
      as (v' & Hv & Hget).
    rewrite Hget. unfold value_for in Hv. destruct (dict_get kw (name g)) as [v|] eqn:Hk.
    + apply dict_get_In in Hk. specialize (H _ _ Hk). simpl in H.
      destruct v as [| | | | | |c' d']; try discriminate H.
      assert (Hcls : class_eqb c' (class_of (type_ g)) = true).
      { destruct Hg as [<-|[<-|[]]]; simpl in H |- *; destruct c'; simpl in H |- *;
          try reflexivity; discriminate H. }
      simpl in Hv. rewrite Hcls in Hv. congruence.
    + rewrite (Config_defaults_valid Hg) in Hv. injection Hv as <-.
      destruct Hg as [<-|[<-|[]]]; reflexivity.
Qed.

End Nested.

(** ** The keys of a dict display *)

Lemma dict_set_In_keys (V : Type) (d : list (string * V)) (k k' : string) (v : V) :
  In k' (keys (dict_set d k v)) <-> k' = k \/ In k' (keys d).
Proof.
  rewrite dict_set_keys. destruct (str_in k (keys d)) eqn:E.
  - apply str_in_In in E. split; [auto|]. intros [->|H]; assumption.
  - rewrite in_app_iff. simpl. split.
    + intros [H|[H|[]]]; auto.
    + intros [H|H]; auto.
Qed.

Lemma dict_display_keys (V : Type) (entries : list (string * V)) :
  NoDup (keys (dict_display entries)) /\
  forall k, In k (keys (dict_display entries)) <-> In k (keys entries).
Proof.
  unfold dict_display.
  assert (Hall : forall (d : list (string * V)), NoDup (keys d) ->
            NoDup (keys (fold_left (fun d kv => dict_set d (fst kv) (snd kv)) entries d)) /\
            forall k, In k (keys (fold_left (fun d kv => dict_set d (fst kv) (snd kv)) entries d))
                      <-> In k (keys d) \/ In k (keys entries)).
  { induction entries as [|[k0 v0] entries IH]; intros d Hd; simpl.
    - split; [exact Hd|]. intros k. split; [auto|]. intros [H|[]]. exact H.
    - destruct (IH (dict_set d k0 v0) (dict_set_NoDup d k0 v0 Hd)) as [Hn Hk].
      split; [exact Hn|]. intros k. rewrite Hk, dict_set_In_keys.
      split; [intros [[->|H]|H]|intros [H|[<-|H]]]; auto. }
  destruct (Hall [] (NoDup_nil _)) as [Hn Hk]. split; [exact Hn|].
  intros k. rewrite Hk. simpl. split; [intros [[]|H]; exact H|auto].
Qed.

(** ** Sorting *)

Lemma ascii_compare_N (a b : ascii) :
  Ascii.compare a b = N.compare (N_of_ascii a) (N_of_ascii b).
Proof. reflexivity. Qed.

Lemma string_leb_trans (a b c : string) :
  String.leb a b = true -> String.leb b c = true -> String.leb a c = true.
Proof.
  unfold String.leb. revert b c.
  induction a as [|x a IH]; intros [|y b] [|z c]; simpl; try congruence.
  rewrite !ascii_compare_N.
  destruct (N.compare_spec (N_of_ascii x) (N_of_ascii y)) as [Exy|Exy|Exy];
    destruct (N.compare_spec (N_of_ascii y) (N_of_ascii z)) as [Eyz|Eyz|Eyz];
    try congruence.
  - rewrite Exy, Eyz, N.compare_refl. apply IH.
  - rewrite Exy. rewrite (proj2 (N.compare_lt_iff _ _) Eyz). reflexivity.
  - rewrite <- Eyz. rewrite (proj2 (N.compare_lt_iff _ _) Exy). reflexivity.
  - rewrite (proj2 (N.compare_lt_iff _ _) (N.lt_trans _ _ _ Exy Eyz)). reflexivity.
Qed.

Lemma insert_sorted_comm (a b : string) (l : list string) :
  insert_sorted a (insert_sorted b l) = insert_sorted b (insert_sorted a l).
Proof.
  induction l as [|x l IH]; simpl.
  - destruct (String.leb a b) eqn:Eab, (String.leb b a) eqn:Eba; try reflexivity.
    + rewrite (String.leb_antisym _ _ Eab Eba). reflexivity.
    + destruct (String.leb_total a b) as [H|H]; congruence.
  - destruct (String.leb a x) eqn:Eax, (String.leb b x) eqn:Ebx; simpl;
      rewrite ?Eax, ?Ebx.
    + destruct (String.leb a b) eqn:Eab, (String.leb b a) eqn:Eba; try reflexivity.
      * rewrite (String.leb_antisym _ _ Eab Eba). reflexivity.
      * destruct (String.leb_total a b) as [H|H]; congruence.
    + destruct (String.leb b a) eqn:Eba; [|reflexivity].
      rewrite (string_leb_trans _ _ _ Eba Eax) in Ebx. discriminate Ebx.
    + destruct (String.leb a b) eqn:Eab; [|reflexivity].
      rewrite (string_leb_trans _ _ _ Eab Ebx) in Eax. discriminate Eax.
    + rewrite IH. reflexivity.
Qed.

(** [sorted] gives one list for all the orders a set of names is given in. *)
Lemma sorted_Permutation (l l' : list string) : Permutation l l' -> sorted l = sorted l'.
Proof.
  induction 1 as [|x l l' _ IH|x y l|l l' l'' _ IH1 _ IH2]; simpl.
  - reflexivity.
  - rewrite IH. reflexivity.
  - apply insert_sorted_comm.
  - rewrite IH1. exact IH2.
Qed.

(** ** The order of the keyword arguments *)

Lemma dict_get_Permutation (V : Type) (d d' : list (string * V)) (k : string) :
  NoDup (keys d) -> Permutation d d' -> dict_get d k = dict_get d' k.
Proof.
  intros Hnd Hp. revert Hnd.
  induction Hp as [|[k0 v0] d d' Hp IH|[k0 v0] [k1 v1] d|d d' d'' Hp1 IH1 Hp2 IH2];
    intros Hnd; simpl.
  - reflexivity.
  - inversion Hnd; subst. rewrite IH by assumption. reflexivity.
  - simpl in Hnd. inversion Hnd as [|? ? Hnotin _]; subst.
    destruct (String.eqb_spec k1 k) as [->|_], (String.eqb_spec k0 k) as [->|_];
      try reflexivity.
    exfalso. apply Hnotin. left. reflexivity.
  - rewrite IH1 by exact Hnd. apply IH2.
    unfold keys. apply (Permutation_NoDup (Permutation_map fst Hp1)). exact Hnd.
Qed.

Lemma validate_fields_ext (T : Type) (vf : T -> list string -> pyval -> vresult)
      (fields : list (field T)) (input input' : kwargs) :
  (forall k, dict_get input k = dict_get input' k) ->
  validate_fields vf fields input = validate_fields vf fields input'.
Proof.
  intros H. induction fields as [|f fields IH]; simpl; [reflexivity|].
  rewrite H, IH. reflexivity.
Qed.

Lemma BaseModel_init_Permutation (T : Type) (vf : T -> list string -> pyval -> vresult)
      (c : class_id) (fields : list (field T)) (kw kw' : kwargs) :
  NoDup (keys kw) -> Permutation kw kw' ->
  BaseModel_init vf c fields kw = BaseModel_init vf c fields kw'.
Proof.
  intros Hnd Hp. unfold BaseModel_init, extra_errors.
  rewrite (validate_fields_ext vf fields kw kw')
    by (intros k; exact (dict_get_Permutation k Hnd Hp)).
  rewrite (@sorted_Permutation
             (filter (fun k => negb (is_field fields k)) (keys kw))
             (filter (fun k => negb (is_field fields k)) (keys kw'))); [reflexivity|].
  (* filter respects permutations *)
  assert (Hk : Permutation (keys kw) (keys kw')) by (unfold keys; apply Permutation_map; exact Hp).
  clear Hp Hnd. induction Hk as [|x l l' _ IH|x y l|l l' l'' _ IH1 _ IH2]; simpl.
  - constructor.
  - destruct (negb (is_field fields x)); [constructor|]; exact IH.
  - destruct (negb (is_field fields x)), (negb (is_field fields y)); try apply Permutation_refl.
    constructor.
  - exact (Permutation_trans IH1 IH2).
Qed.

Lemma plain_Permutation (kw kw' : kwargs) :
  Permutation kw kw' -> plain kw = true -> plain kw' = true.
Proof.
  unfold plain. intros Hp H. rewrite forallb_forall in *. intros kv Hkv.
  apply H. exact (Permutation_in kv (Permutation_sym Hp) Hkv).
Qed.

Section Order.
Variable rt : runtime.
Hypothesis clean : clean_environment rt.

(** X10.  The keycode map of [ParseConfig()] is the dict display of the
    class body less one entry: its keys are the keys written, each once,
    98 in all;
    every entry written is in the map with the value written, but for
    COLON, written first with a colon and then with an apostrophe; and
    LBRC and RBRC, written in comments only, have no entry. *)
Theorem keycode_map_entries_kept :
  exists m items,
    new rt ParseConfig [] = Ok m /\
    getattr m "keycode_map" = Some (PyDict items) /\
    NoDup (keys items) /\ List.length items = 98%nat /\
    (forall k, In k (keys items) <-> In k (keys ParseConfig.keycode_map_entries)) /\
    (forall k s, In (k, s) ParseConfig.keycode_map_entries -> (k, s) <> ("COLON", ":") ->
       dict_get items k = Some (PyStr s)) /\
    (forall k s, dict_get items k = Some (PyStr s) -> In (k, s) ParseConfig.keycode_map_entries) /\
    dict_get items "LBRC" = None /\ dict_get items "RBRC" = None.
Proof.
  eexists. eexists. split; [exact (ParseConfig_default clean)|]. split; [reflexivity|].
  assert (Hkeys : forall (d : list (string * string)),
            keys (map (fun kv => (fst kv, PyStr (snd kv))) d) = keys d).
  { intros d. unfold keys. rewrite map_map. reflexivity. }
  destruct (dict_display_keys ParseConfig.keycode_map_entries) as [Hn Hk].
  fold ParseConfig.keycode_map in Hn, Hk.
  split; [rewrite Hkeys; exact Hn|]. split; [vm_compute; reflexivity|].
  split; [intros k; rewrite Hkeys; apply Hk|].
  split; [|split; [|split; vm_compute; reflexivity]].
  - intros k s Hin Hne. rewrite dict_get_map.
    assert (H : forallb (fun kv =>
                  orb (andb (String.eqb (fst kv) "COLON") (String.eqb (snd kv) ":"))
                      (match dict_get ParseConfig.keycode_map (fst kv) with
                       | Some s' => String.eqb s' (snd kv)
                       | None => false
                       end)) ParseConfig.keycode_map_entries = true)
      by (vm_compute; reflexivity).
    rewrite forallb_forall in H. specialize (H _ Hin). cbn [fst snd] in H.
    apply orb_prop in H. destruct H as [H|H].
    + apply andb_prop in H. destruct H as [H1 H2].
      apply String.eqb_eq in H1, H2. subst. contradiction Hne; reflexivity.
    + destruct (dict_get ParseConfig.keycode_map k) as [s'|]; [|discriminate H].
      apply String.eqb_eq in H. subst. reflexivity.
  - intros k s H. rewrite dict_get_map in H.
    destruct (dict_get ParseConfig.keycode_map k) as [s'|] eqn:E; [|discriminate H].
    injection H as ->. unfold ParseConfig.keycode_map in E. rewrite dict_display_last in E.
    clear -E. induction ParseConfig.keycode_map_entries as [|[k' v'] l IH]; [discriminate E|].
    cbn [last_assignment] in E. destruct (last_assignment l k) as [w|].
    + right. apply IH. exact E.
    + destruct (String.eqb_spec k' k) as [->|_]; [|discriminate E].
      injection E as ->. left. reflexivity.
Qed.

(** X11.  The order in which the keyword arguments are written does not
    matter: two calls of a constructor with the same arguments, none named
    like a parameter of the constructor, in two orders have one outcome,
    the instance or the exception with its errors in their order. *)
Theorem overrides_order_irrelevant (c : class_id) (kw kw' : kwargs) :
  NoDup (keys kw) -> plain kw = true -> Permutation kw kw' ->
  new rt c kw = new rt c kw'.
Proof.
  intros Hnd Hpl Hp. pose proof (plain_Permutation Hp Hpl) as Hpl'.
  destruct c.
  - rewrite (@new_settings rt DrawConfig) by discriminate.
    rewrite !(BaseSettings_init_plain clean) by assumption.
    exact (BaseModel_init_Permutation _ _ _ Hnd Hp).
  - rewrite (@new_settings rt ParseConfig) by discriminate.
    rewrite !(BaseSettings_init_plain clean) by assumption.
    exact (BaseModel_init_Permutation _ _ _ Hnd Hp).
  - simpl new. rewrite !(Config_new_plain clean) by assumption.
    exact (BaseModel_init_Permutation _ _ _ Hnd Hp).
Qed.

End Order.

(** ** [dedent] on any text *)

(** A string with no newline is its own single line. *)
Lemma split_lines_cons (c : ascii) (l : string) :
  Ascii.eqb c newline = false -> split_lines l = [l] ->
  split_lines (String c l) = [String c l].
Proof. intros Hc Hl. simpl. rewrite Hc, Hl. reflexivity. Qed.

Lemma split_lines_nonempty (text : string) : split_lines text <> [].
Proof.
  induction text as [|c text IH]; simpl; [discriminate|].
  destruct (Ascii.eqb c newline); [discriminate|].
  destruct (split_lines text); [contradiction IH; reflexivity|discriminate].
Qed.

Lemma split_lines_single (c : ascii) (l : string) :
  split_lines (String c l) = [String c l] ->
  Ascii.eqb c newline = false /\ split_lines l = [l].
Proof.
  pose proof (split_lines_nonempty l) as Hne. simpl.
  destruct (Ascii.eqb c newline); [discriminate|].
  destruct (split_lines l) as [|x xs]; [contradiction Hne; reflexivity|].
  intros [= -> ->]. auto.
Qed.

Lemma split_lines_lines (text : string) :
  split_lines text <> [] /\ Forall (fun l => split_lines l = [l]) (split_lines text).
Proof.
  induction text as [|c text [Hne IH]]; simpl.
  - split; [discriminate|]. repeat constructor.
  - destruct (Ascii.eqb c newline) eqn:Ec.
    + split; [discriminate|]. constructor; [reflexivity|exact IH].
    + destruct (split_lines text) as [|l ls]; [contradiction Hne; reflexivity|].
      split; [discriminate|]. inversion IH; subst.
      constructor; [apply split_lines_cons; assumption|assumption].
Qed.

Lemma split_lines_append (l r : string) :
  split_lines l = [l] ->
  split_lines (String.append l (String newline r)) = l :: split_lines r.
Proof.
  induction l as [|c l IH]; intros H.
  - reflexivity.
  - apply split_lines_single in H. destruct H as [Hc Hl].
    change (String.append (String c l) (String newline r))
      with (String c (String.append l (String newline r))).
    cbn [split_lines]. rewrite Hc, (IH Hl). reflexivity.
Qed.

Lemma split_lines_suffix (a b : string) :
  split_lines (String.append a b) = [String.append a b] -> split_lines b = [b].
Proof.
  induction a as [|c a IH]; [intros H; exact H|]. intros H.
  change (String.append (String c a) b) with (String c (String.append a b)) in H.
  apply split_lines_single in H. apply IH. exact (proj2 H).
Qed.

(** Joining lines and splitting again gives the lines back. *)
Lemma split_join_lines (ls : list string) :
  ls <> [] -> Forall (fun l => split_lines l = [l]) ls -> split_lines (join_lines ls) = ls.
Proof.
  unfold join_lines. induction ls as [|l ls IH]; [intros H; contradiction H; reflexivity|].
  intros _ H. inversion H as [|? ? Hl Hls]; subst. destruct ls as [|l' ls].
  - exact Hl.
  - change (String.concat (String newline EmptyString) (l :: l' :: ls))
      with (String.append l (String newline (String.concat (String newline EmptyString) (l' :: ls)))).
    rewrite (split_lines_append _ Hl), IH; [reflexivity|discriminate|exact Hls].
Qed.

(** Prefixes. *)
Lemma prefix_refl (s : string) : String.prefix s s = true.
Proof.
  induction s as [|c s IH]; [reflexivity|]. simpl.
  destruct (ascii_dec c c) as [_|H]; [exact IH|contradiction H; reflexivity].
Qed.

Lemma prefix_trans (a b c : string) :
  String.prefix a b = true -> String.prefix b c = true -> String.prefix a c = true.
Proof.
  revert b c. induction a as [|x a IH]; intros b c; [destruct c; reflexivity|].
  destruct b as [|y b]; [discriminate|]. destruct c as [|z c]; [discriminate|]. simpl.
  destruct (ascii_dec x y) as [->|]; [|discriminate].
  destruct (ascii_dec y z) as [->|]; [|discriminate].
  destruct (ascii_dec z z) as [_|H]; [apply IH|contradiction H; reflexivity].
Qed.

Lemma prefix_empty (s : string) : String.prefix EmptyString s = true.
Proof. destruct s; reflexivity. Qed.

Lemma substring_all (s : string) : String.substring 0 (String.length s) s = s.
Proof. induction s as [|c s IH]; [reflexivity|]. simpl. rewrite IH. reflexivity. Qed.

(** A line that starts with the margin is the margin and then what
    [remove_prefix] leaves. *)
Lemma remove_prefix_append (p l : string) :
  String.prefix p l = true -> l = String.append p (remove_prefix p l).
Proof.
  unfold remove_prefix. intros H. rewrite H. revert l H.
  induction p as [|a p IH]; intros l H.
  - simpl. rewrite Nat.sub_0_r, substring_all. reflexivity.
  - destruct l as [|b l]; [discriminate H|]. simpl in H.
    destruct (ascii_dec a b) as [->|]; [|discriminate H].
    simpl. f_equal. exact (IH l H).
Qed.

Lemma remove_prefix_line (p l : string) :
  split_lines l = [l] -> split_lines (remove_prefix p l) = [remove_prefix p l].
Proof.
  intros H. destruct (String.prefix p l) eqn:E.
  - apply (split_lines_suffix p). rewrite <- (remove_prefix_append _ _ E). exact H.
  - unfold remove_prefix. rewrite E. exact H.
Qed.

Lemma common_prefix_l (a b : string) : String.prefix (common_prefix a b) a = true.
Proof.
  revert b. induction a as [|x a IH]; intros [|y b]; try reflexivity. simpl.
  destruct (Ascii.eqb x y); [|reflexivity]. simpl.
  destruct (ascii_dec x x) as [_|H]; [apply IH|contradiction H; reflexivity].
Qed.

Lemma common_prefix_r (a b : string) : String.prefix (common_prefix a b) b = true.
Proof.
  revert b. induction a as [|x a IH]; intros [|y b]; try reflexivity. simpl.
  destruct (Ascii.eqb_spec x y) as [->|_]; [|reflexivity]. simpl.
  destruct (ascii_dec y y) as [_|H]; [apply IH|contradiction H; reflexivity].
Qed.

Lemma common_prefix_greatest (p a b : string) :
  String.prefix p a = true -> String.prefix p b = true ->
  String.prefix p (common_prefix a b) = true.
Proof.
  revert a b. induction p as [|z p IH]; intros a b; [intros _ _; apply prefix_empty|].
  destruct a as [|x a]; [discriminate|]. destruct b as [|y b]; [discriminate|]. simpl.
  destruct (ascii_dec z x) as [->|]; [|discriminate].
  destruct (ascii_dec x y) as [->|]; [|discriminate].
  rewrite Ascii.eqb_refl. simpl.
  destruct (ascii_dec y y) as [_|H]; [apply IH|contradiction H; reflexivity].
Qed.

(** Blanks. *)
Lemma whitespace_only_leading (l : string) : whitespace_only (leading_whitespace l) = true.
Proof.
  unfold whitespace_only. apply String.eqb_eq.
  induction l as [|c l IH]; [reflexivity|]. simpl.
  destruct (is_blank_char c) eqn:E; [|reflexivity]. simpl. rewrite E, IH. reflexivity.
Qed.

Lemma leading_whitespace_prefix (l : string) : String.prefix (leading_whitespace l) l = true.
Proof.
  induction l as [|c l IH]; [reflexivity|]. simpl.
  destruct (is_blank_char c); [|reflexivity]. simpl.
  destruct (ascii_dec c c) as [_|H]; [exact IH|contradiction H; reflexivity].
Qed.

Lemma whitespace_only_cons (c : ascii) (s : string) :
  whitespace_only (String c s) = andb (is_blank_char c) (whitespace_only s).
Proof.
  unfold whitespace_only. simpl. destruct (is_blank_char c); [|reflexivity].
  simpl. rewrite Ascii.eqb_refl. reflexivity.
Qed.

Lemma whitespace_only_prefix (p l : string) :
  whitespace_only l = true -> String.prefix p l = true -> whitespace_only p = true.
Proof.
  revert l. induction p as [|a p IH]; intros l; [reflexivity|].
  destruct l as [|b l]; [discriminate|]. rewrite !whitespace_only_cons. simpl.
  destruct (ascii_dec a b) as [->|]; [|discriminate].
  intros H Hp. apply andb_prop in H. destruct H as [-> H]. exact (IH l H Hp).
Qed.

(** The blanks a line starts with are the longest run of blanks it
    starts with. *)
Lemma leading_whitespace_greatest (p l : string) :
  whitespace_only p = true -> String.prefix p l = true ->
  String.prefix p (leading_whitespace l) = true.
Proof.
  revert l. induction p as [|a p IH]; intros l; [intros _ _; apply prefix_empty|].
  destruct l as [|b l]; [discriminate|]. rewrite whitespace_only_cons. simpl.
  destruct (ascii_dec a b) as [->|]; [|discriminate].
  intros H Hp. apply andb_prop in H. destruct H as [Hb H]. rewrite Hb. simpl.
  destruct (ascii_dec b b) as [_|Hn]; [exact (IH l H Hp)|contradiction Hn; reflexivity].
Qed.

(** The loop over the indents keeps the longest prefix they share. *)
Lemma narrow_margin_fold (indents : list string) (m : string) :
  exists m',
    fold_left narrow_margin indents (Some m) = Some m' /\
    String.prefix m' m = true /\
    (forall i, In i indents -> String.prefix m' i = true) /\
    (forall p, String.prefix p m = true ->
               (forall i, In i indents -> String.prefix p i = true) ->
               String.prefix p m' = true).
Proof.
  revert m. induction indents as [|i indents IH]; intros m; simpl.
  - exists m. split; [reflexivity|]. split; [apply prefix_refl|].
    split; [intros i []|]. intros p H _. exact H.
  - assert (Hstep : exists m1, (if String.prefix m i then Some m
                                else if String.prefix i m then Some i
                                else Some (common_prefix m i)) = Some m1 /\
                               String.prefix m1 m = true /\ String.prefix m1 i = true /\
                               forall p, String.prefix p m = true -> String.prefix p i = true ->
                                         String.prefix p m1 = true).
    { destruct (String.prefix m i) eqn:E1; [|destruct (String.prefix i m) eqn:E2].
      - exists m. split; [reflexivity|]. split; [apply prefix_refl|]. split; [exact E1|]. auto.
      - exists i. split; [reflexivity|]. split; [exact E2|]. split; [apply prefix_refl|]. auto.
      - exists (common_prefix m i). split; [reflexivity|].
        split; [apply common_prefix_l|]. split; [apply common_prefix_r|].
        intros p. apply common_prefix_greatest. }
    destruct Hstep as (m1 & -> & H1m & H1i & H1g).
    destruct (IH m1) as (m' & Hf & Hm' & Hall & Hg). exists m'.
    split; [exact Hf|]. split; [exact (prefix_trans _ _ _ Hm' H1m)|]. split.
    + intros j [<-|Hj]; [exact (prefix_trans _ _ _ Hm' H1i)|exact (Hall j Hj)].
    + intros p Hp Hpi. apply Hg.
      * apply H1g; [exact Hp|]. apply Hpi. left. reflexivity.
      * intros j Hj. apply Hpi. right. exact Hj.
Qed.

Lemma remove_prefix_empty (l : string) : remove_prefix EmptyString l = l.
Proof.
  unfold remove_prefix. rewrite prefix_empty. simpl. rewrite Nat.sub_0_r. apply substring_all.
Qed.

Lemma filter_emptied (ls : list string) :
  filter (fun l => negb (whitespace_only l))
         (map (fun l => if whitespace_only l then EmptyString else l) ls) =
  filter (fun l => negb (whitespace_only l)) ls.
Proof.
  induction ls as [|l ls IH]; [reflexivity|]. simpl.
  destruct (whitespace_only l) eqn:E; simpl; [exact IH|]. rewrite E. simpl. f_equal. exact IH.
Qed.

(** X12.  Whatever the text of the stylesheet, [dedent] keeps its lines,
    one for one and in order: there is a margin of blanks that every line
    with something other than blanks starts with, and the longest such;
    each of these lines loses the margin and nothing else, and each line
    of blanks only becomes empty. *)
Theorem dedent_removes_margin (text : string) :
  exists margin,
    whitespace_only margin = true /\
    (forall l, In l (split_lines text) -> whitespace_only l = false ->
       l = String.append margin (remove_prefix margin l)) /\
    (forall p, whitespace_only p = true ->
       (exists l, In l (split_lines text) /\ whitespace_only l = false) ->
       (forall l, In l (split_lines text) -> whitespace_only l = false ->
          String.prefix p l = true) ->
       String.prefix p margin = true) /\
    split_lines (dedent text) =
    map (fun l => if whitespace_only l then EmptyString else remove_prefix margin l)
        (split_lines text).
Proof.
  destruct (split_lines_lines text) as [Hne Hlines]. unfold dedent.
  set (lines := map (fun l => if whitespace_only l then EmptyString else l) (split_lines text)).
  assert (Hfilter : filter (fun l => negb (whitespace_only l)) lines =
                    filter (fun l => negb (whitespace_only l)) (split_lines text)).
  { apply filter_emptied. }
  rewrite Hfilter.
  assert (Hl1 : lines <> []).
  { unfold lines. destruct (split_lines text); [contradiction Hne; reflexivity|discriminate]. }
  assert (Hl2 : Forall (fun l => split_lines l = [l]) lines).
  { unfold lines. apply Forall_forall. intros l Hl. apply in_map_iff in Hl.
    destruct Hl as (l0 & <- & Hl0). destruct (whitespace_only l0); [reflexivity|].
    rewrite Forall_forall in Hlines. exact (Hlines l0 Hl0). }
  assert (Hmap : forall m,
            map (remove_prefix m) lines =
            map (fun l => if whitespace_only l then EmptyString else remove_prefix m l)
                (split_lines text)).
  { intros m. unfold lines. rewrite map_map. apply map_ext. intros l.
    destruct (whitespace_only l); [|reflexivity]. destruct m; reflexivity. }
  assert (Hjoin : forall m,
            split_lines (join_lines (map (remove_prefix m) lines)) =
            map (fun l => if whitespace_only l then EmptyString else remove_prefix m l)
                (split_lines text)).
  { intros m. rewrite split_join_lines.
    - apply Hmap.
    - destruct lines; [contradiction Hl1; reflexivity|discriminate].
    - apply Forall_forall. intros l Hl. apply in_map_iff in Hl. destruct Hl as (l0 & <- & Hl0).
      apply remove_prefix_line. rewrite Forall_forall in Hl2. exact (Hl2 l0 Hl0). }
  assert (Hjoin0 : split_lines (join_lines lines) =
                   map (fun l => if whitespace_only l then EmptyString
                                 else remove_prefix EmptyString l) (split_lines text)).
  { rewrite <- Hjoin. f_equal. f_equal. symmetry. rewrite <- (map_id lines) at 2.
    apply map_ext. apply remove_prefix_empty. }
  destruct (filter (fun l => negb (whitespace_only l)) (split_lines text)) as [|l0 ls] eqn:Ef.
  - (* no line has anything but blanks *)
    simpl. exists EmptyString. split; [reflexivity|]. split; [|split; [|exact Hjoin0]].
    + intros l Hl Hw. exfalso.
      assert (Hin : In l []) by (rewrite <- Ef; apply filter_In; rewrite Hw; auto).
      exact Hin.
    + intros p _ (l & Hl & Hw) _. exfalso.
      assert (Hin : In l []) by (rewrite <- Ef; apply filter_In; rewrite Hw; auto).
      exact Hin.
  - cbn [map fold_left narrow_margin].
    destruct (narrow_margin_fold (map leading_whitespace ls) (leading_whitespace l0))
      as (m & -> & Hm0 & Hall & Hg).
    assert (Hin : forall l, In l (split_lines text) -> whitespace_only l = false ->
                            l = l0 \/ In l ls).
    { intros l Hl Hw. assert (H : In l (l0 :: ls))
        by (rewrite <- Ef; apply filter_In; rewrite Hw; auto).
      destruct H as [H|H]; auto. }
    assert (Hpre : forall l, In l (split_lines text) -> whitespace_only l = false ->
                             String.prefix m l = true).
    { intros l Hl Hw. destruct (Hin l Hl Hw) as [->|H].
      - exact (prefix_trans _ _ _ Hm0 (leading_whitespace_prefix l0)).
      - apply (prefix_trans _ (leading_whitespace l)); [|apply leading_whitespace_prefix].
        apply Hall. apply in_map. exact H. }
    assert (Hgreatest : forall p, whitespace_only p = true ->
              (forall l, In l (split_lines text) -> whitespace_only l = false ->
                 String.prefix p l = true) -> String.prefix p m = true).
    { intros p Hp Hpl.
      assert (Hsub : forall l, In l (l0 :: ls) ->
                In l (split_lines text) /\ whitespace_only l = false).
      { intros l Hl. rewrite <- Ef in Hl. apply filter_In in Hl. destruct Hl as [Hl Hw].
        split; [exact Hl|]. apply negb_true_iff. exact Hw. }
      apply Hg.
      - destruct (Hsub l0 (or_introl eq_refl)) as [Hl Hw].
        apply leading_whitespace_greatest; [exact Hp|exact (Hpl l0 Hl Hw)].
      - intros i Hi. apply in_map_iff in Hi. destruct Hi as (l & <- & Hl).
        destruct (Hsub l (or_intror Hl)) as [Hl' Hw].
        apply leading_whitespace_greatest; [exact Hp|exact (Hpl l Hl' Hw)]. }
    exists m. split; [exact (@whitespace_only_prefix m _ (whitespace_only_leading l0) Hm0)|].
    split; [intros l Hl Hw; exact (remove_prefix_append _ _ (Hpre l Hl Hw))|].
    split; [intros p Hp _ Hpl; exact (Hgreatest p Hp Hpl)|].
    destruct m as [|c m]; [exact Hjoin0|apply Hjoin].
Qed.

(** ** The environment *)

Lemma dict_get_app (V : Type) (a b : list (string * V)) (k : string) :
  dict_get (a ++ b) k = match dict_get a k with Some v => Some v | None => dict_get b k end.
Proof.
  induction a as [|[k' v'] a IH]; [reflexivity|]. simpl.
  destruct (String.eqb k' k); [reflexivity|exact IH].
Qed.

Lemma dict_get_filter_keys (V : Type) (p : string -> bool) (d : list (string * V)) (k : string) :
  dict_get (filter (fun kv => p (fst kv)) d) k = if p k then dict_get d k else None.
Proof.
  induction d as [|[k' v'] d IH]; simpl; [destruct (p k); reflexivity|].
  destruct (String.eqb_spec k' k) as [->|Hne].
  - destruct (p k) eqn:E; simpl; [rewrite String.eqb_refl; reflexivity|].
    exact IH.
  - destruct (p k') eqn:E; simpl; [|exact IH].
    destruct (String.eqb_spec k' k) as [Heq|_]; [contradiction|exact IH].
Qed.

(** [deep_update] key by key: a key of both takes the deep update of its
    two values, a key of one its value there. *)
Lemma dict_get_deep_update (mapping updating : kwargs) (k : string) :
  dict_get (deep_update mapping updating) k =
  match dict_get mapping k, dict_get updating k with
  | Some w, Some v => Some (deep_update_value w v)
  | Some w, None => Some w
  | None, r => r
  end.
Proof.
  unfold deep_update. cbn [deep_update_value]. rewrite dict_get_app.
  rewrite (dict_get_filter_keys (fun k => negb (dict_has mapping k)) updating k).
  unfold dict_has at 1.
  induction mapping as [|[k' w'] mapping IH]; [reflexivity|]. cbn [dict_get].
  destruct (String.eqb k' k) eqn:E.
  - apply String.eqb_eq in E. subst k'. destruct (dict_get updating k); reflexivity.
  - exact IH.
Qed.

Lemma deep_update_value_plain (w v : pyval) :
  (forall items, v <> PyDict items) -> deep_update_value w v = v.
Proof.
  intros H. destruct w; try reflexivity. destruct v; try reflexivity.
  contradiction (H items0). reflexivity.
Qed.

Section Environment.
Variable rt : runtime.

(** X13.  Arguments come before the environment, and the environment
    before the defaults: when the environment has the values [found] for
    the class, each field of an instance holds what its validator makes
    of the argument given for it, or else of the value found for it, or
    else of its default.  When both give a dict for the field, the two
    are merged, the argument's items over those found; an argument that
    is no dict replaces the value found. *)
Theorem arguments_over_environment (c : class_id) (found kw : kwargs) (m : pyval) :
  c <> Config -> plain kw = true ->
  settings_sources rt c [] = Done found ->
  new rt c kw = Ok m ->
  (forall g, In g (fields_of c) ->
     exists v', getattr m (name g) = Some v' /\
       validate rt (type_ g) [name g]
         (match dict_get kw (name g), dict_get found (name g) with
          | Some v, Some w => deep_update_value w v
          | Some v, None => v
          | None, Some w => w
          | None, None => default g
          end) = Valid v') /\
  (forall w v, (forall items, v <> PyDict items) -> deep_update_value w v = v).
Proof.
  intros Hc Hp Hfound Hnew. split; [|exact deep_update_value_plain].
  intros g Hg. rewrite (new_settings rt Hc) in Hnew. unfold BaseSettings_init in Hnew.
  rewrite (plain_no_self kw Hp) in Hnew.
  rewrite (filter_none is_option kw (plain_no_option kw Hp)) in Hnew.
  rewrite (filter_all (fun kv => negb (is_option kv)) kw (plain_no_option kw Hp)) in Hnew.
  unfold _build_values in Hnew. rewrite Hfound in Hnew.
  destruct (@BaseModel_init_holds _ (validate rt) c (fields_of c) (deep_update found kw) m g
              (validate_nonempty rt) (names_distinct c) Hnew Hg) as (v' & Hv & Hget).
  exists v'. split; [exact Hget|]. unfold value_for in Hv.
  rewrite dict_get_deep_update in Hv.
  destruct (dict_get kw (name g)) as [v|], (dict_get found (name g)) as [w|]; exact Hv.
Qed.

End Environment.

(** * Closed examples

    Each theorem above, applied in [example_runtime]; and the inputs at
    which the claims that were amended fail as they were stated. *)

Lemma example_clean : clean_environment example_runtime.
Proof. intros c opts _. reflexivity. Qed.

Lemma keycode_map_last_write_wins_example :
  exists m km,
    new example_runtime ParseConfig [] = Ok m /\
    getattr m "keycode_map" = Some km /\
    getitem km "AT" = Some (PyStr "@") /\
    getitem km "COLON" = Some (PyStr "'").
Proof.
  destruct (keycode_map_last_write_wins example_clean) as (m & km & Hm & Hkm & Hlast & Hcolon & _).
  exists m, km. split; [exact Hm|]. split; [exact Hkm|]. split; [|exact Hcolon].
  rewrite (Hlast "AT") by (vm_compute; reflexivity). vm_compute. reflexivity.
Defined.

Lemma derived_defaults_not_recomputed_example :
  exists m,
    new example_runtime DrawConfig [("key_w", PyInt 100); ("key_h", PyInt 10)] = Ok m /\
    getattr m "key_w" = Some (PyInt 100) /\
    getattr m "split_gap" = Some (PyInt 30) /\
    getattr m "combo_w" = Some (PyInt 28) /\
    getattr m "combo_h" = Some (PyInt 26).
Proof.
  assert (E : exists m, new example_runtime DrawConfig [("key_w", PyInt 100); ("key_h", PyInt 10)]
                        = Ok m) by (vm_compute; eexists; reflexivity).
  destruct E as [m E]. exists m. split; [exact E|].
  exact (proj2 (proj2 (derived_defaults_not_recomputed example_clean))
           [("key_w", PyInt 100); ("key_h", PyInt 10)] 100 m
           eq_refl eq_refl eq_refl eq_refl eq_refl E).
Defined.

Lemma default_values_example :
  exists d p,
    new example_runtime DrawConfig [] = Ok d /\ new example_runtime ParseConfig [] = Ok p /\
    getattr d "key_w" = Some (PyInt 60) /\
    getattr p "preprocess" = Some (PyBool true).
Proof.
  destruct (default_values example_clean) as (d & p & Hd & Hp & Hw & H).
  exists d, p. split; [exact Hd|]. split; [exact Hp|]. split; [exact Hw|].
  decompose [and] H. assumption.
Defined.

Lemma single_override_frame_example :
  exists m m0,
    new example_runtime DrawConfig [("key_h", PyInt 40)] = Ok m /\
    new example_runtime DrawConfig [] = Ok m0 /\
    getattr m "key_h" = Some (PyInt 40) /\
    forall g, g <> "key_h" -> getattr m g = getattr m0 g.
Proof.
  exact (@single_override_frame example_runtime example_clean
           DrawConfig "key_h" TInt (PyInt 40) eq_refl eq_refl).
Defined.

Lemma single_override_validated_example :
  new example_runtime ParseConfig [("preprocess", PyStr "maybe")] =
  Raise (ValidationError ParseConfig [(["preprocess"], BoolError)]) /\
  new example_runtime ParseConfig [("keycode_map", PyDict [("A", PyNone); ("B", PyStr "b")])] =
  Raise (ValidationError ParseConfig [(["keycode_map"; "A"], NoneIsNotAllowedError)]).
Proof.
  split.
  - exact (proj1 (proj2 (@single_override_validated example_runtime example_clean
                           ParseConfig "preprocess" TBool (PyStr "maybe") eq_refl))).
  - exact (proj1 (proj2 (@single_override_validated example_runtime example_clean
                           ParseConfig "keycode_map" TDict_str_str
                           (PyDict [("A", PyNone); ("B", PyStr "b")]) eq_refl))).
Defined.

Lemma unknown_key_forbidden_example :
  match new example_runtime DrawConfig [("colour", PyStr "red")] with
  | Ok _ => False
  | Raise (ValidationError c' errs) => c' = DrawConfig /\ In (["colour"], ExtraError) errs
  | Raise (Exception e) => e = OverflowError \/ e = OSError
  end.
Proof.
  apply (proj1 (@unknown_key_forbidden example_runtime example_clean DrawConfig
                  [("colour", PyStr "red")] eq_refl) "colour").
  - left. reflexivity.
  - intros H. simpl in H. repeat (destruct H as [H|H]; [discriminate H|]). exact H.
Defined.

Lemma serialise_reconstruct_example :
  exists m,
    new example_runtime Config [("draw_config", PyDict [("key_w", PyStr "42")])] = Ok m /\
    exists c d, m = PyModel c d /\ new example_runtime c (to_dict m) = Ok m.
Proof.
  assert (E : exists m, new example_runtime Config
                          [("draw_config", PyDict [("key_w", PyStr "42")])] = Ok m)
    by (vm_compute; eexists; reflexivity).
  destruct E as [m E]. exists m. split; [exact E|].
  apply (serialise_reconstruct example_clean).
  apply constructed_Config with (kw := [("draw_config", PyDict [("key_w", PyStr "42")])]).
  - reflexivity.
  - intros k c d [H|[]]. discriminate H.
  - exact E.
Defined.

Lemma aggregate_frame_example :
  exists m p,
    new example_runtime Config [("draw_config", PyDict [("key_w", PyInt 10)])] = Ok m /\
    new example_runtime ParseConfig [] = Ok p /\
    getattr m "parse_config" = Some p.
Proof.
  assert (E : exists m, new example_runtime Config
                          [("draw_config", PyDict [("key_w", PyInt 10)])] = Ok m)
    by (vm_compute; eexists; reflexivity).
  destruct E as [m E].
  destruct (proj1 (aggregate_frame example_clean) _ m E) as (p & Hp & Hm).
  exists m, p. auto.
Defined.

Lemma default_stylesheet_example :
  exists d,
    new example_runtime DrawConfig [] = Ok d /\
    getattr d "svg_style" = Some (PyStr (dedent DrawConfig.svg_style_literal)) /\
    In ".held {" (split_lines (dedent DrawConfig.svg_style_literal)).
Proof.
  destruct (default_stylesheet example_clean) as (d & Hd & Hs & _ & Hsel).
  exists d. split; [exact Hd|]. split; [exact Hs|].
  apply (Hsel ".held"). left. reflexivity.
Defined.

Lemma keycode_map_single_glyphs_example :
  exists m km,
    new example_runtime ParseConfig [] = Ok m /\
    getattr m "keycode_map" = Some km /\
    exists s, getitem km "TILDE2" = Some (PyStr s) /\ String.length s = 1%nat.
Proof.
  destruct (keycode_map_single_glyphs example_clean) as (m & km & Hm & Hkm & Hall).
  exists m, km. split; [exact Hm|]. split; [exact Hkm|].
  assert (E : getitem km "TILDE2" = Some (PyStr "~")).
  { simpl new in Hm. rewrite (ParseConfig_default example_clean) in Hm.
    injection Hm as <-. simpl in Hkm. injection Hkm as <-. vm_compute. reflexivity. }
  destruct (Hall "TILDE2" _ E) as (s & [= <-] & Hs). exists "~". auto.
Defined.

(** C4 as stated fails: a value that has not the field's type is
    converted, not refused (a float or a numeral for an int field, a word
    for a bool field, an int for a str field); and an int too large for a
    float field raises OverflowError, not a ValidationError. *)
Lemma mismatched_value_converted :
  (well_typed TInt (PyFloat 60.5) = false /\
   exists m, new example_runtime DrawConfig [("key_w", PyFloat 60.5)] = Ok m /\
             getattr m "key_w" = Some (PyInt 60)) /\
  (well_typed TInt (PyStr "42") = false /\
   exists m, new example_runtime DrawConfig [("key_w", PyStr "42")] = Ok m /\
             getattr m "key_w" = Some (PyInt 42)) /\
  (well_typed TBool (PyStr "yes") = false /\
   exists m, new example_runtime ParseConfig [("preprocess", PyStr "yes")] = Ok m /\
             getattr m "preprocess" = Some (PyBool true)) /\
  (well_typed TStr (PyInt 5) = false /\
   exists m, new example_runtime DrawConfig [("svg_style", PyInt 5)] = Ok m /\
             getattr m "svg_style" = Some (PyStr "5")) /\
  (well_typed TFloat (PyInt (10 ^ 400)) = false /\
   new example_runtime DrawConfig [("arc_scale", PyInt (10 ^ 400))] =
   Raise (Exception OverflowError)).
Proof.
  repeat split; try (eexists; split); vm_compute; reflexivity.
Qed.

(** C5 as stated fails: a key that names an option of the constructor is
    no declared field, and is bound to the option, not refused; and a key
    named like the constructor's first parameter raises TypeError, not a
    ValidationError. *)
Lemma option_key_not_refused :
  (~ In "_env_file" (declared DrawConfig) /\
   exists m, new example_runtime DrawConfig [("_env_file", PyNone)] = Ok m /\
             new example_runtime DrawConfig [] = Ok m) /\
  (~ In "__pydantic_self__" (declared DrawConfig) /\
   new example_runtime DrawConfig [("__pydantic_self__", PyInt 1)] =
   Raise (Exception TypeError)).
Proof.
  split; split.
  - intros H. simpl in H. repeat (destruct H as [H|H]; [discriminate H|]). exact H.
  - eexists. split; vm_compute; reflexivity.
  - intros H. simpl in H. repeat (destruct H as [H|H]; [discriminate H|]). exact H.
  - reflexivity.
Qed.

(** ** Closed examples of the further properties *)

Lemma instance_fields_typed_example :
  exists m d,
    new example_runtime DrawConfig [("split_gap", PyFloat 12.5)] = Ok m /\
    m = PyModel DrawConfig d /\ keys d = declared DrawConfig /\
    exists v, getattr m "split_gap" = Some v /\ well_typed TInt v = true.
Proof.
  assert (E : exists m, new example_runtime DrawConfig [("split_gap", PyFloat 12.5)] = Ok m)
    by (vm_compute; eexists; reflexivity).
  destruct E as [m E].
  assert (Hc : DrawConfig <> Config) by discriminate.
  destruct (@instance_fields_typed example_runtime DrawConfig _ m Hc E)
    as (d & Hm & Hk & _ & Hf).
  exists m, d. split; [exact E|]. split; [exact Hm|]. split; [exact Hk|].
  exact (Hf "split_gap" TInt eq_refl).
Defined.

Lemma overrides_frame_example :
  exists m m0,
    new example_runtime DrawConfig [("key_w", PyInt 100); ("key_h", PyFloat 10.5)] = Ok m /\
    new example_runtime DrawConfig [] = Ok m0 /\
    getattr m "outer_pad_w" = getattr m0 "outer_pad_w" /\
    getattr m "outer_pad_h" = getattr m0 "outer_pad_h" /\
    exists v', validate example_runtime TInt ["key_h"] (PyFloat 10.5) = Valid v' /\
               getattr m "key_h" = Some v'.
Proof.
  assert (E : exists m, new example_runtime DrawConfig
                          [("key_w", PyInt 100); ("key_h", PyFloat 10.5)] = Ok m)
    by (vm_compute; eexists; reflexivity).
  destruct E as [m E].
  assert (Hc : DrawConfig <> Config) by discriminate.
  destruct (@overrides_frame example_runtime example_clean DrawConfig
              [("key_w", PyInt 100); ("key_h", PyFloat 10.5)] m Hc eq_refl E)
    as (m0 & Hm0 & Hf).
  exists m, m0. split; [exact E|]. split; [exact Hm0|].
  split; [exact (Hf "outer_pad_w" TInt eq_refl)|].
  split; [exact (Hf "outer_pad_h" TInt eq_refl)|].
  exact (Hf "key_h" TInt eq_refl).
Defined.

Lemma all_failures_reported_example :
  (exists errs,
     new example_runtime DrawConfig
       [("key_w", PyStr "wide"); ("colour", PyStr "red"); ("arc_scale", PyNone)] =
     Raise (ValidationError DrawConfig errs) /\
     In (["colour"], ExtraError) errs /\
     incl [(["key_w"], IntegerError)] errs /\
     incl [(["arc_scale"], NoneIsNotAllowedError)] errs) /\
  (exists errs,
     new example_runtime ParseConfig
       [("keycode_map", PyDict [("A", PyNone)]); ("preprocess", PyInt 2)] =
     Raise (ValidationError ParseConfig errs) /\
     incl [(["preprocess"], BoolError)] errs /\
     incl [(["keycode_map"; "A"], NoneIsNotAllowedError)] errs).
Proof.
  split.
  - assert (E : exists errs,
              new example_runtime DrawConfig
                [("key_w", PyStr "wide"); ("colour", PyStr "red"); ("arc_scale", PyNone)] =
              Raise (ValidationError DrawConfig errs))
      by (vm_compute; eexists; reflexivity).
    destruct E as [errs E].
    assert (Hc : DrawConfig <> Config) by discriminate.
    destruct (@all_failures_reported example_runtime example_clean DrawConfig DrawConfig
                [("key_w", PyStr "wide"); ("colour", PyStr "red"); ("arc_scale", PyNone)] errs
                Hc eq_refl E) as (_ & Hall & _).
    exists errs. split; [exact E|].
    split; [exact (Hall "colour" (PyStr "red") eq_refl)|].
    split; [exact (Hall "key_w" (PyStr "wide") eq_refl _ eq_refl)|].
    exact (Hall "arc_scale" PyNone eq_refl _ eq_refl).
  - assert (E : exists errs,
              new example_runtime ParseConfig
                [("keycode_map", PyDict [("A", PyNone)]); ("preprocess", PyInt 2)] =
              Raise (ValidationError ParseConfig errs))
      by (vm_compute; eexists; reflexivity).
    destruct E as [errs E].
    assert (Hc : ParseConfig <> Config) by discriminate.
    destruct (@all_failures_reported example_runtime example_clean ParseConfig ParseConfig
                [("keycode_map", PyDict [("A", PyNone)]); ("preprocess", PyInt 2)] errs
                Hc eq_refl E) as (_ & Hall & _).
    exists errs. split; [exact E|].
    split; [exact (Hall "preprocess" (PyInt 2) eq_refl _ eq_refl)|].
    exact (Hall "keycode_map" (PyDict [("A", PyNone)]) eq_refl _ eq_refl).
Defined.

Lemma only_overflow_escapes_example :
  new example_runtime DrawConfig [("key_w", PyInt 1); ("arc_scale", PyInt (2 ^ 1024))] =
  Raise (Exception OverflowError).
Proof.
  assert (Hc : DrawConfig <> Config) by discriminate.
  apply (proj2 (@only_overflow_escapes example_runtime example_clean DrawConfig
                  [("key_w", PyInt 1); ("arc_scale", PyInt (2 ^ 1024))] OverflowError
                  Hc eq_refl)).
  split; [reflexivity|]. split; [reflexivity|].
  exists (2 ^ 1024). split; [reflexivity|vm_compute; reflexivity].
Defined.

Lemma None_refused_example :
  new example_runtime Config [("parse_config", PyNone)] =
  Raise (ValidationError Config [(["parse_config"], NoneIsNotAllowedError)]).
Proof.
  apply (@None_refused example_runtime example_clean Config "parse_config").
  right. left. reflexivity.
Defined.

Lemma Config_holds_instances_example :
  exists m d p,
    new example_runtime Config [("draw_config", PyDict [("key_w", PyStr "42")])] = Ok m /\
    getattr m "draw_config" = Some (PyModel DrawConfig d) /\
    getattr m "parse_config" = Some (PyModel ParseConfig p) /\
    holds_fields DrawConfig d /\ holds_fields ParseConfig p.
Proof.
  assert (E : exists m, new example_runtime Config
                          [("draw_config", PyDict [("key_w", PyStr "42")])] = Ok m)
    by (vm_compute; eexists; reflexivity).
  destruct E as [m E].
  destruct (@Config_holds_instances example_runtime example_clean
              [("draw_config", PyDict [("key_w", PyStr "42")])] m eq_refl)
    as (d & p & Hd & Hp & Hdf & Hpf & _).
  - intros k c d [H|[]]. discriminate H.
  - exact E.
  - exists m, d, p. auto.
Defined.

Lemma nested_dict_constructs_example :
  new example_runtime Config [("draw_config", PyDict [("key_w", PyStr "wide")])] =
  Raise (ValidationError Config [(["draw_config"; "key_w"], IntegerError)]) /\
  new example_runtime Config
    [("parse_config", PyDict [("keycode_map", PyDict [("A", PyNone)])])] =
  Raise (ValidationError Config
           [(["parse_config"; "keycode_map"; "A"], NoneIsNotAllowedError)]) /\
  new example_runtime Config [("draw_config", PyDict [("__pydantic_self__", PyInt 1)])] =
  Raise (ValidationError Config [(["draw_config"], CaughtTypeError)]).
Proof.
  split; [|split].
  - pose proof (@nested_dict_constructs example_runtime example_clean TDrawConfig
                  [("key_w", PyStr "wide")]) as H.
    assert (E : new example_runtime (class_of TDrawConfig) [("key_w", PyStr "wide")] =
                Raise (ValidationError DrawConfig [(["key_w"], IntegerError)]))
      by (vm_compute; reflexivity).
    rewrite E in H. exact H.
  - pose proof (@nested_dict_constructs example_runtime example_clean TParseConfig
                  [("keycode_map", PyDict [("A", PyNone)])]) as H.
    assert (E : new example_runtime (class_of TParseConfig)
                  [("keycode_map", PyDict [("A", PyNone)])] =
                Raise (ValidationError ParseConfig
                         [(["keycode_map"; "A"], NoneIsNotAllowedError)]))
      by (vm_compute; reflexivity).
    rewrite E in H. exact H.
  - exact (@nested_dict_constructs example_runtime example_clean TDrawConfig
             [("__pydantic_self__", PyInt 1)]).
Defined.

Lemma other_class_refused_example :
  new example_runtime Config [("draw_config", default_instance example_runtime ParseConfig)] =
  Raise (ValidationError Config
           [(["draw_config"; "keycode_map"], ExtraError);
            (["draw_config"; "preprocess"], ExtraError);
            (["draw_config"; "skip_binding_parsing"], ExtraError)]).
Proof.
  assert (Hne : TParseConfig <> TDrawConfig) by discriminate.
  assert (Hc : ParseConfig <> Config) by discriminate.
  exact (@other_class_refused example_runtime example_clean TDrawConfig TParseConfig _ Hne
           (default_instance_holds example_clean Hc)).
Defined.

Lemma keycode_map_entries_kept_example :
  exists m items,
    new example_runtime ParseConfig [] = Ok m /\
    getattr m "keycode_map" = Some (PyDict items) /\
    dict_get items "MINUS" = Some (PyStr "-") /\
    dict_get items "LBRC" = None.
Proof.
  destruct (keycode_map_entries_kept example_clean)
    as (m & items & Hm & Hkm & _ & _ & _ & Hin & _ & Hl & _).
  exists m, items. split; [exact Hm|]. split; [exact Hkm|]. split; [|exact Hl].
  apply Hin; [left; reflexivity|discriminate].
Defined.

Lemma overrides_order_irrelevant_example :
  new example_runtime DrawConfig [("key_w", PyInt 1); ("shape", PyInt 2); ("colour", PyInt 3)] =
  new example_runtime DrawConfig [("shape", PyInt 2); ("key_w", PyInt 1); ("colour", PyInt 3)].
Proof.
  apply (@overrides_order_irrelevant example_runtime example_clean DrawConfig).
  - repeat constructor; simpl; intros H;
      repeat (destruct H as [H|H]; [discriminate H|]); exact H.
  - reflexivity.
  - apply perm_swap.
Defined.

Lemma typed_overrides_kept_example :
  exists m m0,
    new example_runtime ParseConfig
      [("preprocess", PyBool false); ("keycode_map", PyDict [("A", PyStr "a")])] = Ok m /\
    new example_runtime ParseConfig [] = Ok m0 /\
    getattr m "keycode_map" = Some (PyDict [("A", PyStr "a")]) /\
    getattr m "skip_binding_parsing" = getattr m0 "skip_binding_parsing".
Proof.
  destruct (@typed_overrides_kept example_runtime example_clean ParseConfig
              [("preprocess", PyBool false); ("keycode_map", PyDict [("A", PyStr "a")])])
    as (m & m0 & Hm & Hm0 & Hf).
  - intros k v [[= <- <-]|[[= <- <-]|[]]]; reflexivity.
  - exists m, m0. split; [exact Hm|]. split; [exact Hm0|]. split.
    + apply (Hf "keycode_map"). simpl. auto.
    + apply (Hf "skip_binding_parsing"). simpl. auto.
Defined.

Lemma arguments_over_environment_example :
  exists m,
    new example_environment DrawConfig [("key_w", PyInt 100)] = Ok m /\
    (exists v', getattr m "key_w" = Some v' /\
       validate example_environment TInt ["key_w"] (PyInt 100) = Valid v') /\
    (exists v', getattr m "key_h" = Some v' /\
       validate example_environment TInt ["key_h"] (PyStr "70") = Valid v') /\
    (exists v', getattr m "split_gap" = Some v' /\
       validate example_environment TInt ["split_gap"] (PyFloat DrawConfig.split_gap) = Valid v').
Proof.
  assert (E : exists m, new example_environment DrawConfig [("key_w", PyInt 100)] = Ok m)
    by (vm_compute; eexists; reflexivity).
  destruct E as [m E].
  assert (Hc : DrawConfig <> Config) by discriminate.
  destruct (@arguments_over_environment example_environment DrawConfig
              [("key_w", PyStr "80"); ("key_h", PyStr "70")] [("key_w", PyInt 100)] m
              Hc eq_refl eq_refl E) as [Hf _].
  exists m. split; [exact E|].
  split; [apply (Hf {| name := "key_w"; type_ := TInt; default := PyInt DrawConfig.key_w |});
          simpl; auto 20|].
  split; [apply (Hf {| name := "key_h"; type_ := TInt; default := PyInt DrawConfig.key_h |});
          simpl; auto 20|].
  apply (Hf {| name := "split_gap"; type_ := TInt; default := PyFloat DrawConfig.split_gap |}).
  simpl. auto 20.
Defined.
